(** * Tic-Tac-Toe client: the session view-model of [src/app/page.tsx] and of
    its sibling revision [src/unnamed/part_000]

    The two source files are two revisions of the same React page.  Each one
    is embedded in a module of its own ([Page] and [Part000]); the values,
    the effects and the host functions they share come first.

    How the page is modelled.
    - The [useState] cells are the fields of a record [View]; a setter
      writes one field.  The values are the untyped values the JavaScript
      handles at run time: the TypeScript annotations are not checked when a
      reply is read.
    - [makeMove] and [startNewGame] are computations in a monad of state and
      exceptions.  A call is run to its end against the answer its one
      request gets ([FetchOutcome]); two calls in flight together are not
      interleaved, and [loading] is read from the state at the call.
    - What the browser provides and the page only calls -- [fetch],
      [response.json()], [JSON.parse], the messages of the errors it throws
      -- is a parameter: the answer of the network and a [Host].  A reference
      host with a JSON parser is given to run the page on concrete replies.
    - Rendering is what decides the interaction: which buttons exist and
      which are disabled. *)

From Stdlib Require Import String Ascii ZArith List Bool Lia.
From Stdlib Require Import DecimalString DecimalPos DecimalN DecimalZ.
Import ListNotations.
Local Open Scope string_scope.
Local Open Scope Z_scope.
Set Warnings "-register-all".

(** ** JavaScript values

    What [response.json()] and [JSON.parse] produce, plus [undefined], which
    a property read yields for an absent property.  Numbers are the integers
    (board positions, move counts and HTTP status codes are all the numbers
    the page handles), each held by its value; where the page computes with
    one, in [getPositionCoords], the rounding of doubles is written out.  An
    object is the list of its own properties in insertion order. *)

Inductive JSValue : Type :=
| JUndefined
| JNull
| JBool (b : bool)
| JNum (n : Z)
| JStr (s : string)
| JArr (items : list JSValue)
| JObj (fields : list (string * JSValue)).

(** Induction on a value that reaches the elements of an array and the
    properties of an object. *)
Section JSValue_induction.
Variable P : JSValue -> Prop.
Hypothesis P_undefined : P JUndefined.
Hypothesis P_null : P JNull.
Hypothesis P_bool : forall b, P (JBool b).
Hypothesis P_num : forall n, P (JNum n).
Hypothesis P_str : forall s, P (JStr s).
Hypothesis P_arr : forall items, Forall P items -> P (JArr items).
Hypothesis P_obj :
  forall fields, Forall (fun kv => P (snd kv)) fields -> P (JObj fields).

Fixpoint JSValue_nested_ind (v : JSValue) : P v :=
  match v with
  | JUndefined => P_undefined
  | JNull => P_null
  | JBool b => P_bool b
  | JNum n => P_num n
  | JStr s => P_str s
  | JArr items =>
      P_arr items
        ((fix all (l : list JSValue) : Forall P l :=
            match l with
            | [] => Forall_nil P
            | x :: rest => Forall_cons x (JSValue_nested_ind x) (all rest)
            end) items)
  | JObj fields =>
      P_obj fields
        ((fix all (l : list (string * JSValue))
            : Forall (fun kv => P (snd kv)) l :=
            match l with
            | [] => Forall_nil _
            | (k, x) :: rest =>
                Forall_cons (k, x) (JSValue_nested_ind x) (all rest)
            end) fields)
  end.
End JSValue_induction.

(** ToBoolean: what [if (v)], [v && w], [v || w] and JSX [{v && ...}] test. *)
Definition truthy (v : JSValue) : bool :=
  match v with
  | JUndefined | JNull => false
  | JBool b => b
  | JNum n => negb (n =? 0)
  | JStr s => negb (s =? "")%string
  | JArr _ | JObj _ => true
  end.

(** [v === 'literal'] for a string literal. *)
Definition is_string (v : JSValue) (literal : string) : bool :=
  match v with
  | JStr s => (s =? literal)%string
  | _ => false
  end.

(** [a || b] where [b] is a constant. *)
Definition or_else (a b : JSValue) : JSValue :=
  if truthy a then a else b.

Fixpoint own_property (k : string) (fields : list (string * JSValue)) : JSValue :=
  match fields with
  | [] => JUndefined
  | (k', v) :: rest => if (k' =? k)%string then v else own_property k rest
  end.

(** [v.k] for the property names the page reads ([success], [response],
    [error], [status], [game_state], [game_status], [message], [winner],
    [board], [available_moves]): none of them is inherited from a prototype,
    an array index or [length], so a boolean, a number, a string and an array
    answer [undefined].  [None] is the [TypeError] of reading a property of
    [null] or [undefined]. *)
Definition member (v : JSValue) (k : string) : option JSValue :=
  match v with
  | JUndefined | JNull => None
  | JObj fields => Some (own_property k fields)
  | JBool _ | JNum _ | JStr _ | JArr _ => Some JUndefined
  end.

(** [v?.k] *)
Definition optional_member (v : JSValue) (k : string) : JSValue :=
  match member v k with
  | Some x => x
  | None => JUndefined
  end.

(** The string a template literal inserts for a number: its decimal
    digits.  JavaScript writes those for every integer below [10^21] in
    absolute value and an exponent from there on; the positions the page
    formats are indices of an array plus one. *)
Definition Number_toString (n : Z) : string :=
  NilZero.string_of_int (Z.to_int n).

(** [String.prototype.includes] *)
Fixpoint String_includes (s sub : string) : bool :=
  prefix sub s ||
  match s with
  | EmptyString => false
  | String _ rest => String_includes rest sub
  end.

(** ** [JSON.stringify]

    The compact form ECMAScript prescribes: no white space, properties in
    insertion order, [undefined] dropped from objects and written [null]
    inside arrays. *)

Definition hex_digit (n : N) : ascii :=
  ascii_of_N (if (n <? 10)%N then 48 + n else 87 + n)%N.

Definition quote_char (c : ascii) : string :=
  let n := N_of_ascii c in
  if (n =? 34)%N then String "\" (String c "")
  else if (n =? 92)%N then "\\"
  else if (n =? 8)%N then "\b"
  else if (n =? 12)%N then "\f"
  else if (n =? 10)%N then "\n"
  else if (n =? 13)%N then "\r"
  else if (n =? 9)%N then "\t"
  else if (n <? 32)%N
       then "\u00" ++ String (hex_digit (n / 16)) (String (hex_digit (n mod 16)) "")
  else String c "".

Fixpoint quote_chars (s : string) : string :=
  match s with
  | EmptyString => ""
  | String c rest => quote_char c ++ quote_chars rest
  end.

Definition dquote : string := String "034"%char "".

Definition quote (s : string) : string := dquote ++ quote_chars s ++ dquote.

Fixpoint join (sep : string) (parts : list string) : string :=
  match parts with
  | [] => ""
  | [p] => p
  | p :: rest => p ++ sep ++ join sep rest
  end.

Fixpoint serialize (v : JSValue) : option string :=
  match v with
  | JUndefined => None
  | JNull => Some "null"
  | JBool true => Some "true"
  | JBool false => Some "false"
  | JNum n => Some (Number_toString n)
  | JStr s => Some (quote s)
  | JArr items =>
      Some ("[" ++ join ","
              (map (fun x => match serialize x with
                             | Some t => t
                             | None => "null"
                             end) items) ++ "]")
  | JObj fields =>
      Some ("{" ++ join ","
              (flat_map (fun kv => match serialize (snd kv) with
                                   | Some t => [quote (fst kv) ++ ":" ++ t]
                                   | None => []
                                   end) fields) ++ "}")
  end.

Definition JSON_stringify (v : JSValue) : JSValue :=
  match serialize v with
  | Some s => JStr s
  | None => JUndefined
  end.

(** ** Exceptions, the network and the host *)

(** What [catch (err)] can receive: an [Error] instance ([err instanceof
    Error], with its [message]) or any other thrown value. *)
Inductive Thrown : Type :=
| ErrorObject (message : string)
| ThrownValue (v : JSValue).

(** [await fetch(...)] either rejects or resolves to a response, of which the
    page reads [ok], [status] and the promise of [json()]. *)
Record Response : Type := {
  ok : bool;
  status : Z;
  json : Thrown + JSValue
}.

Inductive FetchOutcome : Type :=
| FetchRejects (reason : Thrown)
| FetchResolves (response : Response).

(** The host's built-ins the page relies on.  [JSON_parse] answers the parsed
    value or the message of the [SyntaxError] it throws;
    [TypeError_message v k] is the message of the [TypeError] raised by
    reading property [k] of [v], which is [null] or [undefined]. *)
Record Host : Type := {
  JSON_parse : string -> string + JSValue;
  TypeError_message : JSValue -> string -> string
}.

Record RequestInit : Type := {
  method : string;
  headers : list (string * string);
  body : JSValue
}.

Inductive ConsoleEntry : Type :=
| console_log_entry (label : string) (v : JSValue)
| console_error_entry (label : string) (err : Thrown).

(** The page's state cells together with what it has done to the outside:
    the requests sent, oldest first, and the console lines written. *)
Record World (V : Type) : Type := {
  view : V;
  requests : list (string * RequestInit);
  console : list ConsoleEntry
}.
Arguments view {V} _.
Arguments requests {V} _.
Arguments console {V} _.

(** ** Effects: state that survives a throw

    A computation runs on a state and ends either normally or by throwing;
    the state changes made before a throw are kept, as React keeps the
    [setState] calls made before an exception. *)
Section Effects.
Context {S : Type}.

Definition M (A : Type) : Type := S -> (Thrown + A) * S.

Definition ret {A} (a : A) : M A := fun s => (inr a, s).

Definition bind {A B} (c : M A) (k : A -> M B) : M B :=
  fun s =>
    match c s with
    | (inr a, s') => k a s'
    | (inl e, s') => (inl e, s')
    end.

Definition throw {A} (e : Thrown) : M A := fun s => (inl e, s).

Definition reads {A} (f : S -> A) : M A := fun s => (inr (f s), s).

Definition modify (f : S -> S) : M unit := fun s => (inr tt, f s).

(** [await p] for a promise that is already settled. *)
Definition await {A} (p : Thrown + A) : M A :=
  match p with
  | inl e => throw e
  | inr a => ret a
  end.

(** [try { body } catch (err) { handler } finally { cleanup }] *)
Definition try_catch_finally
    (body : M unit) (handler : Thrown -> M unit) (cleanup : M unit) : M unit :=
  fun s =>
    let (r1, s1) := body s in
    let (r2, s2) := match r1 with
                    | inl err => handler err s1
                    | inr tt => (inr tt, s1)
                    end in
    let (r3, s3) := cleanup s2 in
    match r3 with
    | inl e => (inl e, s3)
    | inr tt => (r2, s3)
    end.
End Effects.

Declare Scope js_scope.
Delimit Scope js_scope with js.
Notation "x <- c ;; k" := (bind c (fun x => k))
  (at level 61, c at next level, right associativity) : js_scope.
Notation "c ;; k" := (bind c (fun _ => k))
  (at level 61, right associativity) : js_scope.

Section HostEffects.
Context {V : Type}.
Variable host : Host.

(** [v.k] as a step that may throw. *)
Definition get (v : JSValue) (k : string) : M (S := World V) JSValue :=
  match member v k with
  | Some x => ret x
  | None => throw (ErrorObject (TypeError_message host v k))
  end.

Definition parse (s : string) : M (S := World V) JSValue :=
  match JSON_parse host s with
  | inl message => throw (ErrorObject message)
  | inr v => ret v
  end.

Definition fetch (net : FetchOutcome) (url : string) (init : RequestInit)
  : M (S := World V) Response :=
  fun w =>
    (match net with
     | FetchRejects reason => inl reason
     | FetchResolves response => inr response
     end,
     {| view := view w;
        requests := requests w ++ [(url, init)];
        console := console w |}).

Definition console_log (label : string) (v : JSValue) : M (S := World V) unit :=
  modify (fun w => {| view := view w; requests := requests w;
                      console := console w ++ [console_log_entry label v] |}).

Definition console_error (label : string) (err : Thrown) : M (S := World V) unit :=
  modify (fun w => {| view := view w; requests := requests w;
                      console := console w ++ [console_error_entry label err] |}).

Definition setView (f : V -> V) : M (S := World V) unit :=
  modify (fun w => {| view := f (view w); requests := requests w;
                      console := console w |}).
End HostEffects.

(** [err instanceof Error ? err.message : 'An error occurred'] *)
Definition error_text (err : Thrown) : JSValue :=
  match err with
  | ErrorObject message => JStr message
  | ThrownValue _ => JStr "An error occurred"
  end.

Definition AGENT_ID : string := "6914372f83addc655aec4b11".

(** What both revisions pass to [fetch]. *)
Definition agent_request (message : string) : RequestInit :=
  {| method := "POST";
     headers := [("Content-Type", "application/json")];
     body := JSON_stringify (JObj [("message", JStr message);
                                   ("agent_id", JStr AGENT_ID)]) |}.


(** ** What a cell and the result dialog show

    The parts of [Cell], [GameBoard] and [WinnerModal] that decide what is
    displayed and what can be clicked; class names other than the colours and
    the markup are left out. *)

Record CellProps : Type := {
  position : Z;
  value : JSValue;
  onClick : option Z;      (* the position [onCellClick] is called with, if any *)
  isAvailable : bool
}.

Record Button : Type := {
  displayValue : string;
  textColor : string;
  bgColor : string;
  disabled : bool;
  button_onClick : option Z
}.

Definition Cell (props : CellProps) : Button :=
  let '(shown, text, bg) :=
    if is_string (value props) "X" then ("X", "text-blue-400", "bg-gray-700")
    else if is_string (value props) "O" then ("O", "text-red-400", "bg-gray-700")
    else if isAvailable props
         then ("", "text-gray-400", "bg-gray-700 hover:bg-gray-600 cursor-pointer")
    else ("", "text-gray-400", "bg-gray-800") in
  {| displayValue := shown;
     textColor := text;
     bgColor := bg;
     disabled := negb (isAvailable props);
     button_onClick := onClick props |}.

(** [availableMoves.includes(position)]: on an array, membership of the
    number; on a string, the search for its decimal digits; anything else has
    no [includes] and the call throws ([None]). *)
Definition includes (availableMoves : JSValue) (p : Z) : option bool :=
  match availableMoves with
  | JArr items =>
      Some (existsb (fun x => match x with
                              | JNum n => n =? p
                              | _ => false
                              end) items)
  | JStr s => Some (String_includes s (Number_toString p))
  | _ => None
  end.

(** The callback of [board.map], applied from [index] on. *)
Fixpoint board_cells (availableMoves : JSValue) (isLoading : bool)
    (index : Z) (board : list JSValue) : option (list Button) :=
  match board with
  | [] => Some []
  | cell :: rest =>
      let p := index + 1 in
      match includes availableMoves p with
      | None => None
      | Some listed =>
          match board_cells availableMoves isLoading (index + 1) rest with
          | None => None
          | Some buttons =>
              Some (Cell {| position := p;
                            value := cell;
                            onClick := if negb isLoading then Some p else None;
                            isAvailable := listed && negb isLoading |}
                    :: buttons)
          end
      end
  end.

(** [const board = gameState?.board || [1, 2, 3, 4, 5, 6, 7, 8, 9]] *)
Definition GameBoard_board (gameState : JSValue) : JSValue :=
  or_else (optional_member gameState "board")
          (JArr (map JNum [1; 2; 3; 4; 5; 6; 7; 8; 9])).

(** [const availableMoves = gameState?.available_moves || []] *)
Definition GameBoard_availableMoves (gameState : JSValue) : JSValue :=
  or_else (optional_member gameState "available_moves") (JArr []).

(** [GameBoard]; [None] when rendering throws ([board] has no [map], or
    [availableMoves] no [includes]). *)
Definition GameBoard (gameState : JSValue) (isLoading : bool)
  : option (list Button) :=
  match GameBoard_board gameState with
  | JArr cells =>
      board_cells (GameBoard_availableMoves gameState) isLoading 0 cells
  | _ => None
  end.

(** The button of position [p], counted from 1 as the page counts. *)
Definition cell_at (buttons : list Button) (p : Z) : option Button :=
  if 1 <=? p then nth_error buttons (Z.to_nat (p - 1)) else None.

(** A click on the button of position [p] reaches its handler. *)
Definition clickable (buttons : list Button) (p : Z) : bool :=
  match cell_at buttons p with
  | Some b => negb (disabled b)
  | None => false
  end.

(** The button of position [p] displays X or O. *)
Definition shows_mark (buttons : list Button) (p : Z) : bool :=
  match cell_at buttons p with
  | Some b => negb (displayValue b =? "")%string
  | None => false
  end.

Record Modal : Type := {
  title : string;
  description : string;
  isOpen : bool
}.

(** ** The kinds of reply

    The error taxonomy of the specification, read on how a request is
    answered.  [TypeFailure] is the case the taxonomy leaves unnamed: the
    JSON is well formed but the envelope or the payload is [null], so reading
    its property throws. *)
Inductive FailureKind : Type :=
| NetworkFailure
| EnvelopeFailure
| ParseFailure
| TypeFailure.

Inductive Reply : Type :=
| Accepted (gameData : JSValue)
| Failed (kind : FailureKind).

(** ** [src/app/page.tsx] *)
Module Page.
Local Open Scope js_scope.

Record View : Type := {
  gameState : JSValue;
  gameStatus : JSValue;
  winner : JSValue;
  showWinnerModal : bool;
  loading : bool;
  message : JSValue;
  error : JSValue
}.

(** The [useState] initial values. *)
Definition initial : View :=
  {| gameState := JNull;
     gameStatus := JStr "in_progress";
     winner := JNull;
     showWinnerModal := false;
     loading := false;
     message := JStr "Starting new game...";
     error := JNull |}.

Definition Op : Type -> Type := M (S := World View).

Definition setGameState (x : JSValue) : Op unit :=
  setView (fun v => {| gameState := x; gameStatus := gameStatus v;
                       winner := winner v; showWinnerModal := showWinnerModal v;
                       loading := loading v; message := message v;
                       error := error v |}).

Definition setGameStatus (x : JSValue) : Op unit :=
  setView (fun v => {| gameState := gameState v; gameStatus := x;
                       winner := winner v; showWinnerModal := showWinnerModal v;
                       loading := loading v; message := message v;
                       error := error v |}).

Definition setWinner (x : JSValue) : Op unit :=
  setView (fun v => {| gameState := gameState v; gameStatus := gameStatus v;
                       winner := x; showWinnerModal := showWinnerModal v;
                       loading := loading v; message := message v;
                       error := error v |}).

Definition setShowWinnerModal (x : bool) : Op unit :=
  setView (fun v => {| gameState := gameState v; gameStatus := gameStatus v;
                       winner := winner v; showWinnerModal := x;
                       loading := loading v; message := message v;
                       error := error v |}).

Definition setLoading (x : bool) : Op unit :=
  setView (fun v => {| gameState := gameState v; gameStatus := gameStatus v;
                       winner := winner v; showWinnerModal := showWinnerModal v;
                       loading := x; message := message v;
                       error := error v |}).

Definition setMessage (x : JSValue) : Op unit :=
  setView (fun v => {| gameState := gameState v; gameStatus := gameStatus v;
                       winner := winner v; showWinnerModal := showWinnerModal v;
                       loading := loading v; message := x;
                       error := error v |}).

Definition setError (x : JSValue) : Op unit :=
  setView (fun v => {| gameState := gameState v; gameStatus := gameStatus v;
                       winner := winner v; showWinnerModal := showWinnerModal v;
                       loading := loading v; message := message v;
                       error := x |}).

Section Operations.
Variable host : Host.
Variable net : FetchOutcome.   (* how the request of this call is answered *)

(** The [try] block of [makeMove]. *)
Definition makeMove_try (p : Z) : Op unit :=
  response <- fetch net "/api/agent"
                (agent_request ("move " ++ Number_toString p)) ;;
  (if negb (ok response)
   then throw (ErrorObject ("API error: " ++ Number_toString (status response)))
   else ret tt) ;;
  data <- await (json response) ;;
  console_log "Move response:" data ;;
  success <- get host data "success" ;;
  accepted <- (if truthy success then get host data "response" else ret success) ;;
  if truthy accepted then
    payload <- get host data "response" ;;
    gameData <- match payload with
                | JStr s => parse host s
                | _ => ret payload
                end ;;
    game_state <- get host gameData "game_state" ;;
    setGameState game_state ;;
    game_status <- get host gameData "game_status" ;;
    setGameStatus game_status ;;
    text <- get host gameData "message" ;;
    setMessage text ;;
    ending <- get host gameData "game_status" ;;
    if is_string ending "won" || is_string ending "draw" then
      won_by <- get host gameData "winner" ;;
      setWinner won_by ;;
      setShowWinnerModal true
    else ret tt
  else
    failure <- get host data "error" ;;
    setError (or_else failure (JStr "Failed to process move")).

(** The statements of [makeMove] between its guard and the [try]: the
    request has not gone out yet. *)
Definition makeMove_begin : Op unit :=
  setLoading true ;;
  setError JNull.

(** [makeMove] past its guard. *)
Definition makeMove_after_guard (p : Z) : Op unit :=
  makeMove_begin ;;
  try_catch_finally
    (makeMove_try p)
    (fun err => setError (error_text err) ;; console_error "Move error:" err)
    (setLoading false).

Definition makeMove (p : Z) : Op unit :=
  isLoading <- reads (fun w => loading (view w)) ;;
  if isLoading then ret tt
  else makeMove_after_guard p.

(** The statements of [startNewGame] that run before the request goes out. *)
Definition startNewGame_reset : Op unit :=
  setLoading true ;;
  setError JNull ;;
  setWinner JNull ;;
  setShowWinnerModal false ;;
  setGameStatus (JStr "in_progress").

(** The [try] block of [startNewGame]. *)
Definition startNewGame_try : Op unit :=
  response <- fetch net "/api/agent" (agent_request "new game") ;;
  (if negb (ok response)
   then throw (ErrorObject ("API error: " ++ Number_toString (status response)))
   else ret tt) ;;
  data <- await (json response) ;;
  console_log "New game response:" data ;;
  success <- get host data "success" ;;
  accepted <- (if truthy success then get host data "response" else ret success) ;;
  if truthy accepted then
    payload <- get host data "response" ;;
    gameData <- match payload with
                | JStr s => parse host s
                | _ => ret payload
                end ;;
    game_state <- get host gameData "game_state" ;;
    setGameState game_state ;;
    game_status <- get host gameData "game_status" ;;
    setGameStatus game_status ;;
    text <- get host gameData "message" ;;
    setMessage text
  else
    failure <- get host data "error" ;;
    setError (or_else failure (JStr "Failed to start new game")).

Definition startNewGame : Op unit :=
  startNewGame_reset ;;
  try_catch_finally
    startNewGame_try
    (fun err => setError (error_text err) ;; console_error "New game error:" err)
    (setLoading false).

Definition handleCellClick (p : Z) : Op unit := makeMove p.

Definition handlePlayAgain : Op unit :=
  setShowWinnerModal false ;;
  startNewGame.
End Operations.

Definition WinnerModal (winner : JSValue) (isOpen : bool) : Modal :=
  let isPlayerWin := is_string winner "X" in
  let isDraw := is_string winner "none" in
  {| title := if isPlayerWin then "You Won!"
              else if negb isPlayerWin && negb isDraw then "AI Won!"
              else "It's a Draw!";
     description := if isPlayerWin then "Congratulations! You defeated the AI."
                    else if negb isDraw
                         then "The AI outplayed you this time. Want to try again?"
                    else "Great match! No winner this time.";
     isOpen := isOpen |}.

(** What [TicTacToe] returns for a view: which parts are on the page. *)
Record Screen : Type := {
  errorBanner : option JSValue;
  spinner : bool;
  board : option (option (list Button));   (* inner [None]: [GameBoard] throws *)
  statusText : JSValue;
  newGameDisabled : bool;
  winnerModal : option Modal
}.

Definition TicTacToe (v : View) : Screen :=
  {| errorBanner := if truthy (error v) then Some (error v) else None;
     spinner := loading v;
     board := if negb (loading v) && truthy (gameState v)
              then Some (GameBoard (gameState v) (loading v))
              else None;
     statusText := message v;
     newGameDisabled := loading v;
     winnerModal := if truthy (winner v)
                    then Some (WinnerModal (winner v) (showWinnerModal v))
                    else None |}.

(** What the user can do on the page.  A click on a disabled button, or on a
    part that is not on the page, does nothing. *)
Inductive Event : Type :=
| ClickCell (index : nat)
| ClickNewGame
| ClickPlayAgain.

Definition handle (host : Host) (net : FetchOutcome) (ev : Event) : Op unit :=
  fun w =>
    let screen := TicTacToe (view w) in
    match ev with
    | ClickCell index =>
        match board screen with
        | Some (Some buttons) =>
            match nth_error buttons index with
            | Some b =>
                if disabled b then (inr tt, w)
                else match button_onClick b with
                     | Some p => handleCellClick host net p w
                     | None => (inr tt, w)
                     end
            | None => (inr tt, w)
            end
        | _ => (inr tt, w)
        end
    | ClickNewGame =>
        if newGameDisabled screen then (inr tt, w)
        else startNewGame host net w
    | ClickPlayAgain =>
        match winnerModal screen with
        | Some m => if isOpen m then handlePlayAgain host net w else (inr tt, w)
        | None => (inr tt, w)
        end
    end.

(** [gameData] is what this revision takes for the game payload of a
    [response] property: the property itself, or what it decodes to when it
    is a string (and can then be read: it is not [null]). *)
Definition payload_of (host : Host) (field gameData : JSValue) : Prop :=
  match field with
  | JStr text =>
      JSON_parse host text = inr gameData
      /\ member gameData "game_state" <> None
  | _ => gameData = field
  end.

(** The kind of a reply, as this revision reads it: the transport rejects or
    the status is not OK; the body is not JSON; the envelope lacks a truthy
    [success] or a truthy [response]; a string [response] is not JSON. *)
Definition reply (host : Host) (net : FetchOutcome) : Reply :=
  match net with
  | FetchRejects _ => Failed NetworkFailure
  | FetchResolves r =>
      if negb (ok r) then Failed NetworkFailure
      else match json r with
           | inl _ => Failed ParseFailure
           | inr data =>
               match member data "success", member data "response" with
               | Some flag, Some payload =>
                   if truthy flag && truthy payload then
                     match payload with
                     | JStr text =>
                         match JSON_parse host text with
                         | inl _ => Failed ParseFailure
                         | inr gameData =>
                             match member gameData "game_state" with
                             | Some _ => Accepted gameData
                             | None => Failed TypeFailure
                             end
                         end
                     | _ => Accepted payload
                     end
                   else Failed EnvelopeFailure
               | _, _ => Failed TypeFailure
               end
           end
  end.

End Page.

(** ** [src/unnamed/part_000] *)
Module Part000.
Local Open Scope js_scope.

Record View : Type := {
  gameState : JSValue;
  gameStatus : JSValue;
  winner : JSValue;
  loading : bool;
  message : JSValue;
  error : JSValue
}.

(** The [useState] initial values. *)
Definition initial : View :=
  {| gameState := JNull;
     gameStatus := JStr "in_progress";
     winner := JNull;
     loading := false;
     message := JStr "Starting new game...";
     error := JNull |}.

Definition Op : Type -> Type := M (S := World View).

Definition setGameState (x : JSValue) : Op unit :=
  setView (fun v => {| gameState := x; gameStatus := gameStatus v;
                       winner := winner v; loading := loading v;
                       message := message v; error := error v |}).

Definition setGameStatus (x : JSValue) : Op unit :=
  setView (fun v => {| gameState := gameState v; gameStatus := x;
                       winner := winner v; loading := loading v;
                       message := message v; error := error v |}).

Definition setWinner (x : JSValue) : Op unit :=
  setView (fun v => {| gameState := gameState v; gameStatus := gameStatus v;
                       winner := x; loading := loading v;
                       message := message v; error := error v |}).

Definition setLoading (x : bool) : Op unit :=
  setView (fun v => {| gameState := gameState v; gameStatus := gameStatus v;
                       winner := winner v; loading := x;
                       message := message v; error := error v |}).

Definition setMessage (x : JSValue) : Op unit :=
  setView (fun v => {| gameState := gameState v; gameStatus := gameStatus v;
                       winner := winner v; loading := loading v;
                       message := x; error := error v |}).

Definition setError (x : JSValue) : Op unit :=
  setView (fun v => {| gameState := gameState v; gameStatus := gameStatus v;
                       winner := winner v; loading := loading v;
                       message := message v; error := x |}).

Section Operations.
Variable host : Host.
Variable net : FetchOutcome.   (* how the request of this call is answered *)

(** The [try] block of [makeMove]. *)
Definition makeMove_try (p : Z) : Op unit :=
  response <- fetch net "/api/agent"
                (agent_request ("move " ++ Number_toString p)) ;;
  data <- await (json response) ;;
  outcome <- get host data "status" ;;
  accepted <- (if is_string outcome "success"
               then get host data "response"
               else ret (JBool false)) ;;
  if truthy accepted then
    gameData <- get host data "response" ;;
    game_state <- get host gameData "game_state" ;;
    setGameState game_state ;;
    game_status <- get host gameData "game_status" ;;
    setGameStatus game_status ;;
    text <- get host gameData "message" ;;
    setMessage text ;;
    ending <- get host gameData "game_status" ;;
    if is_string ending "won" || is_string ending "draw" then
      won_by <- get host gameData "winner" ;;
      setWinner won_by
    else ret tt
  else
    setError (JStr "Failed to process move").

(** The statements of [makeMove] between its guard and the [try]: the
    request has not gone out yet. *)
Definition makeMove_begin : Op unit :=
  setLoading true ;;
  setError JNull.

(** [makeMove] past its guard. *)
Definition makeMove_after_guard (p : Z) : Op unit :=
  makeMove_begin ;;
  try_catch_finally
    (makeMove_try p)
    (fun err => setError (error_text err))
    (setLoading false).

Definition makeMove (p : Z) : Op unit :=
  isLoading <- reads (fun w => loading (view w)) ;;
  if isLoading then ret tt
  else makeMove_after_guard p.

(** The statements of [startNewGame] that run before the request goes out. *)
Definition startNewGame_reset : Op unit :=
  setLoading true ;;
  setError JNull ;;
  setWinner JNull ;;
  setGameStatus (JStr "in_progress").

(** The [try] block of [startNewGame]. *)
Definition startNewGame_try : Op unit :=
  response <- fetch net "/api/agent" (agent_request "new game") ;;
  data <- await (json response) ;;
  outcome <- get host data "status" ;;
  accepted <- (if is_string outcome "success"
               then get host data "response"
               else ret (JBool false)) ;;
  if truthy accepted then
    gameData <- get host data "response" ;;
    game_state <- get host gameData "game_state" ;;
    setGameState game_state ;;
    game_status <- get host gameData "game_status" ;;
    setGameStatus game_status ;;
    text <- get host gameData "message" ;;
    setMessage text
  else
    setError (JStr "Failed to start new game").

Definition startNewGame : Op unit :=
  startNewGame_reset ;;
  try_catch_finally
    startNewGame_try
    (fun err => setError (error_text err))
    (setLoading false).

Definition handleCellClick (p : Z) : Op unit := makeMove p.

Definition handlePlayAgain : Op unit :=
  setWinner JNull ;;
  startNewGame.
End Operations.

(** The dialog is an [AlertDialog] with [open={true}]. *)
Definition WinnerModal (winner : JSValue) : Modal :=
  let isPlayerWin := is_string winner "X" in
  {| title := if isPlayerWin then "You Won!"
              else if is_string winner "O" then "AI Won!"
              else "It's a Draw!";
     description := if isPlayerWin then "Congratulations! You defeated the AI."
                    else if is_string winner "O"
                         then "The AI outplayed you this time. Want to try again?"
                    else "Great match! No winner this time.";
     isOpen := true |}.

Record Screen : Type := {
  errorBanner : option JSValue;
  spinner : bool;
  board : option (option (list Button));   (* inner [None]: [GameBoard] throws *)
  statusText : JSValue;
  newGameDisabled : bool;
  winnerModal : option Modal
}.

Definition TicTacToe (v : View) : Screen :=
  {| errorBanner := if truthy (error v) then Some (error v) else None;
     spinner := loading v;
     board := if negb (loading v) && truthy (gameState v)
              then Some (GameBoard (gameState v) (loading v))
              else None;
     statusText := message v;
     newGameDisabled := loading v;
     winnerModal := if truthy (winner v)
                    then Some (WinnerModal (winner v))
                    else None |}.

Inductive Event : Type :=
| ClickCell (index : nat)
| ClickNewGame
| ClickPlayAgain.

Definition handle (host : Host) (net : FetchOutcome) (ev : Event) : Op unit :=
  fun w =>
    let screen := TicTacToe (view w) in
    match ev with
    | ClickCell index =>
        match board screen with
        | Some (Some buttons) =>
            match nth_error buttons index with
            | Some b =>
                if disabled b then (inr tt, w)
                else match button_onClick b with
                     | Some p => handleCellClick host net p w
                     | None => (inr tt, w)
                     end
            | None => (inr tt, w)
            end
        | _ => (inr tt, w)
        end
    | ClickNewGame =>
        if newGameDisabled screen then (inr tt, w)
        else startNewGame host net w
    | ClickPlayAgain =>
        match winnerModal screen with
        | Some m => if isOpen m then handlePlayAgain host net w else (inr tt, w)
        | None => (inr tt, w)
        end
    end.

(** The kind of a reply, as this revision reads it: the transport rejects;
    the body is not JSON; [status] is not ["success"] or [response] is
    falsy.  The HTTP status is not looked at and a string [response] is not
    decoded. *)
Definition reply (net : FetchOutcome) : Reply :=
  match net with
  | FetchRejects _ => Failed NetworkFailure
  | FetchResolves r =>
      match json r with
      | inl _ => Failed ParseFailure
      | inr data =>
          match member data "status", member data "response" with
          | Some outcome, Some payload =>
              if is_string outcome "success" && truthy payload
              then Accepted payload
              else Failed EnvelopeFailure
          | _, _ => Failed TypeFailure
          end
      end
  end.

End Part000.

(** ** A reference host

    A [JSON.parse] for the values above (integers, byte strings) and the
    messages of one engine, to run the page on concrete replies. *)
Module Reference.

Definition is_space (c : ascii) : bool :=
  let n := N_of_ascii c in
  ((n =? 32) || (n =? 9) || (n =? 10) || (n =? 13))%N.

Fixpoint skip_space (s : string) : string :=
  match s with
  | String c rest => if is_space c then skip_space rest else s
  | EmptyString => s
  end.

(** What is left of [s] after the literal [p], when [s] starts with it. *)
Fixpoint strip_prefix (p s : string) : option string :=
  match p, s with
  | EmptyString, _ => Some s
  | String a p', String b s' =>
      if (a =? b)%char then strip_prefix p' s' else None
  | String _ _, EmptyString => None
  end.

Definition is_digit (c : ascii) : bool :=
  let n := N_of_ascii c in
  ((48 <=? n) && (n <=? 57))%N.

Definition hex_value (c : ascii) : option N :=
  let n := N_of_ascii c in
  if ((48 <=? n) && (n <=? 57))%N then Some (n - 48)%N
  else if ((97 <=? n) && (n <=? 102))%N then Some (n - 87)%N
  else if ((65 <=? n) && (n <=? 70))%N then Some (n - 55)%N
  else None.

(** The longest run of digits [s] starts with, and what follows it. *)
Fixpoint span_digits (s : string) : string * string :=
  match s with
  | String c rest =>
      if is_digit c
      then let (digits, rest') := span_digits rest in (String c digits, rest')
      else ("", s)
  | EmptyString => ("", s)
  end.

(** A fraction or an exponent would leave the integers. *)
Definition ends_integer (s : string) : bool :=
  match s with
  | String c _ => negb ((c =? ".")%char || (c =? "e")%char || (c =? "E")%char)
  | EmptyString => true
  end.

(** Digits without a superfluous leading zero. *)
Definition read_natural (s : string) : option (Z * string) :=
  let (digits, rest) := span_digits s in
  match digits with
  | EmptyString => None
  | String c more =>
      if (c =? "0")%char && negb (more =? "")%string then None
      else if ends_integer rest then
        match NilZero.uint_of_string digits with
        | Some d => Some (Z.of_uint d, rest)
        | None => None
        end
      else None
  end.

Definition unescape (c : ascii) : option ascii :=
  if (c =? "034")%char then Some "034"%char
  else if (c =? "\")%char then Some "\"%char
  else if (c =? "/")%char then Some "/"%char
  else if (c =? "b")%char then Some "008"%char
  else if (c =? "f")%char then Some "012"%char
  else if (c =? "n")%char then Some "010"%char
  else if (c =? "r")%char then Some "013"%char
  else if (c =? "t")%char then Some "009"%char
  else None.

Definition hex4 (a b c d : ascii) : option ascii :=
  match hex_value a, hex_value b, hex_value c, hex_value d with
  | Some 0%N, Some 0%N, Some h, Some l => Some (ascii_of_N (16 * h + l))
  | _, _, _, _ => None
  end.

(** The characters of a string literal, from after its opening quote. *)
Fixpoint read_string (s : string) : option (string * string) :=
  match s with
  | EmptyString => None
  | String c rest =>
      if (c =? "034")%char then Some ("", rest)
      else if (c =? "\")%char then
        match rest with
        | String e rest1 =>
            if (e =? "u")%char then
              match rest1 with
              | String h1 (String h2 (String h3 (String h4 rest2))) =>
                  match hex4 h1 h2 h3 h4, read_string rest2 with
                  | Some x, Some (t, rest') => Some (String x t, rest')
                  | _, _ => None
                  end
              | _ => None
              end
            else
              match unescape e, read_string rest1 with
              | Some x, Some (t, rest') => Some (String x t, rest')
              | _, _ => None
              end
        | EmptyString => None
        end
      else if (N_of_ascii c <? 32)%N then None
      else match read_string rest with
           | Some (t, rest') => Some (String c t, rest')
           | None => None
           end
  end.

(** A repeated key keeps its first place and takes the last value. *)
Fixpoint define_property (k : string) (v : JSValue)
    (fields : list (string * JSValue)) : list (string * JSValue) :=
  match fields with
  | [] => [(k, v)]
  | (k', v') :: rest =>
      if (k' =? k)%string then (k', v) :: rest
      else (k', v') :: define_property k v rest
  end.

Fixpoint read_value (fuel : nat) (s : string) : option (JSValue * string) :=
  match fuel with
  | O => None
  | S fuel' =>
      match skip_space s with
      | EmptyString => None
      | String c rest =>
          if (c =? "034")%char then
            match read_string rest with
            | Some (t, rest') => Some (JStr t, rest')
            | None => None
            end
          else if (c =? "[")%char then
            match strip_prefix "]" (skip_space rest) with
            | Some rest' => Some (JArr [], rest')
            | None =>
                match read_elements fuel' rest with
                | Some (items, rest') => Some (JArr items, rest')
                | None => None
                end
            end
          else if (c =? "{")%char then
            match strip_prefix "}" (skip_space rest) with
            | Some rest' => Some (JObj [], rest')
            | None =>
                match read_members fuel' [] rest with
                | Some (fields, rest') => Some (JObj fields, rest')
                | None => None
                end
            end
          else if (c =? "-")%char then
            match read_natural rest with
            | Some (n, rest') => Some (JNum (- n), rest')
            | None => None
            end
          else
            match strip_prefix "null" (String c rest) with
            | Some rest' => Some (JNull, rest')
            | None =>
                match strip_prefix "true" (String c rest) with
                | Some rest' => Some (JBool true, rest')
                | None =>
                    match strip_prefix "false" (String c rest) with
                    | Some rest' => Some (JBool false, rest')
                    | None =>
                        match read_natural (String c rest) with
                        | Some (n, rest') => Some (JNum n, rest')
                        | None => None
                        end
                    end
                end
            end
      end
  end

with read_elements (fuel : nat) (s : string) : option (list JSValue * string) :=
  match fuel with
  | O => None
  | S fuel' =>
      match read_value fuel' s with
      | Some (v, rest) =>
          match skip_space rest with
          | String c rest' =>
              if (c =? ",")%char then
                match read_elements fuel' rest' with
                | Some (items, rest'') => Some (v :: items, rest'')
                | None => None
                end
              else if (c =? "]")%char then Some ([v], rest')
              else None
          | EmptyString => None
          end
      | None => None
      end
  end

with read_members (fuel : nat) (seen : list (string * JSValue)) (s : string)
  : option (list (string * JSValue) * string) :=
  match fuel with
  | O => None
  | S fuel' =>
      match skip_space s with
      | String c rest =>
          if (c =? "034")%char then
            match read_string rest with
            | Some (k, rest1) =>
                match skip_space rest1 with
                | String c1 rest2 =>
                    if (c1 =? ":")%char then
                      match read_value fuel' rest2 with
                      | Some (v, rest3) =>
                          let fields := define_property k v seen in
                          match skip_space rest3 with
                          | String c3 rest4 =>
                              if (c3 =? ",")%char
                              then read_members fuel' fields rest4
                              else if (c3 =? "}")%char
                                   then Some (fields, rest4)
                              else None
                          | EmptyString => None
                          end
                      | None => None
                      end
                    else None
                | EmptyString => None
                end
            | None => None
            end
          else None
      | EmptyString => None
      end
  end.

Definition JSON_parse (text : string) : string + JSValue :=
  match read_value (2 * String.length text + 2) text with
  | Some (v, rest) =>
      match skip_space rest with
      | EmptyString => inr v
      | String _ _ => inl "Unexpected non-whitespace character after JSON"
      end
  | None =>
      match skip_space text with
      | EmptyString => inl "Unexpected end of JSON input"
      | String _ _ => inl "Unexpected token in JSON"
      end
  end.

Definition TypeError_message (v : JSValue) (k : string) : string :=
  "Cannot read properties of "
  ++ match v with JNull => "null" | _ => "undefined" end
  ++ " (reading '" ++ k ++ "')".

Definition host : Host := Build_Host JSON_parse TypeError_message.

(** What may follow a value inside a text: nothing, a comma or a closing
    bracket. *)
Definition delimited (rest : string) : bool :=
  match rest with
  | EmptyString => true
  | String c _ => ((c =? ",") || (c =? "]") || (c =? "}"))%char
  end.

(** The values [JSON.parse] can produce: no [undefined] inside, and no
    object with a repeated key. *)
Fixpoint distinct (keys : list string) : bool :=
  match keys with
  | [] => true
  | k :: rest => negb (existsb (String.eqb k) rest) && distinct rest
  end.

Fixpoint is_json (v : JSValue) : bool :=
  match v with
  | JUndefined => false
  | JNull | JBool _ | JNum _ | JStr _ => true
  | JArr items => forallb is_json items
  | JObj fields =>
      forallb (fun kv => is_json (snd kv)) fields
      && distinct (map fst fields)
  end.

End Reference.


(** ** Assumptions on the environment and sample data *)

(** An [Error] object that says something: its message is not empty. *)
Definition has_message (err : Thrown) : Prop :=
  match err with
  | ErrorObject message => message <> ""
  | ThrownValue _ => True
  end.

(** The errors the network hands to the page have a message. *)
Definition net_describes_errors (net : FetchOutcome) : Prop :=
  match net with
  | FetchRejects reason => has_message reason
  | FetchResolves r =>
      match json r with
      | inl err => has_message err
      | inr _ => True
      end
  end.

(** The errors the host throws have a message. *)
Definition host_describes_errors (host : Host) : Prop :=
  (forall text message, JSON_parse host text = inl message -> message <> "")
  /\ (forall v k, TypeError_message host v k <> "").

(** The envelope's [error] property, when the reply has one that counts
    (a truthy one), is a string, as the interface of the agent declares. *)
Definition error_field_is_text (net : FetchOutcome) : Prop :=
  match net with
  | FetchResolves r =>
      match json r with
      | inr data =>
          truthy (optional_member data "error") = true ->
          exists s, optional_member data "error" = JStr s
      | inl _ => True
      end
  | FetchRejects _ => True
  end.

(** The host's [JSON.parse] undoes [JSON.stringify] on [v]. *)
Definition reads_back (host : Host) (v : JSValue) : Prop :=
  match JSON_stringify v with
  | JStr text => JSON_parse host text = inr v
  | _ => False
  end.

(** The invariant of a game state: a listed position is an open cell, that
    is, a cell that holds a number and no mark. *)
Definition listed_cells_are_open (cells moves : list JSValue) : Prop :=
  forall p cell,
    In (JNum p) moves ->
    nth_error cells (Z.to_nat (p - 1)) = Some cell ->
    exists n, cell = JNum n.

Module Sample.

Definition fresh_game : JSValue :=
  JObj [("board", JArr (map JNum [1; 2; 3; 4; 5; 6; 7; 8; 9]));
        ("available_moves", JArr (map JNum [1; 2; 3; 4; 5; 6; 7; 8; 9]))].

(** A game state that lists a cell holding a mark. *)
Definition marked_but_listed : JSValue :=
  JObj [("board", JArr [JStr "X"; JNum 2; JNum 3; JNum 4; JNum 5;
                        JNum 6; JNum 7; JNum 8; JNum 9]);
        ("available_moves", JArr (map JNum [1; 2; 3; 4; 5; 6; 7; 8; 9]))].

(** The payload of the specification's first scenario. *)
Definition your_move : JSValue :=
  JObj [("game_state", fresh_game);
        ("game_status", JStr "in_progress");
        ("message", JStr "Your move")].

(** After X took the centre and O the corner. *)
Definition after_five : JSValue :=
  JObj [("game_state",
         JObj [("board", JArr [JStr "O"; JNum 2; JNum 3; JNum 4; JStr "X";
                               JNum 6; JNum 7; JNum 8; JNum 9]);
               ("available_moves", JArr (map JNum [2; 3; 4; 6; 7; 8; 9]))]);
        ("game_status", JStr "in_progress");
        ("winner", JStr "none");
        ("message", JStr "AI played 1. Your move")].

Definition x_wins : JSValue :=
  JObj [("game_state",
         JObj [("board", JArr [JStr "X"; JStr "X"; JStr "X"; JStr "O"; JStr "O";
                               JNum 6; JNum 7; JNum 8; JNum 9]);
               ("available_moves", JArr (map JNum [6; 7; 8; 9]))]);
        ("game_status", JStr "won");
        ("winner", JStr "X");
        ("message", JStr "X wins!")].

Definition answers (data : JSValue) : FetchOutcome :=
  FetchResolves {| ok := true; status := 200; json := inr data |}.

(** The two envelopes of the specification. *)
Definition variant_A (payload : JSValue) : JSValue :=
  JObj [("success", JBool true); ("response", payload)].

Definition variant_B (payload : JSValue) : JSValue :=
  JObj [("status", JStr "success"); ("response", payload)].

Definition offline : FetchOutcome :=
  FetchRejects (ErrorObject "Failed to fetch").

(** A gateway answers with an HTML error page. *)
Definition bad_gateway : FetchOutcome :=
  FetchResolves {| ok := false; status := 502;
                   json := inl (ErrorObject "Unexpected token < in JSON") |}.

(** A status that is not OK in front of a success envelope. *)
Definition error_status_with_success_body : FetchOutcome :=
  FetchResolves {| ok := false; status := 500;
                   json := inr (variant_B your_move) |}.

(** A failure envelope that says why. *)
Definition refusal : JSValue :=
  JObj [("success", JBool false); ("error", JStr "Cell 5 is taken")].

(** A success envelope whose [response] is a text that is no JSON. *)
Definition undecodable : JSValue :=
  JObj [("success", JBool true);
        ("status", JStr "success");
        ("response", JStr "{board")].

Definition page_idle : World Page.View :=
  {| view := Page.initial; requests := []; console := [] |}.

Definition part_idle : World Part000.View :=
  {| view := Part000.initial; requests := []; console := [] |}.

(** A move is in flight. *)
Definition page_busy : World Page.View :=
  {| view := {| Page.gameState := fresh_game;
                Page.gameStatus := JStr "in_progress";
                Page.winner := JNull;
                Page.showWinnerModal := false;
                Page.loading := true;
                Page.message := JStr "Your move";
                Page.error := JNull |};
     requests := [("/api/agent", agent_request "move 5")];
     console := [] |}.

Definition part_busy : World Part000.View :=
  {| view := {| Part000.gameState := fresh_game;
                Part000.gameStatus := JStr "in_progress";
                Part000.winner := JNull;
                Part000.loading := true;
                Part000.message := JStr "Your move";
                Part000.error := JNull |};
     requests := [("/api/agent", agent_request "move 5")];
     console := [] |}.

(** A move is in flight while the result dialog is on the page. *)
Definition page_busy_won : World Page.View :=
  {| view := {| Page.gameState := fresh_game;
                Page.gameStatus := JStr "won";
                Page.winner := JStr "O";
                Page.showWinnerModal := true;
                Page.loading := true;
                Page.message := JStr "O wins!";
                Page.error := JNull |};
     requests := [("/api/agent", agent_request "move 5")];
     console := [] |}.

Definition part_busy_won : World Part000.View :=
  {| view := {| Part000.gameState := fresh_game;
                Part000.gameStatus := JStr "won";
                Part000.winner := JStr "O";
                Part000.loading := true;
                Part000.message := JStr "O wins!";
                Part000.error := JNull |};
     requests := [("/api/agent", agent_request "move 5")];
     console := [] |}.

(** A finished game is on the page. *)
Definition page_won : World Page.View :=
  {| view := {| Page.gameState := fresh_game;
                Page.gameStatus := JStr "won";
                Page.winner := JStr "O";
                Page.showWinnerModal := true;
                Page.loading := false;
                Page.message := JStr "O wins!";
                Page.error := JNull |};
     requests := [];
     console := [] |}.

Definition part_won : World Part000.View :=
  {| view := {| Part000.gameState := fresh_game;
                Part000.gameStatus := JStr "won";
                Part000.winner := JStr "O";
                Part000.loading := false;
                Part000.message := JStr "O wins!";
                Part000.error := JNull |};
     requests := [];
     console := [] |}.

End Sample.

(** ** The rest of the page: coordinates, the info panel, sessions *)

(** A JavaScript number is a double.  The development holds a number whose
    value is an integer by that value.  Every integer up to [2^53] in
    absolute value is the value of a double, and so is every safe integer;
    above [2^53] the doubles are the multiples of a power of two, and the
    result of an operation is rounded to the nearest of them. *)
Definition MAX_SAFE_INTEGER : Z := 9007199254740991.   (* 2^53 - 1 *)

(** [Number.isSafeInteger], on a number with an integer value. *)
Definition is_safe_integer (n : Z) : Prop :=
  - MAX_SAFE_INTEGER <= n <= MAX_SAFE_INTEGER.

(** The multiple of [u] nearest to the quotient [a / d], the even multiple
    on a tie; [a] is not negative, [d] and [u] are positive. *)
Definition nearest_multiple (a d u : Z) : Z :=
  let m := a / (d * u) in
  let r := a mod (d * u) in
  let up := if d * u <? 2 * r then true
            else if 2 * r <? d * u then false
            else Z.odd m in
  (if up then m + 1 else m) * u.

(** The double nearest to the integer [n]: round to nearest, ties to the
    even significand.  From [2^53] on a double has 53 significant bits, so
    the doubles next to [n] are [2 ^ (Z.log2 (Z.abs n) - 52)] apart. *)
Definition round_to_double (n : Z) : Z :=
  let a := Z.abs n in
  if a <=? MAX_SAFE_INTEGER + 1 then n
  else Z.sgn n * nearest_multiple a 1 (2 ^ (Z.log2 a - 52)).

(** [x - y] on doubles with integer values. *)
Definition Number_subtract (x y : Z) : Z := round_to_double (x - y).

(** [Math.floor(x / 3)] on a double with an integer value.  The division
    rounds its quotient to a double before [Math.floor] sees it.  A quotient
    below [2^52] in magnitude that is no integer is a third away from the
    next integer at least, and the doubles there are at most a half apart:
    the rounding reaches no integer, and the floor is the floor of the exact
    quotient.  From [2^52] on the doubles are integers and the quotient is
    rounded to the nearest one. *)
Definition Math_floor_third (x : Z) : Z :=
  let a := Z.abs x in
  if a / 3 <? 4503599627370496   (* 2^52 *)
  then x / 3
  else Z.sgn x * nearest_multiple a 3 (2 ^ (Z.log2 (a / 3) - 52)).

Record Coords : Type := {
  row : Z;
  col : Z
}.

(** [position] is the value of a finite double with an integer value.
    [%] is exact and keeps the sign of the dividend. *)
Definition getPositionCoords (position : Z) : Coords :=
  let before := Number_subtract position 1 in
  {| row := Math_floor_third before;
     col := Z.rem before 3 |}.

(** ['k' in v]: an object answers whether it has the property, an array has
    no named property of the page's, and anything else makes [in] throw
    ([None]). *)
Definition has_property (k : string) (v : JSValue) : option bool :=
  match v with
  | JObj fields => Some (existsb (fun kv => (fst kv =? k)%string) fields)
  | JArr _ => Some false
  | _ => None
  end.

(** What [GameInfo] puts on the page: the number under "Moves Made" and
    which of its three status panels. *)
Record Info : Type := {
  moveCount : JSValue;
  currentTurn : bool;     (* "Your move (X)" *)
  gameOver : bool;        (* "Game Over!" *)
  itsADraw : bool         (* "It's a Draw!" *)
}.

(** [GameInfo], the same in both revisions; [None] when it throws. *)
Definition GameInfo (gameState gameStatus : JSValue) : option Info :=
  match (if truthy gameState
         then has_property "metadata" gameState
         else Some false) with
  | None => None
  | Some present =>
      Some {| moveCount :=
                if present
                then or_else (optional_member
                                (optional_member gameState "metadata")
                                "move_count")
                             (JNum 0)
                else JNum 0;
              currentTurn := is_string gameStatus "in_progress";
              gameOver := is_string gameStatus "won";
              itsADraw := is_string gameStatus "draw" |}
  end.

(** The two commands the page sends. *)
Definition is_command (message : string) : Prop :=
  message = "new game"
  \/ exists p, 1 <= p /\ message = "move " ++ Number_toString p.

Definition is_agent_request (request : string * RequestInit) : Prop :=
  fst request = "/api/agent"
  /\ exists message, snd request = agent_request message /\ is_command message.

(** A session of [page.tsx]: the mount effect starts a game, then the user
    acts; every request is answered as the list says. *)
Fixpoint page_events (host : Host)
    (steps : list (Page.Event * FetchOutcome)) (w : World Page.View)
  : World Page.View :=
  match steps with
  | [] => w
  | (ev, net) :: rest => page_events host rest (snd (Page.handle host net ev w))
  end.

Definition page_session (host : Host) (first : FetchOutcome)
    (steps : list (Page.Event * FetchOutcome)) : World Page.View :=
  page_events host steps
    (snd (Page.startNewGame host first
            {| view := Page.initial; requests := []; console := [] |})).

(** A session of [part_000]. *)
Fixpoint part_events (host : Host)
    (steps : list (Part000.Event * FetchOutcome)) (w : World Part000.View)
  : World Part000.View :=
  match steps with
  | [] => w
  | (ev, net) :: rest =>
      part_events host rest (snd (Part000.handle host net ev w))
  end.

Definition part_session (host : Host) (first : FetchOutcome)
    (steps : list (Part000.Event * FetchOutcome)) : World Part000.View :=
  part_events host steps
    (snd (Part000.startNewGame host first
            {| view := Part000.initial; requests := []; console := [] |})).

(** An object or an array: what [in] accepts on its right. *)
Definition is_structured (v : JSValue) : bool :=
  match v with
  | JObj _ | JArr _ => true
  | _ => false
  end.

Module Scenario.

(** A payload whose [game_state] is a text. *)
Definition text_state : JSValue :=
  JObj [("game_state", JStr "X wins"); ("game_status", JStr "won")].

(** A payload that counts the moves beside its [game_state]. *)
Definition counted : JSValue :=
  JObj [("game_state", Sample.fresh_game);
        ("game_status", JStr "in_progress");
        ("metadata", JObj [("move_count", JNum 3)])].

(** A game state that lists no moves at all. *)
Definition no_moves : JSValue :=
  JObj [("board", JArr [JNum 1; JNum 2; JNum 3])].

(** A reply that carries the marks of both envelope variants. *)
Definition both_envelopes : Response :=
  {| ok := true;
     status := 200;
     json := inr (JObj [("success", JBool true);
                        ("status", JStr "success");
                        ("response", Sample.your_move)]) |}.

End Scenario.

(** The exceptions written with [console.error], oldest first. *)
Fixpoint errors_logged (lines : list ConsoleEntry) : list Thrown :=
  match lines with
  | [] => []
  | console_error_entry _ err :: rest => err :: errors_logged rest
  | console_log_entry _ _ :: rest => errors_logged rest
  end.

(** The state cells the two revisions have in common hold the same values. *)
Definition same_cells (v1 : Page.View) (v2 : Part000.View) : Prop :=
  Page.gameState v1 = Part000.gameState v2
  /\ Page.gameStatus v1 = Part000.gameStatus v2
  /\ Page.winner v1 = Part000.winner v2
  /\ Page.loading v1 = Part000.loading v2
  /\ Page.message v1 = Part000.message v2
  /\ Page.error v1 = Part000.error v2.


(** * Proofs *)

(** ** Running the operations by cases *)

Ltac unfold_effects :=
  cbv [bind ret throw reads modify await try_catch_finally get parse fetch
       console_log console_error setView or_else error_text].

Ltac unfold_page :=
  cbv [Page.makeMove Page.makeMove_after_guard Page.makeMove_begin
       Page.makeMove_try Page.startNewGame Page.startNewGame_try
       Page.startNewGame_reset Page.handlePlayAgain Page.handleCellClick
       Page.setGameState Page.setGameStatus Page.setWinner
       Page.setShowWinnerModal Page.setLoading Page.setMessage Page.setError
       Page.reply].

Ltac unfold_part :=
  cbv [Part000.makeMove Part000.makeMove_after_guard Part000.makeMove_begin
       Part000.makeMove_try Part000.startNewGame
       Part000.startNewGame_try Part000.startNewGame_reset
       Part000.handlePlayAgain Part000.handleCellClick
       Part000.setGameState Part000.setGameStatus Part000.setWinner
       Part000.setLoading Part000.setMessage Part000.setError
       Part000.reply].

Ltac tidy :=
  cbn [fst snd view requests console
       Page.gameState Page.gameStatus Page.winner Page.showWinnerModal
       Page.loading Page.message Page.error
       Part000.gameState Part000.gameStatus Part000.winner
       Part000.loading Part000.message Part000.error
       ok status json negb andb orb] in *.

(** One step of the case analysis: close an impossible case, or split on a
    scrutinee that is not itself waiting for another one. *)
Ltac case_step :=
  match goal with
  | H : _ = _ |- _ => discriminate H
  | H : Some _ = Some _ |- _ => injection H as H; subst
  | H : inr _ = inr _ |- _ => injection H as H; subst
  | H : inl _ = inl _ |- _ => injection H as H; subst
  | H : Accepted _ = Accepted _ |- _ => injection H as H; subst
  | |- context [match ?x with _ => _ end] =>
      lazymatch x with
      | context [match _ with _ => _ end] => fail
      | _ => destruct x eqn:?
      end
  end.

Ltac split_run := repeat (tidy; case_step); tidy.

Lemma member_defined (v : JSValue) (k k' : string) (x : JSValue) :
  member v k = Some x -> member v k' <> None.
Proof. destruct v; simpl; congruence. Qed.

(** What is left after the cases are split: read the properties through the
    equations collected on the way. *)
Ltac settle :=
  intros;
  repeat match goal with
         | H : _ = _ |- _ => discriminate H
         | H : Accepted _ = Accepted _ |- _ => injection H as H; subst
         | H : Failed _ = Failed _ |- _ => injection H as H; subst
         end;
  try match goal with
      | H : member ?v _ = Some _, H' : member ?v _ = None |- _ =>
          exfalso; exact (member_defined _ _ _ _ H H')
      | H : truthy ?v = true, H' : member ?v _ = None |- _ =>
          exfalso; destruct v; simpl in H, H'; discriminate
      end;
  unfold optional_member in *;
  repeat match goal with
         | H : member ?v ?k = _, H' : context [member ?v ?k] |- _ =>
             rewrite H in H'
         | H : member ?v ?k = _ |- context [member ?v ?k] => rewrite H
         end;
  repeat match goal with
         | H : ?b = _ |- context [?b] => rewrite H
         end;
  tidy; try reflexivity; try congruence.

Lemma truthy_text (s : string) : s <> "" -> truthy (JStr s) = true.
Proof.
  intros Hs. unfold truthy.
  destruct (String.eqb_spec s ""); [contradiction | reflexivity].
Qed.

Lemma text_of_truthy (s : string) : truthy (JStr s) = true -> s <> "".
Proof.
  unfold truthy. destruct (String.eqb_spec s ""); [discriminate | auto].
Qed.

Lemma not_nullish (v : JSValue) (k : string) :
  truthy v = true -> member v k = Some (optional_member v k).
Proof.
  unfold optional_member. destruct v; simpl; try discriminate; reflexivity.
Qed.

Ltac settle_error :=
  settle;
  repeat match goal with
         | H : _ /\ _ |- _ => destruct H
         | H : truthy ?x = true -> exists s, ?x = JStr s,
           H' : truthy ?x = true |- _ =>
             let s := fresh "s" in destruct (H H') as [s ->]; clear H
         end;
  try match goal with
      | |- truthy (JStr _) = true => apply truthy_text
      | |- exists s, JStr ?t = JStr s /\ s <> "" =>
          exists t; split; [reflexivity|]
      end;
  try (apply text_of_truthy; assumption);
  try assumption;
  try discriminate;
  eauto.

(** *** [page.tsx] *)

Lemma page_makeMove_returns host net p w :
  fst (Page.makeMove host net p w) = inr tt.
Proof.
  unfold_page. unfold_effects. split_run; reflexivity.
Qed.

Lemma page_startNewGame_returns host net w :
  fst (Page.startNewGame host net w) = inr tt.
Proof.
  unfold_page. unfold_effects. split_run; reflexivity.
Qed.

Lemma page_makeMove_requests host net p w :
  Page.loading (view w) = false ->
  requests (snd (Page.makeMove host net p w))
  = (requests w
     ++ [("/api/agent", agent_request ("move " ++ Number_toString p))])%list.
Proof.
  intros Hl. unfold_page. unfold_effects. rewrite Hl.
  split_run; reflexivity.
Qed.

Lemma page_startNewGame_requests host net w :
  requests (snd (Page.startNewGame host net w))
  = (requests w ++ [("/api/agent", agent_request "new game")])%list.
Proof.
  unfold_page. unfold_effects. split_run; reflexivity.
Qed.

Lemma page_makeMove_accepted host net p w gd :
  Page.reply host net = Accepted gd ->
  Page.loading (view w) = false ->
  view (snd (Page.makeMove host net p w))
  = let ended := is_string (optional_member gd "game_status") "won"
                 || is_string (optional_member gd "game_status") "draw" in
    {| Page.gameState := optional_member gd "game_state";
       Page.gameStatus := optional_member gd "game_status";
       Page.winner := if ended then optional_member gd "winner"
                      else Page.winner (view w);
       Page.showWinnerModal := if ended then true
                               else Page.showWinnerModal (view w);
       Page.loading := false;
       Page.message := optional_member gd "message";
       Page.error := JNull |}.
Proof.
  intros Hr Hl. revert Hr. cbv zeta.
  unfold_page. unfold_effects. rewrite Hl.
  split_run; settle.
Qed.

Lemma page_startNewGame_accepted host net w gd :
  Page.reply host net = Accepted gd ->
  view (snd (Page.startNewGame host net w))
  = {| Page.gameState := optional_member gd "game_state";
       Page.gameStatus := optional_member gd "game_status";
       Page.winner := JNull;
       Page.showWinnerModal := false;
       Page.loading := false;
       Page.message := optional_member gd "message";
       Page.error := JNull |}.
Proof.
  unfold_page. unfold_effects.
  split_run; settle.
Qed.

(** After a failed reply only [loading] and [error] have moved. *)
Lemma page_makeMove_failed_view host net p w k :
  Page.reply host net = Failed k ->
  Page.loading (view w) = false ->
  view (snd (Page.makeMove host net p w))
  = {| Page.gameState := Page.gameState (view w);
       Page.gameStatus := Page.gameStatus (view w);
       Page.winner := Page.winner (view w);
       Page.showWinnerModal := Page.showWinnerModal (view w);
       Page.loading := false;
       Page.message := Page.message (view w);
       Page.error := Page.error (view (snd (Page.makeMove host net p w))) |}.
Proof.
  intros Hr Hl. revert Hr.
  unfold_page. unfold_effects. rewrite Hl.
  split_run; settle.
Qed.

Lemma page_startNewGame_failed_view host net w k :
  Page.reply host net = Failed k ->
  view (snd (Page.startNewGame host net w))
  = {| Page.gameState := Page.gameState (view w);
       Page.gameStatus := JStr "in_progress";
       Page.winner := JNull;
       Page.showWinnerModal := false;
       Page.loading := false;
       Page.message := Page.message (view w);
       Page.error := Page.error (view (snd (Page.startNewGame host net w))) |}.
Proof.
  unfold_page. unfold_effects.
  split_run; settle.
Qed.

Lemma page_makeMove_failed_error host net p w k :
  Page.reply host net = Failed k ->
  Page.loading (view w) = false ->
  host_describes_errors host ->
  net_describes_errors net ->
  truthy (Page.error (view (snd (Page.makeMove host net p w)))) = true /\
  (error_field_is_text net ->
   exists s,
     Page.error (view (snd (Page.makeMove host net p w))) = JStr s /\ s <> "").
Proof.
  intros Hr Hl Hh Hn. revert Hr.
  unfold host_describes_errors, net_describes_errors, error_field_is_text,
    has_message in *.
  unfold_page. unfold_effects. rewrite Hl.
  split_run; (intros; split; [|intros]); settle_error.
Qed.

Lemma page_startNewGame_failed_error host net w k :
  Page.reply host net = Failed k ->
  host_describes_errors host ->
  net_describes_errors net ->
  truthy (Page.error (view (snd (Page.startNewGame host net w)))) = true /\
  (error_field_is_text net ->
   exists s,
     Page.error (view (snd (Page.startNewGame host net w))) = JStr s /\ s <> "").
Proof.
  intros Hr Hh Hn. revert Hr.
  unfold host_describes_errors, net_describes_errors, error_field_is_text,
    has_message in *.
  unfold_page. unfold_effects.
  split_run; (intros; split; [|intros]); settle_error.
Qed.

(** *** [part_000] *)

Lemma part_makeMove_returns host net p w :
  fst (Part000.makeMove host net p w) = inr tt.
Proof.
  unfold_part. unfold_effects. split_run; reflexivity.
Qed.

Lemma part_startNewGame_returns host net w :
  fst (Part000.startNewGame host net w) = inr tt.
Proof.
  unfold_part. unfold_effects. split_run; reflexivity.
Qed.

Lemma part_makeMove_requests host net p w :
  Part000.loading (view w) = false ->
  requests (snd (Part000.makeMove host net p w))
  = (requests w
     ++ [("/api/agent", agent_request ("move " ++ Number_toString p))])%list.
Proof.
  intros Hl. unfold_part. unfold_effects. rewrite Hl.
  split_run; reflexivity.
Qed.

Lemma part_startNewGame_requests host net w :
  requests (snd (Part000.startNewGame host net w))
  = (requests w ++ [("/api/agent", agent_request "new game")])%list.
Proof.
  unfold_part. unfold_effects. split_run; reflexivity.
Qed.

Lemma part_makeMove_accepted host net p w gd :
  Part000.reply net = Accepted gd ->
  Part000.loading (view w) = false ->
  view (snd (Part000.makeMove host net p w))
  = let ended := is_string (optional_member gd "game_status") "won"
                 || is_string (optional_member gd "game_status") "draw" in
    {| Part000.gameState := optional_member gd "game_state";
       Part000.gameStatus := optional_member gd "game_status";
       Part000.winner := if ended then optional_member gd "winner"
                         else Part000.winner (view w);
       Part000.loading := false;
       Part000.message := optional_member gd "message";
       Part000.error := JNull |}.
Proof.
  intros Hr Hl. revert Hr. cbv zeta.
  unfold_part. unfold_effects. rewrite Hl.
  split_run; settle.
Qed.

Lemma part_startNewGame_accepted host net w gd :
  Part000.reply net = Accepted gd ->
  view (snd (Part000.startNewGame host net w))
  = {| Part000.gameState := optional_member gd "game_state";
       Part000.gameStatus := optional_member gd "game_status";
       Part000.winner := JNull;
       Part000.loading := false;
       Part000.message := optional_member gd "message";
       Part000.error := JNull |}.
Proof.
  unfold_part. unfold_effects.
  split_run; settle.
Qed.

Lemma part_makeMove_failed_view host net p w k :
  Part000.reply net = Failed k ->
  Part000.loading (view w) = false ->
  view (snd (Part000.makeMove host net p w))
  = {| Part000.gameState := Part000.gameState (view w);
       Part000.gameStatus := Part000.gameStatus (view w);
       Part000.winner := Part000.winner (view w);
       Part000.loading := false;
       Part000.message := Part000.message (view w);
       Part000.error :=
         Part000.error (view (snd (Part000.makeMove host net p w))) |}.
Proof.
  intros Hr Hl. revert Hr.
  unfold_part. unfold_effects. rewrite Hl.
  split_run; settle.
Qed.

Lemma part_startNewGame_failed_view host net w k :
  Part000.reply net = Failed k ->
  view (snd (Part000.startNewGame host net w))
  = {| Part000.gameState := Part000.gameState (view w);
       Part000.gameStatus := JStr "in_progress";
       Part000.winner := JNull;
       Part000.loading := false;
       Part000.message := Part000.message (view w);
       Part000.error :=
         Part000.error (view (snd (Part000.startNewGame host net w))) |}.
Proof.
  unfold_part. unfold_effects.
  split_run; settle.
Qed.

Lemma part_makeMove_failed_error host net p w k :
  Part000.reply net = Failed k ->
  Part000.loading (view w) = false ->
  host_describes_errors host ->
  net_describes_errors net ->
  exists s,
    Part000.error (view (snd (Part000.makeMove host net p w))) = JStr s
    /\ s <> "".
Proof.
  intros Hr Hl Hh Hn. revert Hr.
  unfold host_describes_errors, net_describes_errors, has_message in *.
  unfold_part. unfold_effects. rewrite Hl.
  split_run; settle_error.
Qed.

Lemma part_startNewGame_failed_error host net w k :
  Part000.reply net = Failed k ->
  host_describes_errors host ->
  net_describes_errors net ->
  exists s,
    Part000.error (view (snd (Part000.startNewGame host net w))) = JStr s
    /\ s <> "".
Proof.
  intros Hr Hh Hn. revert Hr.
  unfold host_describes_errors, net_describes_errors, has_message in *.
  unfold_part. unfold_effects.
  split_run; settle_error.
Qed.

(** *** The board *)

Lemma Cell_disabled (props : CellProps) :
  disabled (Cell props) = negb (isAvailable props).
Proof.
  unfold Cell.
  destruct (is_string (value props) "X"), (is_string (value props) "O"),
    (isAvailable props); reflexivity.
Qed.

Lemma Cell_displayValue (props : CellProps) :
  displayValue (Cell props)
  = if is_string (value props) "X" then "X"
    else if is_string (value props) "O" then "O"
    else "".
Proof.
  unfold Cell.
  destruct (is_string (value props) "X"), (is_string (value props) "O"),
    (isAvailable props); reflexivity.
Qed.

Lemma includes_listed (moves : list JSValue) (p : Z) :
  existsb (fun x => match x with
                    | JNum n => n =? p
                    | _ => false
                    end) moves = true
  <-> In (JNum p) moves.
Proof.
  rewrite existsb_exists. split.
  - intros [x [Hin Hx]]. destruct x; try discriminate.
    apply Z.eqb_eq in Hx. subst. exact Hin.
  - intros Hin. exists (JNum p). split; [exact Hin | apply Z.eqb_refl].
Qed.

(** Over an array of moves the callback never throws, and the button at
    index [i] is the cell of position [index + i + 1]. *)
Lemma board_cells_array (moves : list JSValue) (isLoading : bool)
    (cells : list JSValue) :
  forall index,
  exists buttons,
    board_cells (JArr moves) isLoading index cells = Some buttons
    /\ forall i cell,
         nth_error cells i = Some cell ->
         nth_error buttons i
         = Some (Cell {| position := index + Z.of_nat i + 1;
                         value := cell;
                         onClick := if negb isLoading
                                    then Some (index + Z.of_nat i + 1)
                                    else None;
                         isAvailable :=
                           existsb (fun x => match x with
                                             | JNum n => n =? index + Z.of_nat i + 1
                                             | _ => false
                                             end) moves
                           && negb isLoading |}).
Proof.
  induction cells as [|cell cells IH]; intros index.
  - exists []. split; [reflexivity|]. intros [|i] c H; discriminate.
  - destruct (IH (index + 1)) as [buttons [Hrun Hnth]].
    simpl. rewrite Hrun. eexists. split; [reflexivity|].
    intros [|i] c H.
    + simpl in H. injection H as <-. simpl.
      replace (index + 0 + 1) with (index + 1) by lia. reflexivity.
    + simpl in H. simpl nth_error. rewrite (Hnth i c H).
      replace (index + 1 + Z.of_nat i + 1)
        with (index + Z.of_nat (S i) + 1) by lia.
      reflexivity.
Qed.

Lemma GameBoard_array gameState isLoading cells moves :
  GameBoard_board gameState = JArr cells ->
  GameBoard_availableMoves gameState = JArr moves ->
  exists buttons,
    GameBoard gameState isLoading = Some buttons
    /\ forall p cell,
         1 <= p ->
         nth_error cells (Z.to_nat (p - 1)) = Some cell ->
         cell_at buttons p
         = Some (Cell {| position := p;
                         value := cell;
                         onClick := if negb isLoading then Some p else None;
                         isAvailable :=
                           existsb (fun x => match x with
                                             | JNum n => n =? p
                                             | _ => false
                                             end) moves
                           && negb isLoading |}).
Proof.
  intros Hb Hm. unfold GameBoard. rewrite Hb, Hm.
  destruct (board_cells_array moves isLoading cells 0) as [buttons [Hrun Hnth]].
  exists buttons. split; [exact Hrun|].
  intros p cell Hp Hcell. unfold cell_at.
  destruct (Z.leb_spec 1 p); [|lia].
  rewrite (Hnth _ _ Hcell).
  replace (0 + Z.of_nat (Z.to_nat (p - 1)) + 1) with p by lia.
  reflexivity.
Qed.

Lemma cell_exists (cells : list JSValue) (p : Z) :
  1 <= p <= Z.of_nat (length cells) ->
  exists cell, nth_error cells (Z.to_nat (p - 1)) = Some cell.
Proof.
  intros Hp.
  destruct (nth_error cells (Z.to_nat (p - 1))) as [cell|] eqn:E.
  - exists cell. reflexivity.
  - apply nth_error_None in E. lia.
Qed.

Lemma clickable_iff_listed gameState isLoading cells moves buttons p :
  GameBoard_board gameState = JArr cells ->
  GameBoard_availableMoves gameState = JArr moves ->
  GameBoard gameState isLoading = Some buttons ->
  1 <= p <= Z.of_nat (length cells) ->
  clickable buttons p = true <-> In (JNum p) moves /\ isLoading = false.
Proof.
  intros Hb Hm Hrun Hp.
  destruct (GameBoard_array gameState isLoading cells moves Hb Hm)
    as [buttons' [Hrun' Hcell]].
  rewrite Hrun in Hrun'. injection Hrun' as <-.
  destruct (cell_exists cells p Hp) as [cell Hnth].
  unfold clickable. rewrite (Hcell p cell (proj1 Hp) Hnth).
  rewrite Cell_disabled. cbn [isAvailable].
  rewrite <- includes_listed.
  destruct (existsb _ moves), isLoading; cbn; intuition congruence.
Qed.

Lemma mark_not_clickable gameState isLoading cells moves buttons p :
  GameBoard_board gameState = JArr cells ->
  GameBoard_availableMoves gameState = JArr moves ->
  GameBoard gameState isLoading = Some buttons ->
  listed_cells_are_open cells moves ->
  shows_mark buttons p = true ->
  clickable buttons p = false.
Proof.
  intros Hb Hm Hrun Hinv Hmark.
  destruct (GameBoard_array gameState isLoading cells moves Hb Hm)
    as [buttons' [Hrun' Hcell]].
  rewrite Hrun in Hrun'. injection Hrun' as <-.
  unfold shows_mark, clickable in *.
  destruct (cell_at buttons p) as [b|] eqn:Hat; [|reflexivity].
  assert (Hp : 1 <= p).
  { unfold cell_at in Hat. destruct (Z.leb_spec 1 p); [lia | discriminate]. }
  destruct (nth_error cells (Z.to_nat (p - 1))) as [cell|] eqn:Hnth.
  - rewrite (Hcell p cell Hp Hnth) in Hat. injection Hat as <-.
    rewrite Cell_disabled. rewrite Cell_displayValue in Hmark.
    cbn [isAvailable value] in *.
    destruct (existsb _ moves) eqn:Hlisted; [|reflexivity].
    apply includes_listed in Hlisted.
    destruct (Hinv p cell Hlisted Hnth) as [n ->].
    cbn in Hmark. discriminate.
  - exfalso. unfold cell_at in Hat.
    destruct (Z.leb_spec 1 p); [|discriminate].
    unfold GameBoard in Hrun. rewrite Hb, Hm in Hrun.
    assert (Hlen : forall index bs,
               board_cells (JArr moves) isLoading index cells = Some bs ->
               length bs = length cells).
    { clear. induction cells as [|c cs IH]; intros index bs H.
      - injection H as <-. reflexivity.
      - simpl in H.
        destruct (board_cells (JArr moves) isLoading (index + 1) cs) eqn:E;
          [|discriminate].
        injection H as <-. simpl. f_equal. eapply IH. exact E. }
    apply Hlen in Hrun.
    apply nth_error_None in Hnth.
    assert (nth_error buttons (Z.to_nat (p - 1)) <> None) by congruence.
    apply nth_error_Some in H0. lia.
Qed.

(** *** Which replies are accepted *)

Lemma member_of_truthy (v : JSValue) (k k' : string) :
  truthy (optional_member v k) = true ->
  member v k' = Some (optional_member v k').
Proof.
  unfold optional_member. destruct v; simpl; try discriminate; reflexivity.
Qed.

Lemma page_reply_accepted host r data gd :
  ok r = true ->
  json r = inr data ->
  truthy (optional_member data "success") = true ->
  truthy (optional_member data "response") = true ->
  Page.payload_of host (optional_member data "response") gd ->
  Page.reply host (FetchResolves r) = Accepted gd.
Proof.
  intros Hok Hjson Hflag Hfield Hgd.
  unfold Page.reply. rewrite Hok, Hjson. cbn [negb].
  rewrite !(member_of_truthy data "success" _ Hflag).
  rewrite Hflag, Hfield. cbn [andb].
  unfold Page.payload_of in Hgd.
  destruct (optional_member data "response"); try (subst; reflexivity).
  destruct Hgd as [Hparse Hread]. rewrite Hparse.
  destruct (member gd "game_state"); [reflexivity | contradiction].
Qed.

Lemma part_reply_accepted r data :
  json r = inr data ->
  is_string (optional_member data "status") "success" = true ->
  truthy (optional_member data "response") = true ->
  Part000.reply (FetchResolves r) = Accepted (optional_member data "response").
Proof.
  intros Hjson Hstatus Hfield.
  unfold Part000.reply. rewrite Hjson.
  rewrite !(member_of_truthy data "response" _ Hfield).
  rewrite Hstatus, Hfield. reflexivity.
Qed.

Lemma stringify_object_truthy (fields : list (string * JSValue)) :
  exists text, JSON_stringify (JObj fields) = JStr text /\ text <> "".
Proof.
  unfold JSON_stringify. cbn [serialize].
  eexists. split; [reflexivity | discriminate].
Qed.

(** *** The reference host *)

Lemma reference_host_describes_errors : host_describes_errors Reference.host.
Proof.
  split.
  - intros text message. cbn [JSON_parse Reference.host].
    unfold Reference.JSON_parse.
    repeat match goal with
           | |- context [match ?x with _ => _ end] => destruct x
           end;
      intros H; inversion H; discriminate.
  - intros v k. cbn [TypeError_message Reference.host].
    unfold Reference.TypeError_message. discriminate.
Qed.

Lemma board_cells_length moves isLoading cells :
  forall index buttons,
    board_cells moves isLoading index cells = Some buttons ->
    length buttons = length cells.
Proof.
  induction cells as [|cell cells IH]; intros index buttons H.
  - injection H as <-. reflexivity.
  - simpl in H. destruct (includes moves (index + 1)); [|discriminate].
    destruct (board_cells moves isLoading (index + 1) cells) eqn:E;
      [|discriminate].
    injection H as <-. simpl. f_equal. eapply IH. exact E.
Qed.

Lemma unlisted_not_clickable gameState isLoading cells moves buttons p :
  GameBoard_board gameState = JArr cells ->
  GameBoard_availableMoves gameState = JArr moves ->
  GameBoard gameState isLoading = Some buttons ->
  ~ In (JNum p) moves ->
  clickable buttons p = false.
Proof.
  intros Hb Hm Hrun Hout.
  destruct (clickable buttons p) eqn:C; [exfalso | reflexivity].
  assert (Hp : 1 <= p <= Z.of_nat (length cells)).
  { unfold clickable, cell_at in C.
    destruct (Z.leb_spec 1 p); [|discriminate].
    destruct (nth_error buttons (Z.to_nat (p - 1))) eqn:Hnth; [|discriminate].
    assert (Hlt : (Z.to_nat (p - 1) < length buttons)%nat)
      by (apply nth_error_Some; congruence).
    unfold GameBoard in Hrun. rewrite Hb in Hrun.
    rewrite (board_cells_length _ _ _ _ _ Hrun) in Hlt. lia. }
  apply (clickable_iff_listed _ _ _ _ _ _ Hb Hm Hrun Hp) in C.
  tauto.
Qed.

(** *** The reference parser reads back what [JSON.stringify] writes *)

Lemma append_assoc (a b c : string) : (a ++ b) ++ c = a ++ b ++ c.
Proof. induction a as [|x a IH]; simpl; [reflexivity | now rewrite IH]. Qed.

Lemma append_empty (a : string) : a ++ "" = a.
Proof. induction a as [|x a IH]; simpl; [reflexivity | now rewrite IH]. Qed.

Lemma length_append (a b : string) :
  String.length (a ++ b) = (String.length a + String.length b)%nat.
Proof. induction a as [|x a IH]; simpl; [reflexivity | now rewrite IH]. Qed.

Lemma read_string_quote_char (c : ascii) (tail : string) :
  Reference.read_string (quote_char c ++ tail)
  = match Reference.read_string tail with
    | Some (t, rest) => Some (String c t, rest)
    | None => None
    end.
Proof.
  destruct c as [[] [] [] [] [] [] [] []]; reflexivity.
Qed.

Lemma read_string_quote_chars (s rest : string) :
  Reference.read_string (quote_chars s ++ String "034" rest) = Some (s, rest).
Proof.
  induction s as [|c s IH].
  - reflexivity.
  - cbn [quote_chars]. rewrite append_assoc, read_string_quote_char, IH.
    reflexivity.
Qed.

Lemma delimited_cases (rest : string) :
  Reference.delimited rest = true ->
  rest = ""
  \/ exists tail, rest = String "," tail \/ rest = String "]" tail
                  \/ rest = String "}" tail.
Proof.
  destruct rest as [|c tail]; [auto|]. cbn [Reference.delimited]. intros H. right.
  exists tail.
  destruct (Ascii.eqb_spec c ","); [subst; auto|].
  destruct (Ascii.eqb_spec c "]"); [subst; auto|].
  destruct (Ascii.eqb_spec c "}"); [subst; auto|].
  discriminate.
Qed.

Lemma span_digits_uint (d : Decimal.uint) (rest : string) :
  Reference.delimited rest = true ->
  Reference.span_digits (NilEmpty.string_of_uint d ++ rest)
  = (NilEmpty.string_of_uint d, rest).
Proof.
  intros Hrest. induction d; cbn [NilEmpty.string_of_uint append];
    try (cbn [Reference.span_digits]; rewrite IHd; reflexivity).
  destruct (delimited_cases rest Hrest) as [-> | [tail [-> | [-> | ->]]]];
    reflexivity.
Qed.

Lemma to_uint_leading (p : positive) :
  exists c more,
    NilEmpty.string_of_uint (Pos.to_uint p) = String c more
    /\ (c =? "0")%char = false.
Proof.
  pose proof (DecimalN.Unsigned.to_of (Pos.to_uint p)) as H.
  change (N.of_uint (Pos.to_uint p)) with (Pos.of_uint (Pos.to_uint p)) in H.
  rewrite DecimalPos.Unsigned.of_to in H. cbn [N.to_uint] in H.
  pose proof (DecimalPos.Unsigned.to_uint_nonzero p) as Hnz.
  pose proof (DecimalPos.Unsigned.to_uint_nonnil p) as Hnn.
  destruct (Pos.to_uint p) as [|d|d|d|d|d|d|d|d|d|d];
    try (eexists; eexists; split; reflexivity).
  - contradiction.
  - exfalso. unfold Decimal.unorm in H. cbn [Decimal.nzhead] in H.
    assert (Hlen : forall u, (Decimal.nb_digits (Decimal.nzhead u)
                              <= Decimal.nb_digits u)%nat).
    { induction u; cbn; lia. }
    specialize (Hlen d).
    destruct (Decimal.nzhead d) eqn:E; try discriminate H.
    + injection H as H'. subst d. apply Hnz. reflexivity.
    + injection H as H'. subst u. cbn in Hlen. lia.
Qed.

Lemma read_natural_pos (p : positive) (rest : string) :
  Reference.delimited rest = true ->
  Reference.read_natural (NilEmpty.string_of_uint (Pos.to_uint p) ++ rest)
  = Some (Z.pos p, rest).
Proof.
  intros Hrest. unfold Reference.read_natural.
  rewrite (span_digits_uint _ _ Hrest).
  destruct (to_uint_leading p) as [c [more [Htext Hc]]].
  pose proof (DecimalPos.Unsigned.to_uint_nonnil p) as Hnn.
  assert (Hparse : NilZero.uint_of_string
                     (NilEmpty.string_of_uint (Pos.to_uint p))
                   = Some (Pos.to_uint p)).
  { rewrite <- (NilZero.usu _ Hnn) at 1. f_equal.
    unfold NilZero.string_of_uint. destruct (Pos.to_uint p); congruence. }
  rewrite Hparse. rewrite Htext. rewrite Hc. cbn [andb].
  assert (Hend : Reference.ends_integer rest = true).
  { destruct (delimited_cases rest Hrest) as [-> | [tail [-> | [-> | ->]]]];
      reflexivity. }
  rewrite Hend. unfold Z.of_uint. rewrite DecimalPos.Unsigned.of_to.
  reflexivity.
Qed.

Lemma read_natural_zero (rest : string) :
  Reference.delimited rest = true ->
  Reference.read_natural ("0" ++ rest) = Some (0, rest).
Proof.
  intros Hrest.
  destruct (delimited_cases rest Hrest) as [-> | [tail [-> | [-> | ->]]]];
    reflexivity.
Qed.

Lemma digit_head (c : ascii) :
  Reference.is_digit c = true ->
  Reference.is_space c = false /\ ("]" =? c)%char = false.
Proof.
  destruct c as [[] [] [] [] [] [] [] []]; intros H;
    try discriminate H; split; reflexivity.
Qed.

Lemma read_value_digit (c : ascii) (more : string) (fuel : nat) :
  Reference.is_digit c = true ->
  Reference.read_value (S fuel) (String c more)
  = match Reference.read_natural (String c more) with
    | Some (n, rest) => Some (JNum n, rest)
    | None => None
    end.
Proof.
  destruct c as [[] [] [] [] [] [] [] []]; intros H;
    try discriminate H; reflexivity.
Qed.

Lemma uint_text_head (d : Decimal.uint) :
  d <> Decimal.Nil ->
  exists c more,
    NilEmpty.string_of_uint d = String c more
    /\ Reference.is_digit c = true.
Proof.
  destruct d; intros H; try contradiction;
    eexists; eexists; split; reflexivity.
Qed.

Lemma toString_pos (p : positive) :
  Number_toString (Z.pos p) = NilEmpty.string_of_uint (Pos.to_uint p).
Proof.
  unfold Number_toString. cbn [Z.to_int NilZero.string_of_int].
  unfold NilZero.string_of_uint.
  pose proof (DecimalPos.Unsigned.to_uint_nonnil p).
  destruct (Pos.to_uint p); congruence.
Qed.

Lemma toString_neg (p : positive) :
  Number_toString (Z.neg p)
  = String "-" (NilEmpty.string_of_uint (Pos.to_uint p)).
Proof.
  unfold Number_toString. cbn [Z.to_int NilZero.string_of_int].
  unfold NilZero.string_of_uint.
  pose proof (DecimalPos.Unsigned.to_uint_nonnil p).
  destruct (Pos.to_uint p); congruence.
Qed.

Lemma read_value_number (n : Z) (fuel : nat) (rest : string) :
  Reference.delimited rest = true ->
  Reference.read_value (S fuel) (Number_toString n ++ rest)
  = Some (JNum n, rest).
Proof.
  intros Hrest. destruct n as [|p|p].
  - change (Number_toString 0) with "0".
    pose proof (read_natural_zero rest Hrest) as Hread.
    cbn [append] in *.
    rewrite read_value_digit by reflexivity.
    rewrite Hread. reflexivity.
  - rewrite toString_pos.
    destruct (uint_text_head (Pos.to_uint p)
                (DecimalPos.Unsigned.to_uint_nonnil p))
      as [c [more [Htext Hc]]].
    pose proof (read_natural_pos p rest Hrest) as Hread.
    rewrite Htext in *. cbn [append] in *.
    rewrite (read_value_digit c _ fuel Hc), Hread. reflexivity.
  - rewrite toString_neg. cbn [append].
    change (Reference.read_value (S fuel)
              (String "-" (NilEmpty.string_of_uint (Pos.to_uint p) ++ rest)))
      with (match Reference.read_natural
                    (NilEmpty.string_of_uint (Pos.to_uint p) ++ rest) with
            | Some (n, rest') => Some (JNum (- n), rest')
            | None => None
            end).
    rewrite (read_natural_pos p rest Hrest). reflexivity.
Qed.

Lemma number_text_head (n : Z) :
  exists c more,
    Number_toString n = String c more
    /\ Reference.is_space c = false /\ ("]" =? c)%char = false.
Proof.
  destruct n as [|p|p].
  - exists "0"%char, "". repeat split.
  - rewrite toString_pos.
    destruct (uint_text_head (Pos.to_uint p)
                (DecimalPos.Unsigned.to_uint_nonnil p))
      as [c [more [Htext Hc]]].
    exists c, more. split; [exact Htext | exact (digit_head c Hc)].
  - rewrite toString_neg. eexists; eexists. repeat split.
Qed.

(** Every text [serialize] writes starts with a character that is neither
    white space nor a closing bracket. *)
Lemma serialize_head (v : JSValue) (text : string) :
  serialize v = Some text ->
  exists c more,
    text = String c more
    /\ Reference.is_space c = false /\ ("]" =? c)%char = false.
Proof.
  destruct v as [| |[]|n|s|items|fields]; cbn [serialize]; intros H;
    try discriminate H; injection H as <-;
    try (eexists; eexists; repeat split; fail).
  apply number_text_head.
Qed.

Lemma define_property_new k v (seen : list (string * JSValue)) :
  ~ In k (map fst seen) ->
  Reference.define_property k v seen = (seen ++ [(k, v)])%list.
Proof.
  induction seen as [|[k' v'] seen IH]; intros Hout; [reflexivity|].
  cbn [Reference.define_property]. cbn [map fst In] in Hout.
  destruct (String.eqb_spec k' k); [tauto|].
  rewrite IH by tauto. reflexivity.
Qed.

Lemma distinct_NoDup (keys : list string) :
  Reference.distinct keys = true -> NoDup keys.
Proof.
  induction keys as [|k keys IH]; intros H; [constructor|].
  cbn [Reference.distinct] in H. apply andb_prop in H as [Hk Hrest].
  constructor; [|auto].
  intros Hin. apply negb_true_iff in Hk.
  assert (existsb (String.eqb k) keys = true).
  { apply existsb_exists. exists k. split; [exact Hin | apply String.eqb_refl]. }
  congruence.
Qed.



Lemma serialize_json (v : JSValue) :
  Reference.is_json v = true -> exists text, serialize v = Some text.
Proof.
  destruct v as [| |[]|n|s|items|fields]; cbn [Reference.is_json serialize];
    intros H; try discriminate H; eexists; reflexivity.
Qed.

Lemma text_not_empty (v : JSValue) (text : string) :
  serialize v = Some text -> (1 <= String.length text)%nat.
Proof.
  intros H. destruct (serialize_head v text H) as [c [more [-> _]]].
  cbn [String.length]. lia.
Qed.

(** The elements of a non-empty array, up to its closing bracket. *)
Lemma read_elements_texts (items : list JSValue) :
  Forall (fun x =>
            Reference.is_json x = true ->
            forall text, serialize x = Some text ->
            forall fuel rest,
              Reference.delimited rest = true ->
              (String.length text < fuel)%nat ->
              Reference.read_value fuel (text ++ rest) = Some (x, rest))
         items ->
  forallb Reference.is_json items = true ->
  items <> [] ->
  forall fuel rest,
    let texts := map (fun x => match serialize x with
                               | Some t => t
                               | None => "null"
                               end) items in
    (String.length (join "," texts) + 1 < fuel)%nat ->
    Reference.read_elements fuel (join "," texts ++ String "]" rest)
    = Some (items, rest).
Proof.
  intros Hall. induction Hall as [|x items Hx Hall IH]; [congruence|].
  intros Hjson _ fuel rest. cbv zeta. cbn [forallb] in Hjson.
  apply andb_prop in Hjson as [Hxj Hjson].
  destruct (serialize_json x Hxj) as [tx Htx].
  pose proof (text_not_empty x tx Htx) as Hlen.
  cbn [map]. rewrite Htx.
  destruct items as [|y items].
  - cbn [map join]. intros Hfuel.
    destruct fuel as [|fuel]; [lia|]. cbn [Reference.read_elements].
    rewrite (Hx Hxj tx Htx fuel (String "]" rest)) by (reflexivity || lia).
    reflexivity.
  - remember (y :: items) as more eqn:Hmore.
    assert (Hjoin : join "," (tx :: map (fun x => match serialize x with
                                                  | Some t => t
                                                  | None => "null"
                                                  end) more)
                    = tx ++ "," ++ join "," (map (fun x => match serialize x with
                                                           | Some t => t
                                                           | None => "null"
                                                           end) more)).
    { subst more. reflexivity. }
    rewrite Hjoin. rewrite !length_append. cbn [String.length].
    intros Hfuel.
    destruct fuel as [|fuel]; [lia|]. cbn [Reference.read_elements].
    rewrite !append_assoc.
    rewrite (Hx Hxj tx Htx fuel) by (reflexivity || lia).
    cbn [append Reference.skip_space]. 
    change (Reference.is_space ",") with false. cbn iota.
    change ("," =? ",")%char with true. cbn iota.
    rewrite IH; [reflexivity | exact Hjson | subst more; discriminate | lia].
Qed.

Lemma quote_text (k tail : string) :
  quote k ++ tail = String "034" (quote_chars k ++ String "034" tail).
Proof.
  unfold quote, dquote. rewrite !append_assoc. reflexivity.
Qed.

(** The members of a non-empty object, up to its closing brace, added to
    the ones already read. *)
Lemma read_members_texts (fields : list (string * JSValue)) :
  Forall (fun kv =>
            Reference.is_json (snd kv) = true ->
            forall text, serialize (snd kv) = Some text ->
            forall fuel rest,
              Reference.delimited rest = true ->
              (String.length text < fuel)%nat ->
              Reference.read_value fuel (text ++ rest) = Some (snd kv, rest))
         fields ->
  forallb (fun kv => Reference.is_json (snd kv)) fields = true ->
  fields <> [] ->
  forall seen fuel rest,
    let texts := flat_map (fun kv => match serialize (snd kv) with
                                     | Some t => [quote (fst kv) ++ ":" ++ t]
                                     | None => []
                                     end) fields in
    NoDup (map fst (seen ++ fields)) ->
    (String.length (join "," texts) + 1 < fuel)%nat ->
    Reference.read_members fuel seen (join "," texts ++ String "}" rest)
    = Some ((seen ++ fields)%list, rest).
Proof.
  intros Hall. induction Hall as [|[k v] fields Hv Hall IH]; [congruence|].
  intros Hjson _ seen fuel rest. cbv zeta. cbn [forallb snd] in Hjson.
  apply andb_prop in Hjson as [Hvj Hjson]. cbn [snd] in Hv.
  destruct (serialize_json v Hvj) as [tv Htv].
  pose proof (text_not_empty v tv Htv) as Hlen.
  cbn [flat_map snd fst]. rewrite Htv. cbn [app].
  intros Hkeys.
  assert (Hnew : ~ In k (map fst seen)).
  { rewrite map_app in Hkeys. cbn [map fst] in Hkeys.
    apply NoDup_remove_2 in Hkeys. intros Hin. apply Hkeys.
    apply in_or_app. left. exact Hin. }
  destruct fields as [|f fields].
  - cbn [flat_map join]. rewrite !length_append. intros Hfuel.
    destruct fuel as [|fuel]; [lia|].
    rewrite append_assoc, quote_text. cbn [append].
    cbn [Reference.read_members Reference.skip_space].
    change (Reference.is_space "034") with false. cbn iota.
    change ("034" =? "034")%char with true. cbn iota.
    rewrite read_string_quote_chars.
    cbn [Reference.skip_space].
    change (Reference.is_space ":") with false. cbn iota.
    change (":" =? ":")%char with true. cbn iota.
    rewrite (Hv Hvj tv Htv fuel (String "}" rest)) by (reflexivity || lia).
    rewrite (define_property_new k v seen Hnew). reflexivity.
  - remember (f :: fields) as more eqn:Hmore.
    remember (flat_map (fun kv => match serialize (snd kv) with
                                  | Some t => [quote (fst kv) ++ ":" ++ t]
                                  | None => []
                                  end) more) as texts eqn:Htexts.
    assert (Hsome : texts <> []).
    { subst texts more. cbn [flat_map]. cbn [forallb] in Hjson.
      apply andb_prop in Hjson as [Hfj _].
      destruct (serialize_json (snd f) Hfj) as [tf Htf]. rewrite Htf.
      discriminate. }
    assert (Hjoin : join "," ((quote k ++ ":" ++ tv) :: texts)
                    = (quote k ++ ":" ++ tv) ++ "," ++ join "," texts).
    { destruct texts; [congruence | reflexivity]. }
    rewrite Hjoin. rewrite !length_append. cbn [String.length].
    intros Hfuel.
    destruct fuel as [|fuel]; [lia|].
    rewrite !append_assoc, quote_text. cbn [append].
    cbn [Reference.read_members Reference.skip_space].
    change (Reference.is_space "034") with false. cbn iota.
    change ("034" =? "034")%char with true. cbn iota.
    rewrite read_string_quote_chars.
    cbn [Reference.skip_space].
    change (Reference.is_space ":") with false. cbn iota.
    change (":" =? ":")%char with true. cbn iota.
    rewrite (Hv Hvj tv Htv fuel) by (reflexivity || lia).
    rewrite (define_property_new k v seen Hnew).
    cbn [Reference.skip_space].
    change (Reference.is_space ",") with false. cbn iota.
    change ("," =? ",")%char with true. cbn iota.
    subst texts.
    rewrite (IH Hjson); [| subst more; discriminate | | lia].
    + rewrite <- app_assoc. reflexivity.
    + rewrite <- app_assoc. exact Hkeys.
Qed.

Lemma join_head (t : string) (texts : list string) (c : ascii) (more : string) :
  t = String c more ->
  exists more', join "," (t :: texts) = String c more'.
Proof.
  intros ->. destruct texts; eexists; reflexivity.
Qed.

Lemma Some_injective {A : Type} (a b : A) : Some a = Some b -> a = b.
Proof. congruence. Qed.

Lemma skip_space_stops (c : ascii) (s : string) :
  Reference.is_space c = false ->
  Reference.skip_space (String c s) = String c s.
Proof. intros H. cbn [Reference.skip_space]. rewrite H. reflexivity. Qed.

Lemma strip_prefix_miss (a c : ascii) (p s : string) :
  (a =? c)%char = false ->
  Reference.strip_prefix (String a p) (String c s) = None.
Proof. intros H. cbn [Reference.strip_prefix]. rewrite H. reflexivity. Qed.

Lemma serialize_array (items : list JSValue) :
  serialize (JArr items)
  = Some ("[" ++ join "," (map (fun x => match serialize x with
                                         | Some t => t
                                         | None => "null"
                                         end) items) ++ "]").
Proof. reflexivity. Qed.

Lemma serialize_object (fields : list (string * JSValue)) :
  serialize (JObj fields)
  = Some ("{" ++ join ","
                   (flat_map (fun kv => match serialize (snd kv) with
                                        | Some t => [quote (fst kv) ++ ":" ++ t]
                                        | None => []
                                        end) fields) ++ "}").
Proof. reflexivity. Qed.

(** The parser reads a written value back, whatever delimiter follows. *)
Lemma read_value_serialize (v : JSValue) :
  Reference.is_json v = true ->
  forall text, serialize v = Some text ->
  forall fuel rest,
    Reference.delimited rest = true ->
    (String.length text < fuel)%nat ->
    Reference.read_value fuel (text ++ rest) = Some (v, rest).
Proof.
  induction v as [| |b|n|s|items IH|fields IH] using JSValue_nested_ind;
    intros Hjson text Htext fuel rest Hrest Hfuel;
    (destruct fuel as [|fuel]; [lia|]).
  - discriminate.
  - injection Htext as <-. reflexivity.
  - destruct b; injection Htext as <-; reflexivity.
  - injection Htext as <-. apply read_value_number. exact Hrest.
  - injection Htext as <-. rewrite quote_text.
    cbn [Reference.read_value Reference.skip_space].
    change (Reference.is_space "034") with false. cbn iota.
    change ("034" =? "034")%char with true. cbn iota.
    rewrite read_string_quote_chars. reflexivity.
  - rewrite serialize_array in Htext. apply Some_injective in Htext.
    subst text.
    cbn [Reference.is_json] in Hjson.
    destruct items as [|x items]; [reflexivity|].
    pose proof (read_elements_texts (x :: items) IH Hjson
                  ltac:(discriminate) fuel rest) as Hread.
    cbv zeta in Hread.
    remember (join "," (map (fun x => match serialize x with
                                      | Some t => t
                                      | None => "null"
                                      end) (x :: items))) as J eqn:HJ.
    assert (Hhead : exists c more,
               J = String c more
               /\ Reference.is_space c = false /\ ("]" =? c)%char = false).
    { subst J. pose proof Hjson as Hx. cbn [forallb] in Hx.
      apply andb_prop in Hx as [Hx _].
      destruct (serialize_json x Hx) as [tx Htx].
      destruct (serialize_head x tx Htx) as [c [more [Hc Hcs]]].
      cbn [map]. rewrite Htx.
      destruct (join_head tx (map (fun x => match serialize x with
                                            | Some t => t
                                            | None => "null"
                                            end) items) c more Hc)
        as [more' Hjoin].
      exists c, more'. split; [exact Hjoin | exact Hcs]. }
    destruct Hhead as [c [more [-> [Hspace Hclose]]]].
    cbn [append String.length] in *. rewrite ?length_append in *.
    cbn [String.length] in *. rewrite ?append_assoc. cbn [append].
    cbn [Reference.read_value Reference.skip_space].
    change (Reference.is_space "[") with false. cbn iota.
    change ("[" =? "034")%char with false.
    change ("[" =? "[")%char with true. cbn iota.
    rewrite (skip_space_stops c _ Hspace), (strip_prefix_miss _ _ _ _ Hclose).
    rewrite Hread by (cbn [String.length] in *; lia).
    reflexivity.
  - rewrite serialize_object in Htext. apply Some_injective in Htext.
    subst text.
    cbn [Reference.is_json] in Hjson.
    apply andb_prop in Hjson as [Hjson Hkeys].
    destruct fields as [|[k x] fields]; [reflexivity|].
    pose proof (read_members_texts ((k, x) :: fields) IH Hjson
                  ltac:(discriminate) [] fuel rest) as Hread.
    cbv zeta in Hread.
    remember (join ","
                (flat_map (fun kv => match serialize (snd kv) with
                                     | Some t => [quote (fst kv) ++ ":" ++ t]
                                     | None => []
                                     end) ((k, x) :: fields))) as J eqn:HJ.
    assert (Hhead : exists more', J = String "034" more').
    { subst J. pose proof Hjson as Hx. cbn [forallb snd] in Hx.
      apply andb_prop in Hx as [Hx _].
      destruct (serialize_json x Hx) as [tx Htx].
      cbn [flat_map snd fst]. rewrite Htx. cbn [app].
      exact (join_head _ _ _ _ (quote_text k (":" ++ tx))). }
    destruct Hhead as [more' ->].
    cbn [append String.length] in *. rewrite ?length_append in *.
    cbn [String.length] in *. rewrite ?append_assoc. cbn [append].
    cbn [Reference.read_value Reference.skip_space].
    change (Reference.is_space "{") with false. cbn iota.
    change ("{" =? "034")%char with false.
    change ("{" =? "[")%char with false.
    change ("{" =? "{")%char with true. cbn iota.
    rewrite (skip_space_stops "034" _ eq_refl).
    rewrite (strip_prefix_miss "}" "034" _ _ eq_refl).
    rewrite Hread;
      [reflexivity
      | apply distinct_NoDup; exact Hkeys
      | cbn [String.length] in *; lia].
Qed.

Lemma reference_reads_back (v : JSValue) :
  Reference.is_json v = true -> reads_back Reference.host v.
Proof.
  intros Hjson. unfold reads_back, JSON_stringify.
  destruct (serialize_json v Hjson) as [text Htext]. rewrite Htext.
  cbn [JSON_parse Reference.host]. unfold Reference.JSON_parse.
  pose proof (read_value_serialize v Hjson text Htext
                (2 * String.length text + 2) "" eq_refl) as Hread.
  rewrite append_empty in Hread. rewrite Hread by lia. reflexivity.
Qed.

(** *** Events *)

Lemma page_makeMove_settles host net p w :
  Page.loading (view w) = false ->
  Page.loading (view (snd (Page.makeMove host net p w))) = false.
Proof.
  intros Hl. destruct (Page.reply host net) as [gd|k] eqn:E.
  - rewrite (page_makeMove_accepted _ _ _ _ _ E Hl). reflexivity.
  - rewrite (page_makeMove_failed_view _ _ _ _ _ E Hl). reflexivity.
Qed.

Lemma page_startNewGame_settles host net w :
  Page.loading (view (snd (Page.startNewGame host net w))) = false.
Proof.
  destruct (Page.reply host net) as [gd|k] eqn:E.
  - rewrite (page_startNewGame_accepted _ _ _ _ E). reflexivity.
  - rewrite (page_startNewGame_failed_view _ _ _ _ E). reflexivity.
Qed.

Lemma part_makeMove_settles host net p w :
  Part000.loading (view w) = false ->
  Part000.loading (view (snd (Part000.makeMove host net p w))) = false.
Proof.
  intros Hl. destruct (Part000.reply net) as [gd|k] eqn:E.
  - rewrite (part_makeMove_accepted host _ _ _ _ E Hl). reflexivity.
  - rewrite (part_makeMove_failed_view host _ _ _ _ E Hl). reflexivity.
Qed.

Lemma part_startNewGame_settles host net w :
  Part000.loading (view (snd (Part000.startNewGame host net w))) = false.
Proof.
  destruct (Part000.reply net) as [gd|k] eqn:E.
  - rewrite (part_startNewGame_accepted host _ _ _ E). reflexivity.
  - rewrite (part_startNewGame_failed_view host _ _ _ E). reflexivity.
Qed.

(** [handlePlayAgain] is [startNewGame] on the world its first setter
    leaves. *)
Lemma page_handlePlayAgain_unfold host net w :
  Page.handlePlayAgain host net w
  = Page.startNewGame host net (snd (Page.setShowWinnerModal false w)).
Proof. reflexivity. Qed.

Lemma part_handlePlayAgain_unfold host net w :
  Part000.handlePlayAgain host net w
  = Part000.startNewGame host net (snd (Part000.setWinner JNull w)).
Proof. reflexivity. Qed.

Lemma Cell_onClick (props : CellProps) :
  button_onClick (Cell props) = onClick props.
Proof.
  unfold Cell.
  destruct (is_string (value props) "X"), (is_string (value props) "O"),
    (isAvailable props); reflexivity.
Qed.

(** The callback and the position of every button, whatever the moves are. *)
Lemma board_cells_callbacks moves isLoading cells :
  forall index buttons,
    board_cells moves isLoading index cells = Some buttons ->
    forall i b,
      nth_error buttons i = Some b ->
      button_onClick b
      = (if negb isLoading then Some (index + Z.of_nat i + 1) else None)
      /\ (isLoading = true -> disabled b = true).
Proof.
  induction cells as [|cell cells IH]; intros index buttons H i b Hb.
  - injection H as <-. destruct i; discriminate.
  - cbn [board_cells] in H.
    destruct (includes moves (index + 1)) as [listed|]; [|discriminate].
    destruct (board_cells moves isLoading (index + 1) cells) as [rest|] eqn:E;
      [|discriminate].
    injection H as <-. destruct i as [|i].
    + cbn [nth_error] in Hb. injection Hb as <-.
      rewrite Cell_disabled, Cell_onClick.
      cbn [onClick isAvailable].
      replace (index + Z.of_nat 0 + 1) with (index + 1) by lia.
      split; [reflexivity|]. intros ->. destruct listed; reflexivity.
    + cbn [nth_error] in Hb. destruct (IH _ _ E i b Hb) as [Hc Hd].
      split; [|exact Hd]. rewrite Hc.
      replace (index + 1 + Z.of_nat i + 1)
        with (index + Z.of_nat (S i) + 1) by lia.
      reflexivity.
Qed.

Lemma clickable_button (buttons : list Button) (i : nat) (b : Button) :
  nth_error buttons i = Some b ->
  clickable buttons (Z.of_nat i + 1) = negb (disabled b).
Proof.
  intros Hb. unfold clickable, cell_at.
  destruct (Z.leb_spec 1 (Z.of_nat i + 1)); [|lia].
  replace (Z.to_nat (Z.of_nat i + 1 - 1)) with i by lia.
  rewrite Hb. reflexivity.
Qed.

Lemma not_clickable_outside (buttons : list Button) (i : nat) :
  nth_error buttons i = None ->
  clickable buttons (Z.of_nat i + 1) = false.
Proof.
  intros Hb. unfold clickable, cell_at.
  destruct (Z.leb_spec 1 (Z.of_nat i + 1)); [|reflexivity].
  replace (Z.to_nat (Z.of_nat i + 1 - 1)) with i by lia.
  rewrite Hb. reflexivity.
Qed.

(** What a click on a cell comes to. *)
Lemma page_click_cell host net i w :
  (exists buttons,
      Page.loading (view w) = false
      /\ Page.board (Page.TicTacToe (view w)) = Some (Some buttons)
      /\ clickable buttons (Z.of_nat i + 1) = true
      /\ Page.handle host net (Page.ClickCell i) w
         = Page.makeMove host net (Z.of_nat i + 1) w)
  \/ ((forall buttons,
          Page.board (Page.TicTacToe (view w)) = Some (Some buttons) ->
          clickable buttons (Z.of_nat i + 1) = false)
      /\ Page.handle host net (Page.ClickCell i) w = (inr tt, w)).
Proof.
  unfold Page.handle, Page.TicTacToe. cbn [Page.board].
  destruct (Page.loading (view w)) eqn:Hl; cbn [negb andb].
  { right. split; [discriminate | reflexivity]. }
  destruct (truthy (Page.gameState (view w))).
  2:{ right. split; [discriminate | reflexivity]. }
  destruct (GameBoard (Page.gameState (view w)) false) as [buttons|] eqn:Hrun.
  2:{ right. split; [discriminate | reflexivity]. }
  destruct (nth_error buttons i) as [b|] eqn:Hb.
  2:{ right. split; [|reflexivity].
      intros bs Hbs. injection Hbs as <-. apply not_clickable_outside, Hb. }
  pose proof (clickable_button buttons i b Hb) as Hc.
  unfold GameBoard in Hrun.
  destruct (GameBoard_board (Page.gameState (view w))); try discriminate.
  destruct (board_cells_callbacks _ _ _ _ _ Hrun i b Hb) as [Hcall _].
  cbn [negb] in Hcall. replace (0 + Z.of_nat i + 1) with (Z.of_nat i + 1)
    in Hcall by lia.
  destruct (disabled b).
  - right. split; [|reflexivity].
    intros bs Hbs. injection Hbs as <-. exact Hc.
  - left. exists buttons. rewrite Hcall.
    repeat split; try reflexivity. exact Hc.
Qed.

Lemma part_click_cell host net i w :
  (exists buttons,
      Part000.loading (view w) = false
      /\ Part000.board (Part000.TicTacToe (view w)) = Some (Some buttons)
      /\ clickable buttons (Z.of_nat i + 1) = true
      /\ Part000.handle host net (Part000.ClickCell i) w
         = Part000.makeMove host net (Z.of_nat i + 1) w)
  \/ ((forall buttons,
          Part000.board (Part000.TicTacToe (view w)) = Some (Some buttons) ->
          clickable buttons (Z.of_nat i + 1) = false)
      /\ Part000.handle host net (Part000.ClickCell i) w = (inr tt, w)).
Proof.
  unfold Part000.handle, Part000.TicTacToe. cbn [Part000.board].
  destruct (Part000.loading (view w)) eqn:Hl; cbn [negb andb].
  { right. split; [discriminate | reflexivity]. }
  destruct (truthy (Part000.gameState (view w))).
  2:{ right. split; [discriminate | reflexivity]. }
  destruct (GameBoard (Part000.gameState (view w)) false)
    as [buttons|] eqn:Hrun.
  2:{ right. split; [discriminate | reflexivity]. }
  destruct (nth_error buttons i) as [b|] eqn:Hb.
  2:{ right. split; [|reflexivity].
      intros bs Hbs. injection Hbs as <-. apply not_clickable_outside, Hb. }
  pose proof (clickable_button buttons i b Hb) as Hc.
  unfold GameBoard in Hrun.
  destruct (GameBoard_board (Part000.gameState (view w))); try discriminate.
  destruct (board_cells_callbacks _ _ _ _ _ Hrun i b Hb) as [Hcall _].
  cbn [negb] in Hcall. replace (0 + Z.of_nat i + 1) with (Z.of_nat i + 1)
    in Hcall by lia.
  destruct (disabled b).
  - right. split; [|reflexivity].
    intros bs Hbs. injection Hbs as <-. exact Hc.
  - left. exists buttons. rewrite Hcall.
    repeat split; try reflexivity. exact Hc.
Qed.

Lemma page_handle_cases host net ev w :
  Page.handle host net ev w = (inr tt, w)
  \/ (exists p, 1 <= p /\ Page.loading (view w) = false
                /\ Page.handle host net ev w = Page.makeMove host net p w)
  \/ (Page.loading (view w) = false
      /\ Page.handle host net ev w = Page.startNewGame host net w)
  \/ Page.handle host net ev w = Page.handlePlayAgain host net w.
Proof.
  destruct ev as [i| |].
  - destruct (page_click_cell host net i w)
      as [[buttons [Hl [_ [_ H]]]] | [_ H]].
    + right. left. exists (Z.of_nat i + 1). split; [lia|]. auto.
    + left. exact H.
  - unfold Page.handle, Page.TicTacToe. cbn [Page.newGameDisabled].
    destruct (Page.loading (view w)); [left | right; right; left]; auto.
  - unfold Page.handle.
    destruct (Page.winnerModal (Page.TicTacToe (view w))) as [m|]; [|auto].
    destruct (isOpen m); auto.
Qed.

Lemma part_handle_cases host net ev w :
  Part000.handle host net ev w = (inr tt, w)
  \/ (exists p, 1 <= p /\ Part000.loading (view w) = false
                /\ Part000.handle host net ev w
                   = Part000.makeMove host net p w)
  \/ (Part000.loading (view w) = false
      /\ Part000.handle host net ev w = Part000.startNewGame host net w)
  \/ Part000.handle host net ev w = Part000.handlePlayAgain host net w.
Proof.
  destruct ev as [i| |].
  - destruct (part_click_cell host net i w)
      as [[buttons [Hl [_ [_ H]]]] | [_ H]].
    + right. left. exists (Z.of_nat i + 1). split; [lia|]. auto.
    + left. exact H.
  - unfold Part000.handle, Part000.TicTacToe. cbn [Part000.newGameDisabled].
    destruct (Part000.loading (view w)); [left | right; right; left]; auto.
  - unfold Part000.handle.
    destruct (Part000.winnerModal (Part000.TicTacToe (view w))) as [m|];
      [|auto].
    destruct (isOpen m); auto.
Qed.

(** What one event does, whatever it is. *)
Lemma page_handle_step host net ev w :
  fst (Page.handle host net ev w) = inr tt
  /\ (requests (snd (Page.handle host net ev w)) = requests w
      \/ exists message,
          is_command message
          /\ requests (snd (Page.handle host net ev w))
             = (requests w ++ [("/api/agent", agent_request message)])%list)
  /\ (Page.loading (view w) = false ->
      Page.loading (view (snd (Page.handle host net ev w))) = false)
  /\ (forall k, Page.reply host net = Failed k ->
                Page.gameState (view (snd (Page.handle host net ev w)))
                = Page.gameState (view w)).
Proof.
  destruct (page_handle_cases host net ev w)
    as [H | [[p [Hp [Hl H]]] | [[Hl H] | H]]]; rewrite H; clear H.
  - repeat split; auto.
  - split; [apply page_makeMove_returns|]. split; [|split].
    + right. exists ("move " ++ Number_toString p). split.
      * right. exists p. auto.
      * apply page_makeMove_requests. exact Hl.
    + intros _. apply page_makeMove_settles. exact Hl.
    + intros k E. rewrite (page_makeMove_failed_view _ _ _ _ _ E Hl).
      reflexivity.
  - split; [apply page_startNewGame_returns|]. split; [|split].
    + right. exists "new game". split; [left; reflexivity|].
      apply page_startNewGame_requests.
    + intros _. apply page_startNewGame_settles.
    + intros k E. rewrite (page_startNewGame_failed_view _ _ _ _ E).
      reflexivity.
  - rewrite page_handlePlayAgain_unfold.
    split; [apply page_startNewGame_returns|]. split; [|split].
    + right. exists "new game". split; [left; reflexivity|].
      rewrite page_startNewGame_requests. reflexivity.
    + intros _. apply page_startNewGame_settles.
    + intros k E. rewrite (page_startNewGame_failed_view _ _ _ _ E).
      reflexivity.
Qed.

Lemma part_handle_step host net ev w :
  fst (Part000.handle host net ev w) = inr tt
  /\ (requests (snd (Part000.handle host net ev w)) = requests w
      \/ exists message,
          is_command message
          /\ requests (snd (Part000.handle host net ev w))
             = (requests w ++ [("/api/agent", agent_request message)])%list)
  /\ (Part000.loading (view w) = false ->
      Part000.loading (view (snd (Part000.handle host net ev w))) = false)
  /\ (forall k, Part000.reply net = Failed k ->
                Part000.gameState (view (snd (Part000.handle host net ev w)))
                = Part000.gameState (view w)).
Proof.
  destruct (part_handle_cases host net ev w)
    as [H | [[p [Hp [Hl H]]] | [[Hl H] | H]]]; rewrite H; clear H.
  - repeat split; auto.
  - split; [apply part_makeMove_returns|]. split; [|split].
    + right. exists ("move " ++ Number_toString p). split.
      * right. exists p. auto.
      * apply part_makeMove_requests. exact Hl.
    + intros _. apply part_makeMove_settles. exact Hl.
    + intros k E. rewrite (part_makeMove_failed_view host _ _ _ _ E Hl).
      reflexivity.
  - split; [apply part_startNewGame_returns|]. split; [|split].
    + right. exists "new game". split; [left; reflexivity|].
      apply part_startNewGame_requests.
    + intros _. apply part_startNewGame_settles.
    + intros k E. rewrite (part_startNewGame_failed_view host _ _ _ E).
      reflexivity.
  - rewrite part_handlePlayAgain_unfold.
    split; [apply part_startNewGame_returns|]. split; [|split].
    + right. exists "new game". split; [left; reflexivity|].
      rewrite part_startNewGame_requests. reflexivity.
    + intros _. apply part_startNewGame_settles.
    + intros k E. rewrite (part_startNewGame_failed_view host _ _ _ E).
      reflexivity.
Qed.

(** *** Which replies are refused *)

Lemma page_reply_refused host r data :
  ok r = true ->
  json r = inr data ->
  member data "success" <> None ->
  truthy (optional_member data "success")
  && truthy (optional_member data "response") = false ->
  Page.reply host (FetchResolves r) = Failed EnvelopeFailure.
Proof.
  intros Hok Hjson Hdef Hno.
  unfold Page.reply. rewrite Hok, Hjson. cbn [negb].
  unfold optional_member in Hno.
  destruct data; cbn [member] in *; try congruence; try reflexivity.
  rewrite Hno. reflexivity.
Qed.

Lemma part_reply_refused r data :
  json r = inr data ->
  member data "status" <> None ->
  is_string (optional_member data "status") "success"
  && truthy (optional_member data "response") = false ->
  Part000.reply (FetchResolves r) = Failed EnvelopeFailure.
Proof.
  intros Hjson Hdef Hno.
  unfold Part000.reply. rewrite Hjson.
  unfold optional_member in Hno.
  destruct data; cbn [member] in *; try congruence; try reflexivity.
  rewrite Hno. reflexivity.
Qed.

(** What a failure envelope leaves in [error]. *)
Lemma page_startNewGame_refused host r data w :
  Page.reply host (FetchResolves r) = Failed EnvelopeFailure ->
  json r = inr data ->
  Page.error (view (snd (Page.startNewGame host (FetchResolves r) w)))
  = or_else (optional_member data "error") (JStr "Failed to start new game").
Proof.
  intros Hr Hjson. revert Hr.
  unfold_page. unfold_effects. rewrite Hjson.
  split_run; settle.
Qed.

Lemma page_makeMove_refused host r data p w :
  Page.reply host (FetchResolves r) = Failed EnvelopeFailure ->
  json r = inr data ->
  Page.loading (view w) = false ->
  Page.error (view (snd (Page.makeMove host (FetchResolves r) p w)))
  = or_else (optional_member data "error") (JStr "Failed to process move").
Proof.
  intros Hr Hjson Hl. revert Hr.
  unfold_page. unfold_effects. rewrite Hl, Hjson.
  split_run; settle.
Qed.

Lemma part_startNewGame_refused host r w :
  Part000.reply (FetchResolves r) = Failed EnvelopeFailure ->
  Part000.error (view (snd (Part000.startNewGame host (FetchResolves r) w)))
  = JStr "Failed to start new game".
Proof.
  unfold_part. unfold_effects.
  split_run; settle.
Qed.

Lemma part_makeMove_refused host r p w :
  Part000.reply (FetchResolves r) = Failed EnvelopeFailure ->
  Part000.loading (view w) = false ->
  Part000.error (view (snd (Part000.makeMove host (FetchResolves r) p w)))
  = JStr "Failed to process move".
Proof.
  intros Hr Hl. revert Hr.
  unfold_part. unfold_effects. rewrite Hl.
  split_run; settle.
Qed.

(** *** Past the guard *)

Lemma page_makeMove_past_guard host net p w :
  Page.loading (view w) = false ->
  Page.makeMove host net p w = Page.makeMove_after_guard host net p w.
Proof.
  intros Hl. unfold Page.makeMove, bind, reads. rewrite Hl. reflexivity.
Qed.

Lemma part_makeMove_past_guard host net p w :
  Part000.loading (view w) = false ->
  Part000.makeMove host net p w = Part000.makeMove_after_guard host net p w.
Proof.
  intros Hl. unfold Part000.makeMove, bind, reads. rewrite Hl. reflexivity.
Qed.

Lemma page_makeMove_after_guard_releases host net p w :
  fst (Page.makeMove_after_guard host net p w) = inr tt
  /\ Page.loading (view (snd (Page.makeMove_after_guard host net p w)))
     = false.
Proof.
  unfold_page. unfold_effects. split_run; split; reflexivity.
Qed.

Lemma part_makeMove_after_guard_releases host net p w :
  fst (Part000.makeMove_after_guard host net p w) = inr tt
  /\ Part000.loading (view (snd (Part000.makeMove_after_guard host net p w)))
     = false.
Proof.
  unfold_part. unfold_effects. split_run; split; reflexivity.
Qed.

(** [part_000] reads nothing of a response but its body. *)
Lemma part_reads_the_body_only host r r' p w :
  json r = json r' ->
  Part000.startNewGame host (FetchResolves r) w
  = Part000.startNewGame host (FetchResolves r') w
  /\ Part000.makeMove host (FetchResolves r) p w
     = Part000.makeMove host (FetchResolves r') p w.
Proof.
  intros H. unfold_part. unfold_effects. rewrite H. split; reflexivity.
Qed.

(** * The properties of the specification *)

(** C1, as the code has it.  Each revision accepts the envelope of its own
    variant and refuses every other one.  [page.tsx] accepts an OK reply whose
    [success] and [response] are truthy; the game payload is [response],
    decoded first when it is a string.  [part_000] accepts a reply whose
    [status] is ["success"] and whose [response] is truthy; the game payload
    is [response] as it is.  On the envelope it accepts, [startNewGame], and
    [makeMove] past its guard, set [gameState], [gameStatus] and [message]
    from the payload and leave [error] null.  Every other envelope -- in
    [page.tsx] one without a truthy [success], whatever its [status] says; in
    [part_000] one whose [status] is not ["success"], whatever its [success]
    says -- is a failure envelope: [gameState] stays what it was and [error]
    is set, in [page.tsx] to the envelope's [error] or else the fixed
    message, in [part_000] to the fixed message. *)
Theorem each_revision_accepts_its_envelope host r data gd p :
  json r = inr data ->
  (ok r = true ->
   truthy (optional_member data "success") = true ->
   truthy (optional_member data "response") = true ->
   Page.payload_of host (optional_member data "response") gd ->
   forall w : World Page.View,
     (let v := view (snd (Page.startNewGame host (FetchResolves r) w)) in
      Page.gameState v = optional_member gd "game_state"
      /\ Page.gameStatus v = optional_member gd "game_status"
      /\ Page.message v = optional_member gd "message"
      /\ Page.error v = JNull)
     /\ (Page.loading (view w) = false ->
         let v := view (snd (Page.makeMove host (FetchResolves r) p w)) in
         Page.gameState v = optional_member gd "game_state"
         /\ Page.gameStatus v = optional_member gd "game_status"
         /\ Page.message v = optional_member gd "message"
         /\ Page.error v = JNull))
  /\ (is_string (optional_member data "status") "success" = true ->
      truthy (optional_member data "response") = true ->
      gd = optional_member data "response" ->
      forall w : World Part000.View,
        (let v := view (snd (Part000.startNewGame host (FetchResolves r) w)) in
         Part000.gameState v = optional_member gd "game_state"
         /\ Part000.gameStatus v = optional_member gd "game_status"
         /\ Part000.message v = optional_member gd "message"
         /\ Part000.error v = JNull)
        /\ (Part000.loading (view w) = false ->
            let v := view (snd (Part000.makeMove host (FetchResolves r) p w)) in
            Part000.gameState v = optional_member gd "game_state"
            /\ Part000.gameStatus v = optional_member gd "game_status"
            /\ Part000.message v = optional_member gd "message"
            /\ Part000.error v = JNull))
  /\ (ok r = true ->
      member data "success" <> None ->
      truthy (optional_member data "success")
      && truthy (optional_member data "response") = false ->
      forall w : World Page.View,
        (let v := view (snd (Page.startNewGame host (FetchResolves r) w)) in
         Page.gameState v = Page.gameState (view w)
         /\ Page.error v = or_else (optional_member data "error")
                                   (JStr "Failed to start new game")
         /\ truthy (Page.error v) = true)
        /\ (Page.loading (view w) = false ->
            let v := view (snd (Page.makeMove host (FetchResolves r) p w)) in
            Page.gameState v = Page.gameState (view w)
            /\ Page.error v = or_else (optional_member data "error")
                                      (JStr "Failed to process move")
            /\ truthy (Page.error v) = true))
  /\ (member data "status" <> None ->
      is_string (optional_member data "status") "success"
      && truthy (optional_member data "response") = false ->
      forall w : World Part000.View,
        (let v := view (snd (Part000.startNewGame host (FetchResolves r) w)) in
         Part000.gameState v = Part000.gameState (view w)
         /\ Part000.error v = JStr "Failed to start new game")
        /\ (Part000.loading (view w) = false ->
            let v := view (snd (Part000.makeMove host (FetchResolves r) p w)) in
            Part000.gameState v = Part000.gameState (view w)
            /\ Part000.error v = JStr "Failed to process move")).
Proof.
  intros Hjson.
  assert (Hset : forall x s, truthy (or_else x (JStr s)) = true \/ s = "").
  { intros x s. unfold or_else. destruct (truthy x) eqn:Hx; [left; exact Hx|].
    destruct (String.eqb_spec s "") as [->|Hne]; [right; reflexivity|].
    left. apply truthy_text. exact Hne. }
  split; [|split; [|split]].
  - intros Hok Hflag Hfield Hgd w.
    pose proof (page_reply_accepted host r data gd Hok Hjson Hflag Hfield Hgd)
      as E.
    split; [|intros Hl]; cbv zeta.
    + rewrite (page_startNewGame_accepted _ _ _ _ E). repeat split.
    + rewrite (page_makeMove_accepted _ _ _ _ _ E Hl). repeat split.
  - intros Hstatus Hfield -> w.
    pose proof (part_reply_accepted r data Hjson Hstatus Hfield) as E.
    split; [|intros Hl]; cbv zeta.
    + rewrite (part_startNewGame_accepted host _ _ _ E). repeat split.
    + rewrite (part_makeMove_accepted host _ _ _ _ E Hl). repeat split.
  - intros Hok Hdef Hno w.
    pose proof (page_reply_refused host r data Hok Hjson Hdef Hno) as E.
    split; [|intros Hl]; cbv zeta.
    + rewrite (page_startNewGame_refused host r data w E Hjson).
      split; [rewrite (page_startNewGame_failed_view _ _ _ _ E); reflexivity|].
      split; [reflexivity|].
      destruct (Hset (optional_member data "error") "Failed to start new game")
        as [H|H]; [exact H | discriminate H].
    + rewrite (page_makeMove_refused host r data p w E Hjson Hl).
      split; [rewrite (page_makeMove_failed_view _ _ _ _ _ E Hl); reflexivity|].
      split; [reflexivity|].
      destruct (Hset (optional_member data "error") "Failed to process move")
        as [H|H]; [exact H | discriminate H].
  - intros Hdef Hno w.
    pose proof (part_reply_refused r data Hjson Hdef Hno) as E.
    split; [|intros Hl]; cbv zeta.
    + rewrite (part_startNewGame_refused host r w E).
      split; [|reflexivity].
      rewrite (part_startNewGame_failed_view host _ _ _ E). reflexivity.
    + rewrite (part_makeMove_refused host r p w E Hl).
      split; [|reflexivity].
      rewrite (part_makeMove_failed_view host _ _ _ _ E Hl). reflexivity.
Qed.

Lemma each_revision_accepts_its_envelope_witness :
  Page.gameState
    (view (snd (Page.startNewGame Reference.host
                  (Sample.answers (Sample.variant_A Sample.your_move))
                  Sample.page_idle))) = Sample.fresh_game
  /\ Page.message
       (view (snd (Page.startNewGame Reference.host
                     (Sample.answers (Sample.variant_A Sample.your_move))
                     Sample.page_idle))) = JStr "Your move"
  /\ Part000.gameState
       (view (snd (Part000.makeMove Reference.host
                     (Sample.answers (Sample.variant_B Sample.after_five)) 5
                     Sample.part_idle)))
     = optional_member Sample.after_five "game_state"
  /\ Page.error
       (view (snd (Page.makeMove Reference.host
                     (Sample.answers (Sample.variant_B Sample.after_five)) 5
                     Sample.page_won)))
     = JStr "Failed to process move"
  /\ Part000.gameState
       (view (snd (Part000.startNewGame Reference.host
                     (Sample.answers (Sample.variant_A Sample.your_move))
                     Sample.part_won)))
     = Sample.fresh_game.
Proof.
  pose proof (each_revision_accepts_its_envelope Reference.host
                {| ok := true; status := 200;
                   json := inr (Sample.variant_A Sample.your_move) |}
                (Sample.variant_A Sample.your_move) Sample.your_move 5
                eq_refl) as [Hpage [_ [_ Hpart']]].
  destruct (Hpage eq_refl eq_refl eq_refl eq_refl Sample.page_idle)
    as [[Hstate [_ [Hmessage _]]] _].
  pose proof (each_revision_accepts_its_envelope Reference.host
                {| ok := true; status := 200;
                   json := inr (Sample.variant_B Sample.after_five) |}
                (Sample.variant_B Sample.after_five) Sample.after_five 5
                eq_refl) as [_ [Hpart [Hpage' _]]].
  destruct (Hpart eq_refl eq_refl eq_refl Sample.part_idle) as [_ Hmove].
  split; [exact Hstate|]. split; [exact Hmessage|].
  split; [exact (proj1 (Hmove eq_refl))|].
  split.
  - refine (proj1 (proj2 (proj2 (Hpage' eq_refl _ eq_refl Sample.page_won)
                            eq_refl))).
    discriminate.
  - refine (proj1 (proj1 (Hpart' _ eq_refl Sample.part_won))).
    discriminate.
Defined.

(** C1, as stated, fails: [page.tsx] takes the envelope that signals success
    by [status: "success"] for a failure and leaves [gameState] alone, and
    [part_000] does so with the envelope that signals it by [success: true]. *)
Lemma other_envelope_is_refused :
  (let v := view (snd (Page.startNewGame Reference.host
                         (Sample.answers (Sample.variant_B Sample.your_move))
                         Sample.page_idle)) in
   Page.gameState v = JNull
   /\ Page.gameState v <> optional_member Sample.your_move "game_state"
   /\ Page.error v = JStr "Failed to start new game")
  /\ (let v := view (snd (Part000.startNewGame Reference.host
                            (Sample.answers (Sample.variant_A Sample.your_move))
                            Sample.part_idle)) in
      Part000.gameState v = JNull
      /\ Part000.gameState v <> optional_member Sample.your_move "game_state"
      /\ Part000.error v = JStr "Failed to start new game").
Proof.
  split; cbv zeta; (split; [reflexivity|]); (split; [|reflexivity]);
    vm_compute; discriminate.
Qed.

(** C2, as the code has it.  In [page.tsx], when the host's [JSON.parse]
    undoes [JSON.stringify] on an object payload -- as the reference parser
    does on every JSON value -- two accepted replies that differ only in
    carrying the payload as an object or as its [JSON.stringify] text leave
    the same view, hence the same [gameState].  [part_000] does not decode:
    a string [response] leaves [gameState] undefined. *)
Theorem page_decodes_stringified_payload :
  (forall host r1 r2 data1 data2 fields p,
      reads_back host (JObj fields) ->
      ok r1 = true -> json r1 = inr data1 ->
      ok r2 = true -> json r2 = inr data2 ->
      truthy (optional_member data1 "success") = true ->
      truthy (optional_member data2 "success") = true ->
      optional_member data1 "response" = JObj fields ->
      optional_member data2 "response" = JSON_stringify (JObj fields) ->
      forall w : World Page.View,
        view (snd (Page.startNewGame host (FetchResolves r1) w))
        = view (snd (Page.startNewGame host (FetchResolves r2) w))
        /\ (Page.loading (view w) = false ->
            view (snd (Page.makeMove host (FetchResolves r1) p w))
            = view (snd (Page.makeMove host (FetchResolves r2) p w))))
  /\ (forall v, Reference.is_json v = true -> reads_back Reference.host v)
  /\ (forall host r data text p,
         json r = inr data ->
         is_string (optional_member data "status") "success" = true ->
         optional_member data "response" = JStr text ->
         text <> "" ->
         forall w : World Part000.View,
           Part000.gameState
             (view (snd (Part000.startNewGame host (FetchResolves r) w)))
           = JUndefined
           /\ (Part000.loading (view w) = false ->
               Part000.gameState
                 (view (snd (Part000.makeMove host (FetchResolves r) p w)))
               = JUndefined)).
Proof.
  split; [|split].
  - intros host r1 r2 data1 data2 fields p
      Hback Hok1 Hjson1 Hok2 Hjson2 Hflag1 Hflag2 Hobj Htext w.
    destruct (stringify_object_truthy fields) as [text [Hs Hne]].
    unfold reads_back in Hback. rewrite Hs in Hback, Htext.
    assert (E1 : Page.reply host (FetchResolves r1) = Accepted (JObj fields)).
    { apply (page_reply_accepted host r1 data1); auto.
      - rewrite Hobj. reflexivity.
      - rewrite Hobj. reflexivity. }
    assert (E2 : Page.reply host (FetchResolves r2) = Accepted (JObj fields)).
    { apply (page_reply_accepted host r2 data2); auto.
      - rewrite Htext. apply truthy_text. exact Hne.
      - rewrite Htext. split; [exact Hback | discriminate]. }
    split; [|intros Hl].
    + rewrite (page_startNewGame_accepted _ _ _ _ E1).
      rewrite (page_startNewGame_accepted _ _ _ _ E2). reflexivity.
    + rewrite (page_makeMove_accepted _ _ _ _ _ E1 Hl).
      rewrite (page_makeMove_accepted _ _ _ _ _ E2 Hl). reflexivity.
  - exact reference_reads_back.
  - intros host r data text p Hjson Hstatus Hfield Hne w.
    assert (E : Part000.reply (FetchResolves r) = Accepted (JStr text)).
    { rewrite <- Hfield. apply part_reply_accepted; auto.
      rewrite Hfield. apply truthy_text. exact Hne. }
    split; [|intros Hl].
    + rewrite (part_startNewGame_accepted host _ _ _ E). reflexivity.
    + rewrite (part_makeMove_accepted host _ _ _ _ E Hl). reflexivity.
Qed.

Lemma page_decodes_stringified_payload_witness :
  reads_back Reference.host Sample.after_five
  /\ Page.gameState
       (view (snd (Page.makeMove Reference.host
                     (Sample.answers (Sample.variant_A Sample.after_five)) 5
                     Sample.page_idle)))
     = Page.gameState
         (view (snd (Page.makeMove Reference.host
                       (Sample.answers
                          (Sample.variant_A (JSON_stringify Sample.after_five)))
                       5 Sample.page_idle)))
  /\ Part000.gameState
       (view (snd (Part000.makeMove Reference.host
                     (Sample.answers
                        (Sample.variant_B (JSON_stringify Sample.after_five)))
                     5 Sample.part_idle))) = JUndefined.
Proof.
  destruct page_decodes_stringified_payload as [Hpage [Hreads Hpart]].
  assert (Hback : reads_back Reference.host Sample.after_five)
    by (apply Hreads; reflexivity).
  split; [exact Hback|]. split.
  - exact (f_equal Page.gameState
             (proj2 (Hpage Reference.host
                       {| ok := true; status := 200;
                          json := inr (Sample.variant_A Sample.after_five) |}
                       {| ok := true; status := 200;
                          json := inr (Sample.variant_A
                                         (JSON_stringify Sample.after_five)) |}
                       (Sample.variant_A Sample.after_five)
                       (Sample.variant_A (JSON_stringify Sample.after_five))
                       _ 5 Hback eq_refl eq_refl eq_refl eq_refl eq_refl
                       eq_refl eq_refl eq_refl Sample.page_idle)
                    eq_refl)).
  - refine (proj2 (Hpart Reference.host
                     {| ok := true; status := 200;
                        json := inr (Sample.variant_B
                                       (JSON_stringify Sample.after_five)) |}
                     (Sample.variant_B (JSON_stringify Sample.after_five))
                     _ 5 eq_refl eq_refl eq_refl _ Sample.part_idle) eq_refl).
    discriminate.
Defined.

(** C2, as stated, fails in [part_000]: the payload as an object gives its
    [game_state], the same payload stringified gives [undefined]. *)
Lemma part_keeps_stringified_payload :
  Part000.gameState
    (view (snd (Part000.makeMove Reference.host
                  (Sample.answers (Sample.variant_B Sample.after_five)) 5
                  Sample.part_idle)))
  = optional_member Sample.after_five "game_state"
  /\ Part000.gameState
       (view (snd (Part000.makeMove Reference.host
                     (Sample.answers
                        (Sample.variant_B (JSON_stringify Sample.after_five)))
                     5 Sample.part_idle)))
     = JUndefined
  /\ optional_member Sample.after_five "game_state" <> JUndefined.
Proof.
  split; [reflexivity|]. split; [reflexivity|]. vm_compute. discriminate.
Qed.

(** C3. For every position [p], [makeMove p] called while [loading] is true
    does nothing at all: no request is sent, no state cell changes and
    nothing is logged, in both revisions. *)
Theorem makeMove_while_loading_is_inert host net p :
  (forall w : World Page.View,
      Page.loading (view w) = true ->
      Page.makeMove host net p w = (inr tt, w))
  /\ (forall w : World Part000.View,
         Part000.loading (view w) = true ->
         Part000.makeMove host net p w = (inr tt, w)).
Proof.
  split; intros w Hl.
  - unfold Page.makeMove, bind, reads, ret. rewrite Hl. reflexivity.
  - unfold Part000.makeMove, bind, reads, ret. rewrite Hl. reflexivity.
Qed.

Lemma makeMove_while_loading_is_inert_witness :
  Page.makeMove Reference.host (Sample.answers (Sample.variant_A Sample.after_five))
    5 Sample.page_busy = (inr tt, Sample.page_busy)
  /\ Part000.makeMove Reference.host
       (Sample.answers (Sample.variant_B Sample.after_five))
       5 Sample.part_busy = (inr tt, Sample.part_busy).
Proof.
  split.
  - apply (proj1 (makeMove_while_loading_is_inert Reference.host
                    (Sample.answers (Sample.variant_A Sample.after_five)) 5)).
    reflexivity.
  - apply (proj2 (makeMove_while_loading_is_inert Reference.host
                    (Sample.answers (Sample.variant_B Sample.after_five)) 5)).
    reflexivity.
Defined.

(** C4, as the code has it.  While [loading] is true the New Game button is
    disabled and the board is not on the page: a click on New Game or on a
    cell does nothing.  That is all the guard there is.  [startNewGame] has
    none of its own: called directly -- by the mount effect or by the Play
    Again handler -- it sends its request whatever [loading] is.  So a click
    on Play Again, when the result dialog is open while [loading] is true,
    sends a ["new game"] request; when the dialog is not open there is
    nothing to click. *)
Theorem new_game_button_is_the_guard host net :
  (forall w : World Page.View,
      Page.loading (view w) = true ->
      Page.newGameDisabled (Page.TicTacToe (view w)) = true
      /\ Page.board (Page.TicTacToe (view w)) = None
      /\ Page.handle host net Page.ClickNewGame w = (inr tt, w)
      /\ (forall i, Page.handle host net (Page.ClickCell i) w = (inr tt, w))
      /\ (forall m,
             Page.winnerModal (Page.TicTacToe (view w)) = Some m ->
             isOpen m = true ->
             requests (snd (Page.handle host net Page.ClickPlayAgain w))
             = (requests w
                ++ [("/api/agent", agent_request "new game")])%list)
      /\ ((forall m,
              Page.winnerModal (Page.TicTacToe (view w)) = Some m ->
              isOpen m = false) ->
          Page.handle host net Page.ClickPlayAgain w = (inr tt, w)))
  /\ (forall w : World Part000.View,
         Part000.loading (view w) = true ->
         Part000.newGameDisabled (Part000.TicTacToe (view w)) = true
         /\ Part000.board (Part000.TicTacToe (view w)) = None
         /\ Part000.handle host net Part000.ClickNewGame w = (inr tt, w)
         /\ (forall i,
                Part000.handle host net (Part000.ClickCell i) w = (inr tt, w))
         /\ (forall m,
                Part000.winnerModal (Part000.TicTacToe (view w)) = Some m ->
                isOpen m = true ->
                requests (snd (Part000.handle host net Part000.ClickPlayAgain w))
                = (requests w
                   ++ [("/api/agent", agent_request "new game")])%list)
         /\ ((forall m,
                 Part000.winnerModal (Part000.TicTacToe (view w)) = Some m ->
                 isOpen m = false) ->
             Part000.handle host net Part000.ClickPlayAgain w = (inr tt, w)))
  /\ (forall w : World Page.View,
         requests (snd (Page.startNewGame host net w))
         = (requests w ++ [("/api/agent", agent_request "new game")])%list)
  /\ (forall w : World Part000.View,
         requests (snd (Part000.startNewGame host net w))
         = (requests w ++ [("/api/agent", agent_request "new game")])%list).
Proof.
  split; [|split; [|split]].
  - intros w Hl.
    split; [|split; [|split; [|split; [|split]]]].
    + unfold Page.TicTacToe. cbn [Page.newGameDisabled]. exact Hl.
    + unfold Page.TicTacToe. cbn [Page.board]. rewrite Hl. reflexivity.
    + unfold Page.handle, Page.TicTacToe.
      cbn [Page.newGameDisabled]. rewrite Hl. reflexivity.
    + intros i. unfold Page.handle, Page.TicTacToe.
      cbn [Page.board]. rewrite Hl. reflexivity.
    + intros m Hm Hopen. unfold Page.handle. rewrite Hm, Hopen.
      rewrite page_handlePlayAgain_unfold, page_startNewGame_requests.
      reflexivity.
    + intros Hclosed. unfold Page.handle.
      destruct (Page.winnerModal (Page.TicTacToe (view w))) as [m|] eqn:Hm;
        [|reflexivity].
      rewrite (Hclosed m eq_refl). reflexivity.
  - intros w Hl.
    split; [|split; [|split; [|split; [|split]]]].
    + unfold Part000.TicTacToe. cbn [Part000.newGameDisabled]. exact Hl.
    + unfold Part000.TicTacToe. cbn [Part000.board]. rewrite Hl. reflexivity.
    + unfold Part000.handle, Part000.TicTacToe.
      cbn [Part000.newGameDisabled]. rewrite Hl. reflexivity.
    + intros i. unfold Part000.handle, Part000.TicTacToe.
      cbn [Part000.board]. rewrite Hl. reflexivity.
    + intros m Hm Hopen. unfold Part000.handle. rewrite Hm, Hopen.
      rewrite part_handlePlayAgain_unfold, part_startNewGame_requests.
      reflexivity.
    + intros Hclosed. unfold Part000.handle.
      destruct (Part000.winnerModal (Part000.TicTacToe (view w)))
        as [m|] eqn:Hm; [|reflexivity].
      rewrite (Hclosed m eq_refl). reflexivity.
  - apply page_startNewGame_requests.
  - apply part_startNewGame_requests.
Qed.

Lemma new_game_button_is_the_guard_witness :
  Page.loading (view Sample.page_busy) = true
  /\ Page.handle Reference.host Sample.offline Page.ClickNewGame
       Sample.page_busy = (inr tt, Sample.page_busy)
  /\ Page.handle Reference.host Sample.offline Page.ClickPlayAgain
       Sample.page_busy = (inr tt, Sample.page_busy)
  /\ Page.loading (view Sample.page_busy_won) = true
  /\ requests (snd (Page.handle Reference.host Sample.offline
                      Page.ClickPlayAgain Sample.page_busy_won))
     = [("/api/agent", agent_request "move 5");
        ("/api/agent", agent_request "new game")]
  /\ Part000.loading (view Sample.part_busy_won) = true
  /\ Part000.handle Reference.host Sample.offline (Part000.ClickCell 4)
       Sample.part_busy_won = (inr tt, Sample.part_busy_won)
  /\ requests (snd (Part000.handle Reference.host Sample.offline
                      Part000.ClickPlayAgain Sample.part_busy_won))
     = [("/api/agent", agent_request "move 5");
        ("/api/agent", agent_request "new game")].
Proof.
  pose proof (new_game_button_is_the_guard Reference.host Sample.offline)
    as [Hpage [Hpart _]].
  destruct (Hpage Sample.page_busy eq_refl) as [_ [_ [Hnew [_ [_ Hnone]]]]].
  destruct (Hpage Sample.page_busy_won eq_refl)
    as [_ [_ [_ [_ [Hagain _]]]]].
  destruct (Hpart Sample.part_busy_won eq_refl)
    as [_ [_ [_ [Hcell [Hagain' _]]]]].
  split; [reflexivity|].
  split; [exact Hnew|].
  split; [apply Hnone; intros m Hm; discriminate Hm|].
  split; [reflexivity|].
  split; [exact (Hagain (Page.WinnerModal (JStr "O") true) eq_refl eq_refl)|].
  split; [reflexivity|].
  split; [exact (Hcell 4%nat)|].
  exact (Hagain' (Part000.WinnerModal (JStr "O")) eq_refl eq_refl).
Defined.

(** C4, as stated, fails: with a move in flight ([loading] true, one request
    sent), [startNewGame] sends a second request. *)
Lemma startNewGame_sends_while_loading :
  Page.loading (view Sample.page_busy) = true
  /\ requests Sample.page_busy = [("/api/agent", agent_request "move 5")]
  /\ requests (snd (Page.startNewGame Reference.host Sample.offline
                      Sample.page_busy))
     = [("/api/agent", agent_request "move 5");
        ("/api/agent", agent_request "new game")]
  /\ Part000.loading (view Sample.part_busy) = true
  /\ requests (snd (Part000.startNewGame Reference.host Sample.offline
                      Sample.part_busy))
     = [("/api/agent", agent_request "move 5");
        ("/api/agent", agent_request "new game")].
Proof. repeat split. Qed.

(** C5. Both operations raise [loading] before the request goes out and
    release it in their [finally].  Whatever the reply -- accepted, failure
    envelope, parse failure or network failure -- and whatever the state
    before, [loading] true included, [startNewGame] and the part of
    [makeMove] behind its guard return normally with [loading] false.  A
    [makeMove] called with [loading] false is that part, so it returns
    normally with [loading] false.  In both revisions. *)
Theorem loading_is_released host net p :
  (forall w : World Page.View,
      Page.loading (view (snd (Page.startNewGame_reset w))) = true
      /\ fst (Page.startNewGame host net w) = inr tt
      /\ Page.loading (view (snd (Page.startNewGame host net w))) = false)
  /\ (forall w : World Page.View,
         Page.loading (view (snd (Page.makeMove_begin w))) = true
         /\ requests (snd (Page.makeMove_begin w)) = requests w
         /\ fst (Page.makeMove_after_guard host net p w) = inr tt
         /\ Page.loading
              (view (snd (Page.makeMove_after_guard host net p w))) = false)
  /\ (forall w : World Page.View,
         Page.loading (view w) = false ->
         Page.makeMove host net p w = Page.makeMove_after_guard host net p w
         /\ fst (Page.makeMove host net p w) = inr tt
         /\ Page.loading (view (snd (Page.makeMove host net p w))) = false)
  /\ (forall w : World Part000.View,
         Part000.loading (view (snd (Part000.startNewGame_reset w))) = true
         /\ fst (Part000.startNewGame host net w) = inr tt
         /\ Part000.loading (view (snd (Part000.startNewGame host net w)))
            = false)
  /\ (forall w : World Part000.View,
         Part000.loading (view (snd (Part000.makeMove_begin w))) = true
         /\ requests (snd (Part000.makeMove_begin w)) = requests w
         /\ fst (Part000.makeMove_after_guard host net p w) = inr tt
         /\ Part000.loading
              (view (snd (Part000.makeMove_after_guard host net p w)))
            = false)
  /\ (forall w : World Part000.View,
         Part000.loading (view w) = false ->
         Part000.makeMove host net p w
         = Part000.makeMove_after_guard host net p w
         /\ fst (Part000.makeMove host net p w) = inr tt
         /\ Part000.loading (view (snd (Part000.makeMove host net p w)))
            = false).
Proof.
  split; [|split; [|split; [|split; [|split]]]]; intros w.
  - split; [reflexivity|]. split; [apply page_startNewGame_returns|].
    destruct (Page.reply host net) as [gd|k] eqn:E.
    + rewrite (page_startNewGame_accepted _ _ _ _ E). reflexivity.
    + rewrite (page_startNewGame_failed_view _ _ _ _ E). reflexivity.
  - split; [reflexivity|]. split; [reflexivity|].
    apply page_makeMove_after_guard_releases.
  - intros Hl. rewrite (page_makeMove_past_guard host net p w Hl).
    split; [reflexivity|]. apply page_makeMove_after_guard_releases.
  - split; [reflexivity|]. split; [apply part_startNewGame_returns|].
    destruct (Part000.reply net) as [gd|k] eqn:E.
    + rewrite (part_startNewGame_accepted host _ _ _ E). reflexivity.
    + rewrite (part_startNewGame_failed_view host _ _ _ E). reflexivity.
  - split; [reflexivity|]. split; [reflexivity|].
    apply part_makeMove_after_guard_releases.
  - intros Hl. rewrite (part_makeMove_past_guard host net p w Hl).
    split; [reflexivity|]. apply part_makeMove_after_guard_releases.
Qed.

Lemma loading_is_released_witness :
  Page.loading (view Sample.page_idle) = false
  /\ Page.loading
       (view (snd (Page.makeMove Reference.host Sample.offline 5
                     Sample.page_idle))) = false
  /\ requests (snd (Page.makeMove Reference.host Sample.offline 5
                      Sample.page_idle))
     = requests (snd (Page.makeMove_after_guard Reference.host Sample.offline
                        5 Sample.page_idle))
  /\ Part000.loading (view Sample.part_idle) = false
  /\ Part000.loading
       (view (snd (Part000.makeMove Reference.host Sample.offline 5
                     Sample.part_idle))) = false.
Proof.
  pose proof (loading_is_released Reference.host Sample.offline 5)
    as [_ [_ [Hpage [_ [_ Hpart]]]]].
  destruct (Hpage Sample.page_idle eq_refl) as [Hsame [_ Hreleased]].
  split; [reflexivity|]. split; [exact Hreleased|].
  split; [exact (f_equal (fun r => requests (snd r)) Hsame)|].
  split; [reflexivity|].
  exact (proj2 (proj2 (Hpart Sample.part_idle eq_refl))).
Defined.

(** C6, as the code has it.  After every reply that a revision takes for a
    failure -- the transport rejects, the status is not OK ([page.tsx]), the
    envelope is a failure envelope, the JSON does not parse or is [null] --
    [gameState] is exactly what it was and [error] is a non-empty string;
    this for the replies of the declared interface, whose [error] property,
    when there is one, is a string, and for errors of the host and of the
    network that carry a message.  [part_000] has no inner layer of
    encoding: it takes a non-empty string [response] under the status
    ["success"] for the payload, whatever the string holds, which leaves
    [error] null and [gameState] undefined. *)
Theorem failure_sets_error_and_keeps_board host net k p :
  (Page.reply host net = Failed k ->
   forall w : World Page.View,
     (let v := view (snd (Page.startNewGame host net w)) in
      Page.gameState v = Page.gameState (view w)
      /\ (host_describes_errors host -> net_describes_errors net ->
          error_field_is_text net ->
          exists s, Page.error v = JStr s /\ s <> ""))
     /\ (Page.loading (view w) = false ->
         let v := view (snd (Page.makeMove host net p w)) in
         Page.gameState v = Page.gameState (view w)
         /\ (host_describes_errors host -> net_describes_errors net ->
             error_field_is_text net ->
             exists s, Page.error v = JStr s /\ s <> "")))
  /\ (Part000.reply net = Failed k ->
      forall w : World Part000.View,
        (let v := view (snd (Part000.startNewGame host net w)) in
         Part000.gameState v = Part000.gameState (view w)
         /\ (host_describes_errors host -> net_describes_errors net ->
             exists s, Part000.error v = JStr s /\ s <> ""))
        /\ (Part000.loading (view w) = false ->
            let v := view (snd (Part000.makeMove host net p w)) in
            Part000.gameState v = Part000.gameState (view w)
            /\ (host_describes_errors host -> net_describes_errors net ->
                exists s, Part000.error v = JStr s /\ s <> "")))
  /\ (forall r data text,
         net = FetchResolves r ->
         json r = inr data ->
         is_string (optional_member data "status") "success" = true ->
         optional_member data "response" = JStr text ->
         text <> "" ->
         forall w : World Part000.View,
           (let v := view (snd (Part000.startNewGame host net w)) in
            Part000.error v = JNull /\ Part000.gameState v = JUndefined)
           /\ (Part000.loading (view w) = false ->
               let v := view (snd (Part000.makeMove host net p w)) in
               Part000.error v = JNull /\ Part000.gameState v = JUndefined)).
Proof.
  split; [|split].
  - intros E w; (split; [|intros Hl]); cbv zeta; split.
    + rewrite (page_startNewGame_failed_view _ _ _ _ E). reflexivity.
    + intros Hh Hn.
      exact (proj2 (page_startNewGame_failed_error _ _ w _ E Hh Hn)).
    + rewrite (page_makeMove_failed_view _ _ _ _ _ E Hl). reflexivity.
    + intros Hh Hn.
      exact (proj2 (page_makeMove_failed_error _ _ p w _ E Hl Hh Hn)).
  - intros E w; (split; [|intros Hl]); cbv zeta; split.
    + rewrite (part_startNewGame_failed_view host _ _ _ E). reflexivity.
    + intros Hh Hn. exact (part_startNewGame_failed_error _ _ w _ E Hh Hn).
    + rewrite (part_makeMove_failed_view host _ _ _ _ E Hl). reflexivity.
    + intros Hh Hn. exact (part_makeMove_failed_error _ _ p w _ E Hl Hh Hn).
  - intros r data text -> Hjson Hstatus Hfield Hne w.
    assert (E : Part000.reply (FetchResolves r) = Accepted (JStr text)).
    { rewrite <- Hfield. apply part_reply_accepted; auto.
      rewrite Hfield. apply truthy_text. exact Hne. }
    split; [|intros Hl]; cbv zeta.
    + rewrite (part_startNewGame_accepted host _ _ _ E). split; reflexivity.
    + rewrite (part_makeMove_accepted host _ _ _ _ E Hl). split; reflexivity.
Qed.

Lemma failure_sets_error_and_keeps_board_witness :
  Page.reply Reference.host Sample.offline = Failed NetworkFailure
  /\ Page.gameState
       (view (snd (Page.startNewGame Reference.host Sample.offline
                     Sample.page_won))) = Sample.fresh_game
  /\ (exists s,
         Page.error
           (view (snd (Page.startNewGame Reference.host Sample.offline
                         Sample.page_won))) = JStr s /\ s <> "")
  /\ Page.reply Reference.host (Sample.answers Sample.refusal)
     = Failed EnvelopeFailure
  /\ (exists s,
         Page.error
           (view (snd (Page.makeMove Reference.host
                         (Sample.answers Sample.refusal) 5 Sample.page_won)))
         = JStr s /\ s <> "")
  /\ Part000.reply Sample.offline = Failed NetworkFailure
  /\ (exists s,
         Part000.error
           (view (snd (Part000.makeMove Reference.host Sample.offline 5
                         Sample.part_won))) = JStr s /\ s <> "").
Proof.
  pose proof (failure_sets_error_and_keeps_board Reference.host Sample.offline
                NetworkFailure 5) as [Hpage [Hpart _]].
  pose proof (failure_sets_error_and_keeps_board Reference.host
                (Sample.answers Sample.refusal) EnvelopeFailure 5)
    as [Hrefused _].
  assert (Hnet : net_describes_errors Sample.offline)
    by (simpl; discriminate).
  assert (Htext : error_field_is_text (Sample.answers Sample.refusal)).
  { intros _. eexists. reflexivity. }
  split; [reflexivity|].
  destruct (Hpage eq_refl Sample.page_won) as [[Hstate Herror] _].
  split; [exact Hstate|].
  split; [exact (Herror reference_host_describes_errors Hnet I)|].
  split; [reflexivity|].
  destruct (Hrefused eq_refl Sample.page_won) as [_ Hmove].
  split; [exact (proj2 (Hmove eq_refl) reference_host_describes_errors I Htext)|].
  split; [reflexivity|].
  destruct (Hpart eq_refl Sample.part_won) as [_ Hmove'].
  exact (proj2 (Hmove' eq_refl) reference_host_describes_errors Hnet).
Defined.

(** C6, as stated, fails in [part_000] at the inner layer of encoding: a
    [response] that is a string and no JSON is no failure there.  With a
    finished game on the page, the reply leaves [error] null, which is no
    string, and replaces [gameState] by [undefined]. *)
Lemma part_installs_undecodable_response :
  (exists message, Reference.JSON_parse "{board" = inl message)
  /\ optional_member Sample.undecodable "response" = JStr "{board"
  /\ (let v := view (snd (Part000.makeMove Reference.host
                            (Sample.answers Sample.undecodable) 5
                            Sample.part_won)) in
      Part000.error v = JNull
      /\ (forall s, Part000.error v <> JStr s)
      /\ Part000.gameState (view Sample.part_won) = Sample.fresh_game
      /\ Part000.gameState v = JUndefined
      /\ Part000.gameState v <> Part000.gameState (view Sample.part_won)).
Proof.
  split; [eexists; vm_compute; reflexivity|].
  split; [reflexivity|]. cbv zeta.
  split; [reflexivity|].
  split; [intros s; vm_compute; discriminate|].
  split; [reflexivity|].
  split; [reflexivity|].
  vm_compute. discriminate.
Qed.

(** C7, as the code has it.  No reply makes [makeMove] or [startNewGame]
    throw: both always return normally, in both revisions.  Every reply that
    a revision takes for a failure -- for [page.tsx] a transport rejection, a
    status that is not OK, a failure envelope and JSON that fails to parse
    at either layer; for [part_000] a transport rejection, a failure
    envelope and a body that fails to parse -- becomes a non-empty error
    string, which the banner shows; this for the replies of the declared
    interface, whose [error] property, when there is one, is a string, and
    for errors of the host and of the network that carry a message.
    [part_000] reads nothing of a response but its body: two replies with
    the same body do the same, whatever their HTTP status. *)
Theorem failures_are_handled host net p :
  (forall w : World Page.View,
      fst (Page.startNewGame host net w) = inr tt
      /\ fst (Page.makeMove host net p w) = inr tt)
  /\ (forall w : World Part000.View,
         fst (Part000.startNewGame host net w) = inr tt
         /\ fst (Part000.makeMove host net p w) = inr tt)
  /\ (host_describes_errors host ->
      net_describes_errors net ->
      (forall k (w : World Page.View),
          Page.reply host net = Failed k ->
          error_field_is_text net ->
          (exists s,
              s <> ""
              /\ Page.error (view (snd (Page.startNewGame host net w)))
                 = JStr s
              /\ Page.errorBanner
                   (Page.TicTacToe (view (snd (Page.startNewGame host net w))))
                 = Some (JStr s))
          /\ (Page.loading (view w) = false ->
              exists s,
                s <> ""
                /\ Page.error (view (snd (Page.makeMove host net p w)))
                   = JStr s
                /\ Page.errorBanner
                     (Page.TicTacToe (view (snd (Page.makeMove host net p w))))
                   = Some (JStr s)))
      /\ (forall k (w : World Part000.View),
             Part000.reply net = Failed k ->
             (exists s,
                 s <> ""
                 /\ Part000.error
                      (view (snd (Part000.startNewGame host net w)))
                    = JStr s
                 /\ Part000.errorBanner
                      (Part000.TicTacToe
                         (view (snd (Part000.startNewGame host net w))))
                    = Some (JStr s))
             /\ (Part000.loading (view w) = false ->
                 exists s,
                   s <> ""
                   /\ Part000.error
                        (view (snd (Part000.makeMove host net p w)))
                      = JStr s
                   /\ Part000.errorBanner
                        (Part000.TicTacToe
                           (view (snd (Part000.makeMove host net p w))))
                      = Some (JStr s))))
  /\ (forall r r' (w : World Part000.View),
         json r = json r' ->
         Part000.startNewGame host (FetchResolves r) w
         = Part000.startNewGame host (FetchResolves r') w
         /\ Part000.makeMove host (FetchResolves r) p w
            = Part000.makeMove host (FetchResolves r') p w).
Proof.
  assert (Hpage : forall v s,
             Page.error v = JStr s -> s <> "" ->
             exists s', s' <> "" /\ Page.error v = JStr s'
                        /\ Page.errorBanner (Page.TicTacToe v) = Some (JStr s')).
  { intros v s Hs Hne. exists s. split; [exact Hne|]. split; [exact Hs|].
    unfold Page.TicTacToe. cbn [Page.errorBanner].
    rewrite Hs, (truthy_text s Hne). reflexivity. }
  assert (Hpart : forall v s,
             Part000.error v = JStr s -> s <> "" ->
             exists s', s' <> "" /\ Part000.error v = JStr s'
                        /\ Part000.errorBanner (Part000.TicTacToe v)
                           = Some (JStr s')).
  { intros v s Hs Hne. exists s. split; [exact Hne|]. split; [exact Hs|].
    unfold Part000.TicTacToe. cbn [Part000.errorBanner].
    rewrite Hs, (truthy_text s Hne). reflexivity. }
  split; [|split; [|split]].
  - intros w. split;
      [apply page_startNewGame_returns | apply page_makeMove_returns].
  - intros w. split;
      [apply part_startNewGame_returns | apply part_makeMove_returns].
  - intros Hh Hn. split.
    + intros k w E Htext. split; [|intros Hl].
      * destruct (proj2 (page_startNewGame_failed_error _ _ w _ E Hh Hn) Htext)
          as [s [Hs Hne]].
        exact (Hpage _ s Hs Hne).
      * destruct (proj2 (page_makeMove_failed_error _ _ p w _ E Hl Hh Hn) Htext)
          as [s [Hs Hne]].
        exact (Hpage _ s Hs Hne).
    + intros k w E. split; [|intros Hl].
      * destruct (part_startNewGame_failed_error _ _ w _ E Hh Hn)
          as [s [Hs Hne]].
        exact (Hpart _ s Hs Hne).
      * destruct (part_makeMove_failed_error _ _ p w _ E Hl Hh Hn)
          as [s [Hs Hne]].
        exact (Hpart _ s Hs Hne).
  - intros r r' w H. exact (part_reads_the_body_only host r r' p w H).
Qed.

Lemma failures_are_handled_witness :
  host_describes_errors Reference.host
  /\ net_describes_errors Sample.bad_gateway
  /\ Page.reply Reference.host Sample.bad_gateway = Failed NetworkFailure
  /\ Page.errorBanner
       (Page.TicTacToe
          (view (snd (Page.makeMove Reference.host Sample.bad_gateway 5
                        Sample.page_idle))))
     = Some (JStr "API error: 502")
  /\ Part000.reply Sample.bad_gateway = Failed ParseFailure
  /\ Part000.errorBanner
       (Part000.TicTacToe
          (view (snd (Part000.makeMove Reference.host Sample.bad_gateway 5
                        Sample.part_idle))))
     = Some (JStr "Unexpected token < in JSON").
Proof.
  assert (Hnet : net_describes_errors Sample.bad_gateway)
    by (simpl; discriminate).
  pose proof (failures_are_handled Reference.host Sample.bad_gateway 5)
    as [_ [_ [H _]]].
  destruct (H reference_host_describes_errors Hnet) as [Hpage Hpart].
  split; [exact reference_host_describes_errors|].
  split; [exact Hnet|].
  split; [reflexivity|].
  split.
  - destruct (proj2 (Hpage NetworkFailure Sample.page_idle eq_refl I) eq_refl)
      as [s [_ [Hs Hbanner]]].
    rewrite Hbanner, <- Hs. reflexivity.
  - split; [reflexivity|].
    destruct (proj2 (Hpart ParseFailure Sample.part_idle eq_refl) eq_refl)
      as [s [_ [Hs Hbanner]]].
    rewrite Hbanner, <- Hs. reflexivity.
Defined.

(** C7, as stated, fails in [part_000]: a reply whose HTTP status is not OK
    but whose body is a success envelope is not taken for an error; no error
    is shown and the payload is installed. *)
Lemma part_ignores_http_status :
  let v := view (snd (Part000.startNewGame Reference.host
                        Sample.error_status_with_success_body
                        Sample.part_idle)) in
  Part000.error v = JNull
  /\ Part000.errorBanner (Part000.TicTacToe v) = None
  /\ Part000.gameState v = Sample.fresh_game.
Proof. cbv zeta. repeat split. Qed.

(** C8. After an accepted [makeMove] reply whose [game_status] is ["won"] or
    ["draw"], [winner] is the payload's [winner] (and, when that is truthy,
    the result dialog is on the page and open); when it is ["in_progress"],
    [winner] is left as it was.  In both revisions. *)
Theorem winner_set_when_game_ends host net p gd :
  (Page.reply host net = Accepted gd ->
   forall w : World Page.View,
     Page.loading (view w) = false ->
     let v := view (snd (Page.makeMove host net p w)) in
     (is_string (optional_member gd "game_status") "won"
      || is_string (optional_member gd "game_status") "draw" = true ->
      Page.winner v = optional_member gd "winner"
      /\ Page.showWinnerModal v = true
      /\ (truthy (optional_member gd "winner") = true ->
          Page.winnerModal (Page.TicTacToe v)
          = Some (Page.WinnerModal (optional_member gd "winner") true)))
     /\ (is_string (optional_member gd "game_status") "in_progress" = true ->
         Page.winner v = Page.winner (view w)))
  /\ (Part000.reply net = Accepted gd ->
      forall w : World Part000.View,
        Part000.loading (view w) = false ->
        let v := view (snd (Part000.makeMove host net p w)) in
        (is_string (optional_member gd "game_status") "won"
         || is_string (optional_member gd "game_status") "draw" = true ->
         Part000.winner v = optional_member gd "winner"
         /\ (truthy (optional_member gd "winner") = true ->
             Part000.winnerModal (Part000.TicTacToe v)
             = Some (Part000.WinnerModal (optional_member gd "winner"))))
        /\ (is_string (optional_member gd "game_status") "in_progress" = true ->
            Part000.winner v = Part000.winner (view w))).
Proof.
  assert (Hgoing : forall x, is_string x "in_progress" = true ->
                             is_string x "won" || is_string x "draw" = false).
  { intros x Hx. destruct x; try discriminate.
    apply String.eqb_eq in Hx. subst. reflexivity. }
  split; intros E w Hl; cbv zeta.
  - rewrite (page_makeMove_accepted _ _ _ _ _ E Hl). cbv zeta.
    split; intros Hs.
    + rewrite Hs. cbn [Page.winner Page.showWinnerModal].
      split; [reflexivity|]. split; [reflexivity|].
      intros Hw. unfold Page.TicTacToe.
      cbn [Page.winnerModal Page.winner Page.showWinnerModal].
      rewrite Hw. reflexivity.
    + rewrite (Hgoing _ Hs). reflexivity.
  - rewrite (part_makeMove_accepted host _ _ _ _ E Hl). cbv zeta.
    split; intros Hs.
    + rewrite Hs. cbn [Part000.winner]. split; [reflexivity|].
      intros Hw. unfold Part000.TicTacToe.
      cbn [Part000.winnerModal Part000.winner].
      rewrite Hw. reflexivity.
    + rewrite (Hgoing _ Hs). reflexivity.
Qed.

Lemma winner_set_when_game_ends_witness :
  Page.reply Reference.host (Sample.answers (Sample.variant_A Sample.x_wins))
  = Accepted Sample.x_wins
  /\ Page.winner
       (view (snd (Page.makeMove Reference.host
                     (Sample.answers (Sample.variant_A Sample.x_wins)) 3
                     Sample.page_idle))) = JStr "X"
  /\ Part000.reply (Sample.answers (Sample.variant_B Sample.after_five))
     = Accepted Sample.after_five
  /\ Part000.winner
       (view (snd (Part000.makeMove Reference.host
                     (Sample.answers (Sample.variant_B Sample.after_five)) 5
                     Sample.part_idle))) = JNull.
Proof.
  split; [reflexivity|]. split.
  - exact (proj1 (proj1 (proj1 (winner_set_when_game_ends Reference.host
             (Sample.answers (Sample.variant_A Sample.x_wins)) 3 Sample.x_wins)
             eq_refl Sample.page_idle eq_refl) eq_refl)).
  - split; [reflexivity|].
    exact (proj2 (proj2 (winner_set_when_game_ends Reference.host
             (Sample.answers (Sample.variant_B Sample.after_five)) 5
             Sample.after_five)
             eq_refl Sample.part_idle eq_refl) eq_refl).
Defined.

(** C9.  On a rendered board, the button of a position
    [p] of the board (1..9 on the nine cells) can be clicked exactly when
    [p] is listed in [available_moves] and [isLoading] is false.  So, in a
    game state that lists open cells only, a button that displays a mark
    cannot be clicked; and after an accepted [makeMove p] whose payload no
    longer lists [p], the board is on the page, the button of [p] cannot be
    clicked and the button of every listed cell can.  In both revisions. *)
Theorem cell_clickable_iff_listed gameState cells moves :
  GameBoard_board gameState = JArr cells ->
  GameBoard_availableMoves gameState = JArr moves ->
  (forall isLoading,
      exists buttons,
        GameBoard gameState isLoading = Some buttons
        /\ (forall p,
               1 <= p <= Z.of_nat (length cells) ->
               clickable buttons p = true
               <-> In (JNum p) moves /\ isLoading = false)
        /\ (listed_cells_are_open cells moves ->
            forall p, shows_mark buttons p = true -> clickable buttons p = false))
  /\ (forall host net p gd,
         optional_member gd "game_state" = gameState ->
         truthy gameState = true ->
         ~ In (JNum p) moves ->
         (Page.reply host net = Accepted gd ->
          forall w : World Page.View,
            Page.loading (view w) = false ->
            exists buttons,
              Page.board
                (Page.TicTacToe (view (snd (Page.makeMove host net p w))))
              = Some (Some buttons)
              /\ clickable buttons p = false
              /\ forall q,
                  1 <= q <= Z.of_nat (length cells) ->
                  In (JNum q) moves ->
                  clickable buttons q = true)
         /\ (Part000.reply net = Accepted gd ->
             forall w : World Part000.View,
               Part000.loading (view w) = false ->
               exists buttons,
                 Part000.board
                   (Part000.TicTacToe
                      (view (snd (Part000.makeMove host net p w))))
                 = Some (Some buttons)
                 /\ clickable buttons p = false
                 /\ forall q,
                     1 <= q <= Z.of_nat (length cells) ->
                     In (JNum q) moves ->
                     clickable buttons q = true)).
Proof.
  intros Hb Hm.
  assert (Hboard : forall isLoading,
             exists buttons,
               GameBoard gameState isLoading = Some buttons
               /\ (forall p,
                      1 <= p <= Z.of_nat (length cells) ->
                      clickable buttons p = true
                      <-> In (JNum p) moves /\ isLoading = false)
               /\ (listed_cells_are_open cells moves ->
                   forall p,
                     shows_mark buttons p = true -> clickable buttons p = false)
               /\ (forall p, ~ In (JNum p) moves -> clickable buttons p = false)).
  { intros isLoading.
    destruct (GameBoard_array gameState isLoading cells moves Hb Hm)
      as [buttons [Hrun _]].
    exists buttons. split; [exact Hrun|]. split; [|split].
    - intros p Hp. exact (clickable_iff_listed _ _ _ _ _ _ Hb Hm Hrun Hp).
    - intros Hinv p. exact (mark_not_clickable _ _ _ _ _ _ Hb Hm Hrun Hinv).
    - intros p. exact (unlisted_not_clickable _ _ _ _ _ _ Hb Hm Hrun). }
  split.
  - intros isLoading.
    destruct (Hboard isLoading) as [buttons [Hrun [Hiff [Hmark _]]]].
    exists buttons. auto.
  - intros host net p gd Hgs Htruthy Hout.
    destruct (Hboard false) as [buttons [Hrun [Hiff [_ Hun]]]].
    split; intros E w Hl; exists buttons.
    + rewrite (page_makeMove_accepted _ _ _ _ _ E Hl). cbv zeta.
      unfold Page.TicTacToe. cbn [Page.board Page.loading Page.gameState].
      rewrite Hgs, Htruthy. cbn [negb andb]. rewrite Hrun.
      split; [reflexivity|]. split; [exact (Hun p Hout)|].
      intros q Hq Hin. apply Hiff; auto.
    + rewrite (part_makeMove_accepted host _ _ _ _ E Hl). cbv zeta.
      unfold Part000.TicTacToe.
      cbn [Part000.board Part000.loading Part000.gameState].
      rewrite Hgs, Htruthy. cbn [negb andb]. rewrite Hrun.
      split; [reflexivity|]. split; [exact (Hun p Hout)|].
      intros q Hq Hin. apply Hiff; auto.
Qed.

Lemma cell_clickable_iff_listed_witness :
  let game := optional_member Sample.after_five "game_state" in
  exists buttons,
    GameBoard game false = Some buttons
    /\ clickable buttons 5 = false
    /\ clickable buttons 1 = false
    /\ clickable buttons 2 = true
    /\ (exists buttons',
           Page.board
             (Page.TicTacToe
                (view (snd (Page.makeMove Reference.host
                              (Sample.answers
                                 (Sample.variant_A Sample.after_five))
                              5 Sample.page_idle))))
           = Some (Some buttons')
           /\ clickable buttons' 5 = false
           /\ clickable buttons' 9 = true).
Proof.
  cbv zeta.
  destruct (cell_clickable_iff_listed
              (optional_member Sample.after_five "game_state")
              [JStr "O"; JNum 2; JNum 3; JNum 4; JStr "X";
               JNum 6; JNum 7; JNum 8; JNum 9]
              (map JNum [2; 3; 4; 6; 7; 8; 9])
              eq_refl eq_refl) as [Hboard Hmove].
  destruct (Hboard false) as [buttons [Hrun [Hiff Hmark]]].
  exists buttons. split; [exact Hrun|].
  assert (Hopen : listed_cells_are_open
                    [JStr "O"; JNum 2; JNum 3; JNum 4; JStr "X";
                     JNum 6; JNum 7; JNum 8; JNum 9]
                    (map JNum [2; 3; 4; 6; 7; 8; 9])).
  { intros p cell Hin Hcell. simpl in Hin.
    repeat (destruct Hin as [Hin|Hin];
            [injection Hin as <-; simpl in Hcell; injection Hcell as <-;
             eexists; reflexivity|]).
    contradiction. }
  assert (Hshown : shows_mark buttons 5 = true /\ shows_mark buttons 1 = true).
  { vm_compute in Hrun. injection Hrun as <-. split; reflexivity. }
  split; [exact (Hmark Hopen 5 (proj1 Hshown))|].
  split; [exact (Hmark Hopen 1 (proj2 Hshown))|].
  split.
  { apply Hiff; [simpl; lia|]. split; [simpl; tauto | reflexivity]. }
  assert (Hout : ~ In (JNum 5) (map JNum [2; 3; 4; 6; 7; 8; 9])).
  { simpl. intros H.
    repeat (destruct H as [H|H]; [discriminate H|]). exact H. }
  destruct (proj1 (Hmove Reference.host
                     (Sample.answers (Sample.variant_A Sample.after_five))
                     5 Sample.after_five eq_refl eq_refl Hout)
              eq_refl Sample.page_idle eq_refl)
    as [buttons' [Hscreen [Hfive Hrest]]].
  exists buttons'. split; [exact Hscreen|]. split; [exact Hfive|].
  apply Hrest; [simpl; lia | simpl; tauto].
Defined.

(** The invariant of the game state is what keeps a mark from being
    clicked: the page does not look at what a cell holds when it enables its
    button.  In a game state that lists position 1 although the cell holds
    X, the button of position 1 displays the mark and can be clicked. *)
Lemma listed_mark_is_clickable :
  exists buttons,
    GameBoard Sample.marked_but_listed false = Some buttons
    /\ shows_mark buttons 1 = true
    /\ clickable buttons 1 = true.
Proof. eexists. split; [reflexivity|]. split; reflexivity. Qed.

(** C10. [startNewGame] clears [winner] and sets [gameStatus] back to
    ["in_progress"] before its request goes out, and after every failed
    reply -- network, envelope or parse failure -- they are still so,
    whatever they were before, while [gameState] is the one it was. *)
Theorem startNewGame_reset_survives_failure host net :
  (forall w : World Page.View,
      let w0 := snd (Page.startNewGame_reset w) in
      Page.winner (view w0) = JNull
      /\ Page.gameStatus (view w0) = JStr "in_progress"
      /\ requests w0 = requests w)
  /\ (forall (w : World Page.View) k,
         Page.reply host net = Failed k ->
         let v := view (snd (Page.startNewGame host net w)) in
         Page.winner v = JNull
         /\ Page.gameStatus v = JStr "in_progress"
         /\ Page.gameState v = Page.gameState (view w))
  /\ (forall w : World Part000.View,
         let w0 := snd (Part000.startNewGame_reset w) in
         Part000.winner (view w0) = JNull
         /\ Part000.gameStatus (view w0) = JStr "in_progress"
         /\ requests w0 = requests w)
  /\ (forall (w : World Part000.View) k,
         Part000.reply net = Failed k ->
         let v := view (snd (Part000.startNewGame host net w)) in
         Part000.winner v = JNull
         /\ Part000.gameStatus v = JStr "in_progress"
         /\ Part000.gameState v = Part000.gameState (view w)).
Proof.
  split; [|split; [|split]].
  - intros w. cbv zeta. repeat split.
  - intros w k E. cbv zeta.
    rewrite (page_startNewGame_failed_view _ _ _ _ E). repeat split.
  - intros w. cbv zeta. repeat split.
  - intros w k E. cbv zeta.
    rewrite (part_startNewGame_failed_view host _ _ _ E). repeat split.
Qed.

Lemma startNewGame_reset_survives_failure_witness :
  Page.reply Reference.host Sample.offline = Failed NetworkFailure
  /\ Page.winner
       (view (snd (Page.startNewGame Reference.host Sample.offline
                     Sample.page_won))) = JNull
  /\ Part000.reply Sample.offline = Failed NetworkFailure
  /\ Part000.gameStatus
       (view (snd (Part000.startNewGame Reference.host Sample.offline
                     Sample.part_won))) = JStr "in_progress".
Proof.
  pose proof (startNewGame_reset_survives_failure Reference.host Sample.offline)
    as [_ [Hpage [_ Hpart]]].
  split; [reflexivity|].
  split; [exact (proj1 (Hpage Sample.page_won NetworkFailure eq_refl))|].
  split; [reflexivity|].
  exact (proj1 (proj2 (Hpart Sample.part_won NetworkFailure eq_refl))).
Defined.

(** * Further properties of the page *)

(** ** Coordinates *)

Lemma safe_subtract_one (p : Z) :
  is_safe_integer p -> Number_subtract p 1 = p - 1.
Proof.
  unfold is_safe_integer, Number_subtract, round_to_double, MAX_SAFE_INTEGER.
  intros Hp.
  destruct (Z.leb_spec (Z.abs (p - 1)) (9007199254740991 + 1)); [reflexivity|].
  lia.
Qed.

Lemma safe_floor_third (x : Z) :
  - 9007199254740992 <= x <= 9007199254740992 ->
  Math_floor_third x = x / 3.
Proof.
  unfold Math_floor_third. intros Hx.
  destruct (Z.ltb_spec (Z.abs x / 3) 4503599627370496) as [_|H];
    [reflexivity|].
  exfalso.
  pose proof (Z.div_lt_upper_bound (Z.abs x) 3 4503599627370496
                ltac:(lia) ltac:(lia)).
  lia.
Qed.

Lemma safe_getPositionCoords (p : Z) :
  is_safe_integer p ->
  getPositionCoords p = {| row := (p - 1) / 3; col := Z.rem (p - 1) 3 |}.
Proof.
  intros Hp. unfold getPositionCoords. cbv zeta.
  rewrite (safe_subtract_one p Hp).
  rewrite safe_floor_third; [reflexivity|].
  unfold is_safe_integer, MAX_SAFE_INTEGER in Hp. lia.
Qed.

(** The arithmetic is that of doubles: at position [2^53 + 2] the
    subtraction rounds to [2^53], and the coordinates number the position
    one lower. *)
Example getPositionCoords_rounds :
  getPositionCoords 9007199254740994
  = {| row := 3002399751580330; col := 2 |}
  /\ 3 * 3002399751580330 + 2 + 1 = 9007199254740994 - 1.
Proof. split; reflexivity. Qed.

(** X1. [getPositionCoords] numbers the cells row by row.  A safe integer
    position from 1 on has a row from 0 on and a column in 0..2, and is
    [3 * row + col + 1]; conversely every row from 0 on and column in 0..2
    whose number [3 * row + col + 1] is a safe integer are the coordinates
    of that position.  The positions 1..9 are the cells of the rows 0..2. *)
Theorem getPositionCoords_grid :
  (forall p,
      is_safe_integer p ->
      1 <= p ->
      let c := getPositionCoords p in
      0 <= row c /\ 0 <= col c <= 2 /\ p = 3 * row c + col c + 1
      /\ (p <= 9 <-> row c <= 2))
  /\ (forall r c,
         0 <= r -> 0 <= c <= 2 ->
         is_safe_integer (3 * r + c + 1) ->
         getPositionCoords (3 * r + c + 1) = {| row := r; col := c |}).
Proof.
  split.
  - intros p Hsafe Hp. cbv zeta. rewrite (safe_getPositionCoords p Hsafe).
    cbn [row col].
    rewrite (Z.rem_mod_nonneg (p - 1) 3) by lia.
    pose proof (Z.div_mod (p - 1) 3 ltac:(lia)).
    pose proof (Z.mod_pos_bound (p - 1) 3 ltac:(lia)).
    repeat split; lia.
  - intros r c Hr Hc Hsafe.
    rewrite (safe_getPositionCoords _ Hsafe).
    replace (3 * r + c + 1 - 1) with (c + r * 3) by lia.
    rewrite (Z.rem_mod_nonneg (c + r * 3) 3) by lia.
    rewrite Z.div_add, Z.mod_add by lia.
    rewrite Z.div_small, Z.mod_small by lia.
    f_equal.
Qed.

Lemma getPositionCoords_grid_witness :
  is_safe_integer 5
  /\ getPositionCoords 5 = {| row := 1; col := 1 |}
  /\ 5 = 3 * row (getPositionCoords 5) + col (getPositionCoords 5) + 1
  /\ getPositionCoords MAX_SAFE_INTEGER
     = {| row := 3002399751580330; col := 0 |}.
Proof.
  assert (Hfive : is_safe_integer 5)
    by (unfold is_safe_integer, MAX_SAFE_INTEGER; lia).
  destruct getPositionCoords_grid as [Hto Hfrom].
  split; [exact Hfive|].
  split; [exact (Hfrom 1 1 ltac:(lia) ltac:(lia) Hfive)|].
  split; [exact (proj1 (proj2 (proj2 (Hto 5 Hfive ltac:(lia)))))|].
  apply (Hfrom 3002399751580330 0); [lia | lia|].
  unfold is_safe_integer, MAX_SAFE_INTEGER. lia.
Defined.

(** X2. Below 1 the two coordinates no longer fit together.  For a safe
    integer position that is 0 or less the row is negative and the column is
    in -2..0, since [%] keeps the sign of its dividend while [Math.floor]
    rounds down; unless the column is 0 the pair numbers the position three
    places lower. *)
Theorem getPositionCoords_below_range (p : Z) :
  is_safe_integer p ->
  p <= 0 ->
  let c := getPositionCoords p in
  row c < 0
  /\ -2 <= col c <= 0
  /\ (col c = 0 -> 3 * row c + col c + 1 = p)
  /\ (col c < 0 -> 3 * row c + col c + 1 = p - 3).
Proof.
  intros Hsafe Hp. cbv zeta. rewrite (safe_getPositionCoords p Hsafe).
  cbn [row col].
  assert (Hrem : Z.rem (p - 1) 3 = - ((1 - p) mod 3)).
  { replace (p - 1) with (- (1 - p)) by lia.
    rewrite Z.rem_opp_l by lia.
    rewrite (Z.rem_mod_nonneg (1 - p) 3) by lia. reflexivity. }
  rewrite !Hrem.
  pose proof (Z.div_mod (p - 1) 3 ltac:(lia)).
  pose proof (Z.mod_pos_bound (p - 1) 3 ltac:(lia)).
  pose proof (Z.div_mod (1 - p) 3 ltac:(lia)).
  pose proof (Z.mod_pos_bound (1 - p) 3 ltac:(lia)).
  lia.
Qed.

Lemma getPositionCoords_below_range_witness :
  is_safe_integer 0
  /\ getPositionCoords 0 = {| row := -1; col := -1 |}
  /\ 3 * row (getPositionCoords 0) + col (getPositionCoords 0) + 1 = 0 - 3.
Proof.
  assert (Hzero : is_safe_integer 0)
    by (unfold is_safe_integer, MAX_SAFE_INTEGER; lia).
  split; [exact Hzero|]. split; [reflexivity|].
  apply (getPositionCoords_below_range 0 Hzero); [lia | reflexivity].
Defined.

(** ** The info panel *)

Lemma GameInfo_renders_iff (gameState gameStatus : JSValue) :
  GameInfo gameState gameStatus = None
  <-> truthy gameState && negb (is_structured gameState) = true.
Proof.
  unfold GameInfo. destruct gameState as [| |[]|n|s|items|fields];
    cbn [truthy has_property is_structured negb andb];
    try (split; [discriminate | discriminate]);
    try (split; reflexivity || discriminate).
  - destruct (n =? 0); cbn; split; congruence.
  - destruct (s =? "")%string; cbn; split; congruence.
Qed.

(** X3. [GameInfo] is rendered on every page and reads ['metadata' in
    gameState]: it throws exactly when [gameState] is truthy and neither an
    object nor an array.  So an accepted reply whose [game_state] is a
    non-empty string, a non-zero number or [true] is installed by both
    revisions and makes the next render throw. *)
Theorem GameInfo_throws_on_primitive_state host net p gd :
  let broken :=
    truthy (optional_member gd "game_state")
    && negb (is_structured (optional_member gd "game_state")) in
  (Page.reply host net = Accepted gd ->
   forall w : World Page.View,
     (let v := view (snd (Page.startNewGame host net w)) in
      GameInfo (Page.gameState v) (Page.gameStatus v) = None
      <-> broken = true)
     /\ (Page.loading (view w) = false ->
         let v := view (snd (Page.makeMove host net p w)) in
         GameInfo (Page.gameState v) (Page.gameStatus v) = None
         <-> broken = true))
  /\ (Part000.reply net = Accepted gd ->
      forall w : World Part000.View,
        (let v := view (snd (Part000.startNewGame host net w)) in
         GameInfo (Part000.gameState v) (Part000.gameStatus v) = None
         <-> broken = true)
        /\ (Part000.loading (view w) = false ->
            let v := view (snd (Part000.makeMove host net p w)) in
            GameInfo (Part000.gameState v) (Part000.gameStatus v) = None
            <-> broken = true)).
Proof.
  cbv zeta. split; intros E w; (split; [|intros Hl]).
  - rewrite (page_startNewGame_accepted _ _ _ _ E).
    cbn [Page.gameState Page.gameStatus]. apply GameInfo_renders_iff.
  - rewrite (page_makeMove_accepted _ _ _ _ _ E Hl). cbv zeta.
    cbn [Page.gameState Page.gameStatus]. apply GameInfo_renders_iff.
  - rewrite (part_startNewGame_accepted host _ _ _ E).
    cbn [Part000.gameState Part000.gameStatus]. apply GameInfo_renders_iff.
  - rewrite (part_makeMove_accepted host _ _ _ _ E Hl). cbv zeta.
    cbn [Part000.gameState Part000.gameStatus]. apply GameInfo_renders_iff.
Qed.

Lemma GameInfo_throws_on_primitive_state_witness :
  Page.reply Reference.host
    (Sample.answers (Sample.variant_A Scenario.text_state))
  = Accepted Scenario.text_state
  /\ (let v := view (snd (Page.makeMove Reference.host
                            (Sample.answers
                               (Sample.variant_A Scenario.text_state)) 5
                            Sample.page_idle)) in
      GameInfo (Page.gameState v) (Page.gameStatus v) = None).
Proof.
  cbv zeta. split; [reflexivity|].
  apply (proj2 (proj1 (GameInfo_throws_on_primitive_state Reference.host
                         (Sample.answers
                            (Sample.variant_A Scenario.text_state))
                         5 Scenario.text_state) eq_refl Sample.page_idle)
           eq_refl).
  reflexivity.
Defined.

(** X4. "Moves Made" is read from [gameState.metadata], and [gameState] is
    the payload's [game_state]: after an accepted reply whose [game_state]
    is an object without a [metadata] property the panel shows 0, whatever
    the payload says elsewhere (its own [metadata.move_count] included). *)
Theorem moves_made_is_zero_without_state_metadata host net p gd fields :
  optional_member gd "game_state" = JObj fields ->
  has_property "metadata" (JObj fields) = Some false ->
  (Page.reply host net = Accepted gd ->
   forall w : World Page.View,
     (let v := view (snd (Page.startNewGame host net w)) in
      exists info,
        GameInfo (Page.gameState v) (Page.gameStatus v) = Some info
        /\ moveCount info = JNum 0)
     /\ (Page.loading (view w) = false ->
         let v := view (snd (Page.makeMove host net p w)) in
         exists info,
           GameInfo (Page.gameState v) (Page.gameStatus v) = Some info
           /\ moveCount info = JNum 0))
  /\ (Part000.reply net = Accepted gd ->
      forall w : World Part000.View,
        (let v := view (snd (Part000.startNewGame host net w)) in
         exists info,
           GameInfo (Part000.gameState v) (Part000.gameStatus v) = Some info
           /\ moveCount info = JNum 0)
        /\ (Part000.loading (view w) = false ->
            let v := view (snd (Part000.makeMove host net p w)) in
            exists info,
              GameInfo (Part000.gameState v) (Part000.gameStatus v)
              = Some info
              /\ moveCount info = JNum 0)).
Proof.
  intros Hgs Hmeta.
  assert (Hinfo : forall st,
             exists info,
               GameInfo (JObj fields) st = Some info
               /\ moveCount info = JNum 0).
  { intros st. unfold GameInfo. cbn [truthy]. rewrite Hmeta.
    eexists. split; reflexivity. }
  cbv zeta. split; intros E w; (split; [|intros Hl]).
  - rewrite (page_startNewGame_accepted _ _ _ _ E).
    cbn [Page.gameState Page.gameStatus]. rewrite Hgs. apply Hinfo.
  - rewrite (page_makeMove_accepted _ _ _ _ _ E Hl). cbv zeta.
    cbn [Page.gameState Page.gameStatus]. rewrite Hgs. apply Hinfo.
  - rewrite (part_startNewGame_accepted host _ _ _ E).
    cbn [Part000.gameState Part000.gameStatus]. rewrite Hgs. apply Hinfo.
  - rewrite (part_makeMove_accepted host _ _ _ _ E Hl). cbv zeta.
    cbn [Part000.gameState Part000.gameStatus]. rewrite Hgs. apply Hinfo.
Qed.

Lemma moves_made_is_zero_without_state_metadata_witness :
  optional_member (optional_member Scenario.counted "metadata") "move_count"
  = JNum 3
  /\ (let v := view (snd (Part000.makeMove Reference.host
                            (Sample.answers
                               (Sample.variant_B Scenario.counted)) 5
                            Sample.part_idle)) in
      exists info,
        GameInfo (Part000.gameState v) (Part000.gameStatus v) = Some info
        /\ moveCount info = JNum 0).
Proof.
  cbv zeta. split; [reflexivity|].
  exact (proj2 (proj2 (moves_made_is_zero_without_state_metadata
                         Reference.host
                         (Sample.answers (Sample.variant_B Scenario.counted))
                         5 Scenario.counted
                         [("board", JArr (map JNum [1; 2; 3; 4; 5; 6; 7; 8; 9]));
                          ("available_moves",
                           JArr (map JNum [1; 2; 3; 4; 5; 6; 7; 8; 9]))]
                         eq_refl eq_refl) eq_refl Sample.part_idle)
           eq_refl).
Defined.

(** ** The result dialog *)

(** X5. In each revision the description of the dialog goes with its title.
    The two revisions word every winner alike only for ["X"], ["O"] and
    ["none"]: any other value is an AI win in [page.tsx] and a draw in
    [part_000]. *)
Theorem WinnerModal_wording (winner : JSValue) (isOpen : bool) :
  let page := Page.WinnerModal winner isOpen in
  let part := Part000.WinnerModal winner in
  let known := is_string winner "X" || is_string winner "O"
               || is_string winner "none" in
  (title page = "You Won!"
   /\ description page = "Congratulations! You defeated the AI."
   \/ title page = "AI Won!"
      /\ description page
         = "The AI outplayed you this time. Want to try again?"
   \/ title page = "It's a Draw!"
      /\ description page = "Great match! No winner this time.")
  /\ (title part = "You Won!"
      /\ description part = "Congratulations! You defeated the AI."
      \/ title part = "AI Won!"
         /\ description part
            = "The AI outplayed you this time. Want to try again?"
      \/ title part = "It's a Draw!"
         /\ description part = "Great match! No winner this time.")
  /\ (known = true ->
      title page = title part /\ description page = description part)
  /\ (known = false ->
      title page = "AI Won!" /\ title part = "It's a Draw!").
Proof.
  cbv zeta. unfold Page.WinnerModal, Part000.WinnerModal.
  cbn [title description].
  destruct winner as [| |b|n|s|items|fields]; cbn [is_string negb andb orb];
    try (repeat split; auto; discriminate).
  destruct (String.eqb_spec s "X") as [->|HX];
    [cbn; repeat split; auto; discriminate|].
  destruct (String.eqb_spec s "O") as [->|HO];
    [cbn; repeat split; auto; discriminate|].
  destruct (String.eqb_spec s "none") as [->|HN];
    cbn; repeat split; auto; discriminate.
Qed.

Lemma WinnerModal_wording_witness :
  title (Page.WinnerModal (JStr "draw") true) = "AI Won!"
  /\ title (Part000.WinnerModal (JStr "draw")) = "It's a Draw!"
  /\ title (Page.WinnerModal (JStr "O") true)
     = title (Part000.WinnerModal (JStr "O")).
Proof.
  pose proof (WinnerModal_wording (JStr "draw") true) as [_ [_ [_ Hother]]].
  pose proof (WinnerModal_wording (JStr "O") true) as [_ [_ [Hknown _]]].
  split; [exact (proj1 (Hother eq_refl))|].
  split; [exact (proj2 (Hother eq_refl))|].
  exact (proj1 (Hknown eq_refl)).
Defined.

(** ** The board *)

Lemma includes_throws_anywhere (moves : JSValue) (p q : Z) :
  includes moves p = None -> includes moves q = None.
Proof. destruct moves; cbn [includes]; congruence. Qed.

Lemma board_cells_throws moves isLoading cells :
  forall index,
    board_cells moves isLoading index cells = None
    <-> cells <> [] /\ includes moves 1 = None.
Proof.
  induction cells as [|c cells IH]; intros index.
  - split; [discriminate | intros [H _]; congruence].
  - cbn [board_cells].
    destruct (includes moves (index + 1)) as [listed|] eqn:Hinc.
    + destruct (board_cells moves isLoading (index + 1) cells) eqn:E.
      * split; [discriminate|]. intros [_ H].
        rewrite (includes_throws_anywhere _ _ (index + 1) H) in Hinc.
        discriminate.
      * split; [|reflexivity]. intros _. split; [discriminate|].
        apply IH in E. exact (proj2 E).
    + split; [|reflexivity]. intros _. split; [discriminate|].
      exact (includes_throws_anywhere _ _ 1 Hinc).
Qed.

(** X6. [GameBoard] throws in two cases only: [board] is truthy and no
    array (it has no [map]), or there is a cell to render and
    [available_moves] is truthy and neither an array nor a string (it has no
    [includes]).  When it renders, there is one button per cell. *)
Theorem GameBoard_renders_unless (gameState : JSValue) (isLoading : bool) :
  (GameBoard gameState isLoading = None
   <-> (forall cells, GameBoard_board gameState <> JArr cells)
       \/ (GameBoard_board gameState <> JArr []
           /\ includes (GameBoard_availableMoves gameState) 1 = None))
  /\ (forall buttons,
         GameBoard gameState isLoading = Some buttons ->
         exists cells,
           GameBoard_board gameState = JArr cells
           /\ length buttons = length cells).
Proof.
  unfold GameBoard. split.
  - destruct (GameBoard_board gameState) as [| |b|n|s|cells|fields];
      try (split; [intros _; left; discriminate | reflexivity]).
    rewrite board_cells_throws. split.
    + intros [Hne Hinc]. right. split; [congruence | exact Hinc].
    + intros [H | [Hne Hinc]]; [destruct (H cells eq_refl)|].
      split; [congruence | exact Hinc].
  - intros buttons H.
    destruct (GameBoard_board gameState) as [| |b|n|s|cells|fields];
      try discriminate.
    exists cells. split; [reflexivity|].
    exact (board_cells_length _ _ _ _ _ H).
Qed.

Lemma GameBoard_renders_unless_witness :
  GameBoard (JObj [("board", JStr "XOX")]) false = None
  /\ GameBoard (JObj [("available_moves", JNum 5)]) false = None
  /\ (exists buttons,
         GameBoard JNull true = Some buttons /\ length buttons = 9%nat).
Proof.
  split; [|split].
  - apply (proj1 (GameBoard_renders_unless _ false)). left. discriminate.
  - apply (proj1 (GameBoard_renders_unless _ false)). right.
    split; [discriminate | reflexivity].
  - destruct (GameBoard JNull true) as [buttons|] eqn:E; [|discriminate].
    exists buttons. split; [reflexivity|].
    destruct (proj2 (GameBoard_renders_unless JNull true) buttons E)
      as [cells [Hcells Hlen]].
    injection Hcells as <-. exact Hlen.
Defined.

(** X7. Without a truthy [available_moves] no cell can be clicked, whatever
    the board holds: the page falls back on the empty list. *)
Theorem no_moves_no_clicks (gameState : JSValue) (isLoading : bool) buttons :
  truthy (optional_member gameState "available_moves") = false ->
  GameBoard gameState isLoading = Some buttons ->
  forall p, clickable buttons p = false.
Proof.
  intros Hfalsy Hrun p.
  assert (Hmoves : GameBoard_availableMoves gameState = JArr []).
  { unfold GameBoard_availableMoves, or_else. rewrite Hfalsy. reflexivity. }
  destruct (GameBoard_board gameState) as [| |b|n|s|cells|fields] eqn:Hb;
    try (unfold GameBoard in Hrun; rewrite Hb in Hrun; discriminate).
  apply (unlisted_not_clickable gameState isLoading cells [] buttons p
           Hb Hmoves Hrun).
  intros [].
Qed.

Lemma no_moves_no_clicks_witness :
  exists buttons,
    GameBoard Scenario.no_moves false = Some buttons
    /\ clickable buttons 2 = false.
Proof.
  destruct (GameBoard Scenario.no_moves false) as [buttons|] eqn:E;
    [|discriminate].
  exists buttons. split; [reflexivity|].
  exact (no_moves_no_clicks Scenario.no_moves false buttons eq_refl E 2).
Defined.

(** X8. The button at index [i] of a rendered board calls back with
    position [i + 1] and nothing else; while [isLoading] it has no callback
    and is disabled. *)
Theorem button_calls_back_its_position gameState isLoading buttons i b :
  GameBoard gameState isLoading = Some buttons ->
  nth_error buttons i = Some b ->
  button_onClick b = (if isLoading then None else Some (Z.of_nat i + 1))
  /\ (isLoading = true -> disabled b = true).
Proof.
  unfold GameBoard. intros Hrun Hb.
  destruct (GameBoard_board gameState); try discriminate.
  destruct (board_cells_callbacks _ _ _ _ _ Hrun i b Hb) as [Hcall Hdis].
  split; [|exact Hdis]. rewrite Hcall.
  destruct isLoading; cbn [negb]; [reflexivity|]. f_equal; lia.
Qed.

Lemma button_calls_back_its_position_witness :
  exists buttons b,
    GameBoard Sample.fresh_game false = Some buttons
    /\ nth_error buttons 4 = Some b
    /\ button_onClick b = Some 5.
Proof.
  destruct (GameBoard Sample.fresh_game false) as [buttons|] eqn:E;
    [|discriminate].
  destruct (nth_error buttons 4) as [b|] eqn:Hb.
  - exists buttons, b. split; [reflexivity|]. split; [exact Hb|].
    exact (proj1 (button_calls_back_its_position _ false buttons 4 b E Hb)).
  - exfalso. injection E as <-. discriminate Hb.
Defined.

(** ** Clicks and sessions *)

(** X9. A click on the cell of index [i] is a [makeMove (i + 1)] exactly
    when the board is on the page and that button can be clicked; in every
    other case (loading, no game state, a board that throws, no such cell, a
    disabled button) it changes nothing and sends nothing. *)
Theorem click_on_cell_is_a_move_or_nothing host net i :
  (forall w : World Page.View,
      (exists buttons,
          Page.loading (view w) = false
          /\ Page.board (Page.TicTacToe (view w)) = Some (Some buttons)
          /\ clickable buttons (Z.of_nat i + 1) = true
          /\ Page.handle host net (Page.ClickCell i) w
             = Page.makeMove host net (Z.of_nat i + 1) w)
      \/ ((forall buttons,
              Page.board (Page.TicTacToe (view w)) = Some (Some buttons) ->
              clickable buttons (Z.of_nat i + 1) = false)
          /\ Page.handle host net (Page.ClickCell i) w = (inr tt, w)))
  /\ (forall w : World Part000.View,
         (exists buttons,
             Part000.loading (view w) = false
             /\ Part000.board (Part000.TicTacToe (view w))
                = Some (Some buttons)
             /\ clickable buttons (Z.of_nat i + 1) = true
             /\ Part000.handle host net (Part000.ClickCell i) w
                = Part000.makeMove host net (Z.of_nat i + 1) w)
         \/ ((forall buttons,
                 Part000.board (Part000.TicTacToe (view w))
                 = Some (Some buttons) ->
                 clickable buttons (Z.of_nat i + 1) = false)
             /\ Part000.handle host net (Part000.ClickCell i) w
                = (inr tt, w))).
Proof.
  split; intros w; [apply page_click_cell | apply part_click_cell].
Qed.

Lemma click_on_cell_is_a_move_or_nothing_witness :
  Page.handle Reference.host Sample.offline (Page.ClickCell 4) Sample.page_won
  = Page.makeMove Reference.host Sample.offline 5 Sample.page_won
  /\ Part000.handle Reference.host Sample.offline (Part000.ClickCell 9)
       Sample.part_won = (inr tt, Sample.part_won).
Proof.
  pose proof (click_on_cell_is_a_move_or_nothing Reference.host Sample.offline 4)
    as [Hpage _].
  pose proof (click_on_cell_is_a_move_or_nothing Reference.host Sample.offline 9)
    as [_ Hpart].
  split.
  - destruct (Hpage Sample.page_won) as [[buttons [_ [_ [_ H]]]] | [Hno _]].
    + exact H.
    + exfalso. specialize (Hno _ eq_refl). discriminate Hno.
  - destruct (Hpart Sample.part_won) as [[buttons [_ [Hb [Hc _]]]] | [_ H]].
    + exfalso. injection Hb as <-. discriminate Hc.
    + exact H.
Defined.

(** X10. Whatever the user does and whatever the network answers, the
    handler returns normally and sends at most one request, to
    ["/api/agent"], whose command is ["new game"] or ["move p"] with [p] from
    1 on. *)
Theorem every_event_sends_at_most_one_command host net :
  (forall ev (w : World Page.View),
      fst (Page.handle host net ev w) = inr tt
      /\ (requests (snd (Page.handle host net ev w)) = requests w
          \/ exists message,
              is_command message
              /\ requests (snd (Page.handle host net ev w))
                 = (requests w
                    ++ [("/api/agent", agent_request message)])%list))
  /\ (forall ev (w : World Part000.View),
         fst (Part000.handle host net ev w) = inr tt
         /\ (requests (snd (Part000.handle host net ev w)) = requests w
             \/ exists message,
                 is_command message
                 /\ requests (snd (Part000.handle host net ev w))
                    = (requests w
                       ++ [("/api/agent", agent_request message)])%list)).
Proof.
  split; intros ev w.
  - destruct (page_handle_step host net ev w) as [H1 [H2 _]]. auto.
  - destruct (part_handle_step host net ev w) as [H1 [H2 _]]. auto.
Qed.

Lemma page_events_invariant host steps :
  forall w : World Page.View,
    Page.loading (view w) = false ->
    Forall is_agent_request (requests w) ->
    let w' := page_events host steps w in
    Page.loading (view w') = false
    /\ Forall is_agent_request (requests w')
    /\ (length (requests w) <= length (requests w')
        <= length (requests w) + length steps)%nat.
Proof.
  induction steps as [|[ev net] steps IH]; intros w Hl Hreq; cbv zeta.
  - cbn [page_events length]. repeat split; auto; lia.
  - cbn [page_events length].
    destruct (page_handle_step host net ev w) as [_ [Hsent [Hsettle _]]].
    specialize (Hsettle Hl).
    assert (Hreq' : Forall is_agent_request
                      (requests (snd (Page.handle host net ev w)))
                    /\ (length (requests w)
                        <= length (requests (snd (Page.handle host net ev w)))
                        <= length (requests w) + 1)%nat).
    { destruct Hsent as [-> | [message [Hcmd ->]]].
      - split; [exact Hreq | lia].
      - split.
        + apply Forall_app. split; [exact Hreq|]. constructor; [|constructor].
          split; [reflexivity|]. exists message. auto.
        + rewrite length_app. cbn [length]. lia. }
    destruct Hreq' as [Hall Hlen].
    destruct (IH _ Hsettle Hall) as [H1 [H2 H3]].
    repeat split; auto; lia.
Qed.

Lemma part_events_invariant host steps :
  forall w : World Part000.View,
    Part000.loading (view w) = false ->
    Forall is_agent_request (requests w) ->
    let w' := part_events host steps w in
    Part000.loading (view w') = false
    /\ Forall is_agent_request (requests w')
    /\ (length (requests w) <= length (requests w')
        <= length (requests w) + length steps)%nat.
Proof.
  induction steps as [|[ev net] steps IH]; intros w Hl Hreq; cbv zeta.
  - cbn [part_events length]. repeat split; auto; lia.
  - cbn [part_events length].
    destruct (part_handle_step host net ev w) as [_ [Hsent [Hsettle _]]].
    specialize (Hsettle Hl).
    assert (Hreq' : Forall is_agent_request
                      (requests (snd (Part000.handle host net ev w)))
                    /\ (length (requests w)
                        <= length (requests (snd (Part000.handle host net ev w)))
                        <= length (requests w) + 1)%nat).
    { destruct Hsent as [-> | [message [Hcmd ->]]].
      - split; [exact Hreq | lia].
      - split.
        + apply Forall_app. split; [exact Hreq|]. constructor; [|constructor].
          split; [reflexivity|]. exists message. auto.
        + rewrite length_app. cbn [length]. lia. }
    destruct Hreq' as [Hall Hlen].
    destruct (IH _ Hsettle Hall) as [H1 [H2 H3]].
    repeat split; auto; lia.
Qed.

(** X11. A whole session -- the mount effect, then any sequence of user
    events, each request answered in any way -- ends with [loading] false,
    has sent nothing but commands to the agent, and has sent at least the
    mount's request and at most one more per event. *)
Theorem session_invariants host first :
  (forall steps,
      let w := page_session host first steps in
      Page.loading (view w) = false
      /\ Forall is_agent_request (requests w)
      /\ (1 <= length (requests w) <= 1 + length steps)%nat)
  /\ (forall steps,
         let w := part_session host first steps in
         Part000.loading (view w) = false
         /\ Forall is_agent_request (requests w)
         /\ (1 <= length (requests w) <= 1 + length steps)%nat).
Proof.
  split; intros steps; cbv zeta.
  - unfold page_session.
    set (w0 := {| view := Page.initial; requests := []; console := [] |}).
    assert (Hreq : requests (snd (Page.startNewGame host first w0))
                   = [("/api/agent", agent_request "new game")])
      by (rewrite page_startNewGame_requests; reflexivity).
    destruct (page_events_invariant host steps
                (snd (Page.startNewGame host first w0)))
      as [H1 [H2 H3]].
    + apply page_startNewGame_settles.
    + rewrite Hreq. constructor; [|constructor].
      split; [reflexivity|]. exists "new game".
      split; [reflexivity | left; reflexivity].
    + rewrite Hreq in H3. cbn [length] in H3. repeat split; auto; lia.
  - unfold part_session.
    set (w0 := {| view := Part000.initial; requests := []; console := [] |}).
    assert (Hreq : requests (snd (Part000.startNewGame host first w0))
                   = [("/api/agent", agent_request "new game")])
      by (rewrite part_startNewGame_requests; reflexivity).
    destruct (part_events_invariant host steps
                (snd (Part000.startNewGame host first w0)))
      as [H1 [H2 H3]].
    + apply part_startNewGame_settles.
    + rewrite Hreq. constructor; [|constructor].
      split; [reflexivity|]. exists "new game".
      split; [reflexivity | left; reflexivity].
    + rewrite Hreq in H3. cbn [length] in H3. repeat split; auto; lia.
Qed.

(** X12. While every request fails, the board on the page stays the one it
    was, whatever the user clicks and however long. *)
Theorem board_survives_an_outage host :
  (forall steps (w : World Page.View),
      Forall (fun step => exists k, Page.reply host (snd step) = Failed k)
             steps ->
      Page.gameState (view (page_events host steps w))
      = Page.gameState (view w))
  /\ (forall steps (w : World Part000.View),
         Forall (fun step => exists k, Part000.reply (snd step) = Failed k)
                steps ->
         Part000.gameState (view (part_events host steps w))
         = Part000.gameState (view w)).
Proof.
  split; intros steps; induction steps as [|[ev net] steps IH];
    intros w Hall; try reflexivity;
    inversion Hall as [|step rest [k Hk] Hrest]; subst;
    cbn [page_events part_events]; rewrite (IH _ Hrest); cbn [snd] in Hk.
  - exact (proj2 (proj2 (proj2 (page_handle_step host net ev w))) k Hk).
  - exact (proj2 (proj2 (proj2 (part_handle_step host net ev w))) k Hk).
Qed.

Lemma board_survives_an_outage_witness :
  Page.gameState
    (view (page_events Reference.host
             [(Page.ClickCell 4, Sample.offline);
              (Page.ClickPlayAgain, Sample.bad_gateway);
              (Page.ClickNewGame, Sample.offline)]
             Sample.page_won))
  = Sample.fresh_game.
Proof.
  apply (proj1 (board_survives_an_outage Reference.host)
           [(Page.ClickCell 4, Sample.offline);
            (Page.ClickPlayAgain, Sample.bad_gateway);
            (Page.ClickNewGame, Sample.offline)]
           Sample.page_won).
  repeat constructor; eexists; reflexivity.
Defined.

(** X13. Play Again always takes the dialog off the page -- also when its
    request fails -- and sends exactly one ["new game"]. *)
Theorem play_again_closes_the_dialog host net :
  (forall w : World Page.View,
      let r := Page.handlePlayAgain host net w in
      fst r = inr tt
      /\ Page.winnerModal (Page.TicTacToe (view (snd r))) = None
      /\ requests (snd r)
         = (requests w ++ [("/api/agent", agent_request "new game")])%list)
  /\ (forall w : World Part000.View,
         let r := Part000.handlePlayAgain host net w in
         fst r = inr tt
         /\ Part000.winnerModal (Part000.TicTacToe (view (snd r))) = None
         /\ requests (snd r)
            = (requests w ++ [("/api/agent", agent_request "new game")])%list).
Proof.
  split; intros w; cbv zeta.
  - rewrite page_handlePlayAgain_unfold.
    split; [apply page_startNewGame_returns|]. split.
    + unfold Page.TicTacToe. cbn [Page.winnerModal].
      destruct (Page.reply host net) as [gd|k] eqn:E.
      * rewrite (page_startNewGame_accepted _ _ _ _ E). reflexivity.
      * rewrite (page_startNewGame_failed_view _ _ _ _ E). reflexivity.
    + rewrite page_startNewGame_requests. reflexivity.
  - rewrite part_handlePlayAgain_unfold.
    split; [apply part_startNewGame_returns|]. split.
    + unfold Part000.TicTacToe. cbn [Part000.winnerModal].
      destruct (Part000.reply net) as [gd|k] eqn:E.
      * rewrite (part_startNewGame_accepted host _ _ _ E). reflexivity.
      * rewrite (part_startNewGame_failed_view host _ _ _ E). reflexivity.
    + rewrite part_startNewGame_requests. reflexivity.
Qed.

(** ** What goes to the agent *)

Lemma to_int_not_nil (n : Z) :
  Z.to_int n <> Decimal.Pos Decimal.Nil
  /\ Z.to_int n <> Decimal.Neg Decimal.Nil.
Proof.
  destruct n as [|q|q]; cbn; split; try discriminate;
    intros H; injection H as H;
    exact (DecimalPos.Unsigned.to_uint_nonnil q H).
Qed.

Lemma Number_toString_injective (p q : Z) :
  Number_toString p = Number_toString q -> p = q.
Proof.
  unfold Number_toString. intros H.
  apply DecimalZ.to_int_inj.
  destruct (to_int_not_nil p) as [Hp1 Hp2].
  destruct (to_int_not_nil q) as [Hq1 Hq2].
  pose proof (NilZero.isi _ Hp1 Hp2) as Ep.
  pose proof (NilZero.isi _ Hq1 Hq2) as Eq.
  rewrite H in Ep. rewrite Ep in Eq. injection Eq as Eq. exact Eq.
Qed.

(** X14. The body of every request is JSON text that reads back as the
    object [{message, agent_id}], with the message as it was given -- quotes,
    backslashes and control characters included -- and the fixed agent
    identifier; the method is POST. *)
Theorem request_body_reads_back (message : string) :
  method (agent_request message) = "POST"
  /\ exists text,
      body (agent_request message) = JStr text
      /\ Reference.JSON_parse text
         = inr (JObj [("message", JStr message);
                      ("agent_id", JStr AGENT_ID)]).
Proof.
  split; [reflexivity|].
  pose proof (reference_reads_back
                (JObj [("message", JStr message);
                       ("agent_id", JStr AGENT_ID)]) eq_refl) as H.
  unfold reads_back in H. unfold agent_request. cbn [body].
  destruct (JSON_stringify
              (JObj [("message", JStr message); ("agent_id", JStr AGENT_ID)]))
    as [| |b|n|text|items|fields]; try contradiction.
  exists text. split; [reflexivity | exact H].
Qed.

(** X15. The commands are unambiguous.  For safe integer positions -- the
    index of a cell plus one is one -- two different positions give two
    different move commands, and no move command is the command
    ["new game"]. *)
Theorem commands_are_unambiguous (p q : Z) :
  is_safe_integer p ->
  is_safe_integer q ->
  (p <> q -> "move " ++ Number_toString p <> "move " ++ Number_toString q)
  /\ "move " ++ Number_toString p <> "new game".
Proof.
  intros _ _. split.
  - intros Hpq H. apply Hpq. cbn [append] in H.
    apply Number_toString_injective. congruence.
  - cbn [append]. discriminate.
Qed.

Lemma commands_are_unambiguous_witness :
  is_safe_integer 5
  /\ is_safe_integer 9
  /\ "move " ++ Number_toString 5 <> "move " ++ Number_toString 9
  /\ "move " ++ Number_toString 5 <> "new game".
Proof.
  assert (H5 : is_safe_integer 5)
    by (unfold is_safe_integer, MAX_SAFE_INTEGER; lia).
  assert (H9 : is_safe_integer 9)
    by (unfold is_safe_integer, MAX_SAFE_INTEGER; lia).
  destruct (commands_are_unambiguous 5 9 H5 H9) as [Hdiff Hnew].
  split; [exact H5|]. split; [exact H9|].
  split; [apply Hdiff; lia | exact Hnew].
Defined.

(** ** The two revisions side by side *)

Lemma page_startNewGame_rejected host reason w :
  view (snd (Page.startNewGame host (FetchRejects reason) w))
  = {| Page.gameState := Page.gameState (view w);
       Page.gameStatus := JStr "in_progress";
       Page.winner := JNull;
       Page.showWinnerModal := false;
       Page.loading := false;
       Page.message := Page.message (view w);
       Page.error := error_text reason |}.
Proof. reflexivity. Qed.

Lemma part_startNewGame_rejected host reason w :
  view (snd (Part000.startNewGame host (FetchRejects reason) w))
  = {| Part000.gameState := Part000.gameState (view w);
       Part000.gameStatus := JStr "in_progress";
       Part000.winner := JNull;
       Part000.loading := false;
       Part000.message := Part000.message (view w);
       Part000.error := error_text reason |}.
Proof. reflexivity. Qed.

(** X16. On a reply that both revisions accept -- an OK reply whose envelope
    has a truthy [success], the status ["success"] and a truthy [response]
    that is not a string -- the two revisions install the same state cells,
    after a new game and, from cells that agree, after a move.  From cells
    that agree they also agree after a request that is rejected. *)
Theorem revisions_agree_on_common_replies host r data p :
  ok r = true ->
  json r = inr data ->
  truthy (optional_member data "success") = true ->
  is_string (optional_member data "status") "success" = true ->
  truthy (optional_member data "response") = true ->
  (forall text, optional_member data "response" <> JStr text) ->
  forall (w1 : World Page.View) (w2 : World Part000.View),
    same_cells (view (snd (Page.startNewGame host (FetchResolves r) w1)))
               (view (snd (Part000.startNewGame host (FetchResolves r) w2)))
    /\ (same_cells (view w1) (view w2) ->
        same_cells (view (snd (Page.makeMove host (FetchResolves r) p w1)))
                   (view (snd (Part000.makeMove host (FetchResolves r) p w2))))
    /\ (forall reason,
           same_cells (view w1) (view w2) ->
           same_cells
             (view (snd (Page.startNewGame host (FetchRejects reason) w1)))
             (view (snd (Part000.startNewGame host (FetchRejects reason) w2)))).
Proof.
  intros Hok Hjson Hflag Hstatus Hfield Hobject w1 w2.
  assert (E1 : Page.reply host (FetchResolves r)
               = Accepted (optional_member data "response")).
  { apply (page_reply_accepted host r data _ Hok Hjson Hflag Hfield).
    unfold Page.payload_of.
    destruct (optional_member data "response") eqn:E; try reflexivity.
    destruct (Hobject _ eq_refl). }
  pose proof (part_reply_accepted r data Hjson Hstatus Hfield) as E2.
  split; [|split].
  - rewrite (page_startNewGame_accepted _ _ _ _ E1).
    rewrite (part_startNewGame_accepted host _ _ _ E2).
    unfold same_cells.
    cbn [Page.gameState Page.gameStatus Page.winner Page.loading
         Page.message Page.error
         Part000.gameState Part000.gameStatus Part000.winner Part000.loading
         Part000.message Part000.error].
    repeat split.
  - intros [Hgs [Hst [Hwin [Hload [Hmsg Herr]]]]].
    destruct (Page.loading (view w1)) eqn:Hl1.
    + assert (Hl2 : Part000.loading (view w2) = true) by congruence.
      unfold Page.makeMove, Part000.makeMove. unfold_effects.
      rewrite Hl1, Hl2. cbn [snd].
      unfold same_cells. repeat split; congruence.
    + assert (Hl2 : Part000.loading (view w2) = false) by congruence.
      rewrite (page_makeMove_accepted _ _ _ _ _ E1 Hl1).
      rewrite (part_makeMove_accepted host _ _ _ _ E2 Hl2).
      unfold same_cells. cbv zeta.
      cbn [Page.gameState Page.gameStatus Page.winner Page.loading
           Page.message Page.error
           Part000.gameState Part000.gameStatus Part000.winner
           Part000.loading Part000.message Part000.error].
      rewrite Hwin. repeat split.
  - intros reason [Hgs [Hst [Hwin [Hload [Hmsg Herr]]]]].
    rewrite page_startNewGame_rejected, part_startNewGame_rejected.
    unfold same_cells.
    cbn [Page.gameState Page.gameStatus Page.winner Page.loading
         Page.message Page.error
         Part000.gameState Part000.gameStatus Part000.winner Part000.loading
         Part000.message Part000.error].
    repeat split; assumption.
Qed.

Lemma revisions_agree_on_common_replies_witness :
  same_cells
    (view (snd (Page.startNewGame Reference.host
                  (FetchResolves Scenario.both_envelopes) Sample.page_idle)))
    (view (snd (Part000.startNewGame Reference.host
                  (FetchResolves Scenario.both_envelopes) Sample.part_busy))).
Proof.
  refine (proj1 (revisions_agree_on_common_replies Reference.host
                   Scenario.both_envelopes
                   (JObj [("success", JBool true);
                          ("status", JStr "success");
                          ("response", Sample.your_move)])
                   5 eq_refl eq_refl eq_refl eq_refl eq_refl _
                   Sample.page_idle Sample.part_busy)).
  intros text. discriminate.
Defined.

(** X17. A failed move changes nothing on the page but the error banner,
    which shows a non-empty text: the spinner, the board, the status text,
    the info panel, the New Game button and the result dialog are as they
    were.  This for the replies of the declared interface, whose [error]
    property, when there is one, is a string, and for errors of the host and
    of the network that carry a message. *)
Theorem failed_move_changes_only_the_banner host net p k :
  host_describes_errors host ->
  net_describes_errors net ->
  (Page.reply host net = Failed k ->
   error_field_is_text net ->
   forall w : World Page.View,
     Page.loading (view w) = false ->
     let v := view w in
     let v' := view (snd (Page.makeMove host net p w)) in
     (exists s,
         s <> "" /\ Page.errorBanner (Page.TicTacToe v') = Some (JStr s))
     /\ Page.spinner (Page.TicTacToe v') = Page.spinner (Page.TicTacToe v)
     /\ Page.board (Page.TicTacToe v') = Page.board (Page.TicTacToe v)
     /\ Page.statusText (Page.TicTacToe v')
        = Page.statusText (Page.TicTacToe v)
     /\ Page.newGameDisabled (Page.TicTacToe v')
        = Page.newGameDisabled (Page.TicTacToe v)
     /\ Page.winnerModal (Page.TicTacToe v')
        = Page.winnerModal (Page.TicTacToe v)
     /\ GameInfo (Page.gameState v') (Page.gameStatus v')
        = GameInfo (Page.gameState v) (Page.gameStatus v))
  /\ (Part000.reply net = Failed k ->
      forall w : World Part000.View,
        Part000.loading (view w) = false ->
        let v := view w in
        let v' := view (snd (Part000.makeMove host net p w)) in
        (exists s,
            s <> ""
            /\ Part000.errorBanner (Part000.TicTacToe v') = Some (JStr s))
        /\ Part000.spinner (Part000.TicTacToe v')
           = Part000.spinner (Part000.TicTacToe v)
        /\ Part000.board (Part000.TicTacToe v')
           = Part000.board (Part000.TicTacToe v)
        /\ Part000.statusText (Part000.TicTacToe v')
           = Part000.statusText (Part000.TicTacToe v)
        /\ Part000.newGameDisabled (Part000.TicTacToe v')
           = Part000.newGameDisabled (Part000.TicTacToe v)
        /\ Part000.winnerModal (Part000.TicTacToe v')
           = Part000.winnerModal (Part000.TicTacToe v)
        /\ GameInfo (Part000.gameState v') (Part000.gameStatus v')
           = GameInfo (Part000.gameState v) (Part000.gameStatus v)).
Proof.
  intros Hh Hn. split.
  - intros E Htext w Hl. cbv zeta. split.
    + destruct (proj2 (page_makeMove_failed_error _ _ p w _ E Hl Hh Hn) Htext)
        as [s [Hs Hne]].
      exists s. split; [exact Hne|].
      unfold Page.TicTacToe. cbn [Page.errorBanner].
      rewrite Hs, (truthy_text s Hne). reflexivity.
    + rewrite (page_makeMove_failed_view _ _ _ _ _ E Hl).
      unfold Page.TicTacToe.
      cbn [Page.spinner Page.board Page.statusText Page.newGameDisabled
           Page.winnerModal Page.loading Page.gameState Page.gameStatus
           Page.message Page.winner Page.showWinnerModal].
      rewrite Hl. repeat split.
  - intros E w Hl. cbv zeta. split.
    + destruct (part_makeMove_failed_error _ _ p w _ E Hl Hh Hn)
        as [s [Hs Hne]].
      exists s. split; [exact Hne|].
      unfold Part000.TicTacToe. cbn [Part000.errorBanner].
      rewrite Hs, (truthy_text s Hne). reflexivity.
    + rewrite (part_makeMove_failed_view host _ _ _ _ E Hl).
      unfold Part000.TicTacToe.
      cbn [Part000.spinner Part000.board Part000.statusText
           Part000.newGameDisabled Part000.winnerModal Part000.loading
           Part000.gameState Part000.gameStatus Part000.message
           Part000.winner].
      rewrite Hl. repeat split.
Qed.

Lemma failed_move_changes_only_the_banner_witness :
  host_describes_errors Reference.host
  /\ net_describes_errors Sample.offline
  /\ (exists s,
         s <> ""
         /\ Page.errorBanner
              (Page.TicTacToe
                 (view (snd (Page.makeMove Reference.host Sample.offline 5
                               Sample.page_won)))) = Some (JStr s))
  /\ Page.board
       (Page.TicTacToe
          (view (snd (Page.makeMove Reference.host Sample.offline 5
                        Sample.page_won))))
     = Page.board (Page.TicTacToe (view Sample.page_won)).
Proof.
  assert (Hnet : net_describes_errors Sample.offline)
    by (simpl; discriminate).
  destruct (proj1 (failed_move_changes_only_the_banner
                     Reference.host Sample.offline 5 NetworkFailure
                     reference_host_describes_errors Hnet)
              eq_refl I Sample.page_won eq_refl)
    as [Hbanner [_ [Hboard _]]].
  split; [exact reference_host_describes_errors|].
  split; [exact Hnet|].
  split; [exact Hbanner | exact Hboard].
Defined.

(** ** The console *)

Lemma errors_logged_app (a b : list ConsoleEntry) :
  errors_logged (a ++ b) = (errors_logged a ++ errors_logged b)%list.
Proof.
  induction a as [|[label v|label err] a IH]; cbn [errors_logged app];
    [reflexivity | exact IH | rewrite IH; reflexivity].
Qed.

Ltac settle_console :=
  intros; cbv zeta;
  repeat match goal with
         | H : _ = _ |- _ => discriminate H
         | H : Accepted _ = Accepted _ |- _ => injection H as H; subst
         | H : Failed _ = Failed _ |- _ => injection H as H; subst
         end;
  try match goal with
      | H : member ?v _ = Some _, H' : member ?v _ = None |- _ =>
          exfalso; exact (member_defined _ _ _ _ H H')
      | H : truthy ?v = true, H' : member ?v _ = None |- _ =>
          exfalso; destruct v; simpl in H, H'; discriminate
      end;
  rewrite ?errors_logged_app; cbn [errors_logged];
  rewrite ?app_nil_r;
  try reflexivity;
  try (eexists; split; reflexivity).

(** X18. [page.tsx] writes to [console.error] exactly the exceptions it
    catches, once each, and the banner shows the text of the one just
    caught; an accepted reply or a failure envelope writes no error line.
    [part_000] writes nothing to the console. *)
Theorem caught_errors_are_logged host net p :
  (forall w : World Page.View,
      Page.loading (view w) = false ->
      let w' := snd (Page.makeMove host net p w) in
      match Page.reply host net with
      | Accepted _ | Failed EnvelopeFailure =>
          errors_logged (console w') = errors_logged (console w)
      | Failed _ =>
          exists err,
            errors_logged (console w')
            = (errors_logged (console w) ++ [err])%list
            /\ Page.error (view w') = error_text err
      end)
  /\ (forall w : World Page.View,
         let w' := snd (Page.startNewGame host net w) in
         match Page.reply host net with
         | Accepted _ | Failed EnvelopeFailure =>
             errors_logged (console w') = errors_logged (console w)
         | Failed _ =>
             exists err,
               errors_logged (console w')
               = (errors_logged (console w) ++ [err])%list
               /\ Page.error (view w') = error_text err
         end)
  /\ (forall w : World Part000.View,
         console (snd (Part000.makeMove host net p w)) = console w
         /\ console (snd (Part000.startNewGame host net w)) = console w).
Proof.
  split; [|split].
  - intros w Hl. cbv zeta.
    unfold_page. unfold_effects. rewrite Hl.
    split_run; settle_console.
  - intros w. cbv zeta.
    unfold_page. unfold_effects.
    split_run; settle_console.
  - intros w. split.
    + unfold_part. unfold_effects. split_run; reflexivity.
    + unfold_part. unfold_effects. split_run; reflexivity.
Qed.

Lemma caught_errors_are_logged_witness :
  errors_logged
    (console (snd (Page.makeMove Reference.host Sample.offline 5
                     Sample.page_idle)))
  <> errors_logged (console Sample.page_idle).
Proof.
  destruct (proj1 (caught_errors_are_logged Reference.host Sample.offline 5)
              Sample.page_idle eq_refl) as [err [Hlog _]].
  rewrite Hlog. cbn [Sample.page_idle console errors_logged app].
  discriminate.
Defined.

(** ** The info panel through a session *)

Lemma is_string_iff (v : JSValue) (literal : string) :
  is_string v literal = true <-> v = JStr literal.
Proof.
  destruct v as [| |b|n|s|items|fields]; cbn [is_string];
    try (split; discriminate).
  destruct (String.eqb_spec s literal) as [->|Hne]; split; auto;
    [discriminate | congruence].
Qed.

(** X19. When [GameInfo] renders, it shows at most one of its three status
    panels, each for its own status text, and none for any other status
    (a payload without [game_status] leaves [undefined]). *)
Theorem GameInfo_shows_one_panel (gameState gameStatus : JSValue) info :
  GameInfo gameState gameStatus = Some info ->
  (currentTurn info = true <-> gameStatus = JStr "in_progress")
  /\ (gameOver info = true <-> gameStatus = JStr "won")
  /\ (itsADraw info = true <-> gameStatus = JStr "draw")
  /\ currentTurn info && gameOver info = false
  /\ currentTurn info && itsADraw info = false
  /\ gameOver info && itsADraw info = false.
Proof.
  unfold GameInfo. intros H.
  destruct (if truthy gameState then has_property "metadata" gameState
            else Some false) as [present|]; [|discriminate].
  apply Some_injective in H. subst info. cbn [currentTurn gameOver itsADraw].
  split; [apply is_string_iff|].
  split; [apply is_string_iff|].
  split; [apply is_string_iff|].
  destruct gameStatus as [| |b|n|s|items|fields]; cbn [is_string andb];
    auto.
  destruct (String.eqb_spec s "in_progress") as [->|H1];
    [cbn; auto|].
  destruct (String.eqb_spec s "won") as [->|H2]; cbn; auto.
Qed.

Lemma GameInfo_shows_one_panel_witness :
  exists info,
    GameInfo Sample.fresh_game (JStr "won") = Some info
    /\ gameOver info = true
    /\ currentTurn info && gameOver info = false.
Proof.
  destruct (GameInfo Sample.fresh_game (JStr "won")) as [info|] eqn:E;
    [|discriminate].
  exists info. split; [reflexivity|].
  destruct (GameInfo_shows_one_panel Sample.fresh_game (JStr "won") info E)
    as [_ [Hwon [_ [Hex _]]]].
  split; [exact (proj2 Hwon eq_refl) | exact Hex].
Defined.

(** X20. A new game that fails leaves the info panel on "Your move (X)"
    with the count of the game that was on the page: the status was reset
    before the request and the game state is the old one. *)
Theorem failed_new_game_says_your_move host net k :
  (Page.reply host net = Failed k ->
   forall (w : World Page.View) before,
     GameInfo (Page.gameState (view w)) (Page.gameStatus (view w))
     = Some before ->
     let v' := view (snd (Page.startNewGame host net w)) in
     GameInfo (Page.gameState v') (Page.gameStatus v')
     = Some {| moveCount := moveCount before; currentTurn := true;
               gameOver := false; itsADraw := false |})
  /\ (Part000.reply net = Failed k ->
      forall (w : World Part000.View) before,
        GameInfo (Part000.gameState (view w)) (Part000.gameStatus (view w))
        = Some before ->
        let v' := view (snd (Part000.startNewGame host net w)) in
        GameInfo (Part000.gameState v') (Part000.gameStatus v')
        = Some {| moveCount := moveCount before; currentTurn := true;
                  gameOver := false; itsADraw := false |}).
Proof.
  split; intros E w before Hbefore; cbv zeta.
  - rewrite (page_startNewGame_failed_view _ _ _ _ E).
    cbn [Page.gameState Page.gameStatus].
    unfold GameInfo in *.
    destruct (if truthy (Page.gameState (view w))
              then has_property "metadata" (Page.gameState (view w))
              else Some false) as [present|]; [|discriminate].
    apply Some_injective in Hbefore. subst before. reflexivity.
  - rewrite (part_startNewGame_failed_view host _ _ _ E).
    cbn [Part000.gameState Part000.gameStatus].
    unfold GameInfo in *.
    destruct (if truthy (Part000.gameState (view w))
              then has_property "metadata" (Part000.gameState (view w))
              else Some false) as [present|]; [|discriminate].
    apply Some_injective in Hbefore. subst before. reflexivity.
Qed.

Lemma failed_new_game_says_your_move_witness :
  let v' := view (snd (Page.startNewGame Reference.host Sample.offline
                         Sample.page_won)) in
  GameInfo (Page.gameState v') (Page.gameStatus v')
  = Some {| moveCount := JNum 0; currentTurn := true;
            gameOver := false; itsADraw := false |}.
Proof.
  exact (proj1 (failed_new_game_says_your_move Reference.host Sample.offline
                  NetworkFailure)
           eq_refl Sample.page_won
           {| moveCount := JNum 0; currentTurn := false;
              gameOver := true; itsADraw := false |}
           eq_refl).
Defined.

(** ** Where the game state comes from *)

Lemma page_handle_board host net ev w :
  Page.gameState (view (snd (Page.handle host net ev w)))
  = Page.gameState (view w)
  \/ exists gd,
      Page.reply host net = Accepted gd
      /\ Page.gameState (view (snd (Page.handle host net ev w)))
         = optional_member gd "game_state".
Proof.
  destruct (Page.reply host net) as [gd|k] eqn:E.
  - destruct (page_handle_cases host net ev w)
      as [H | [[p [Hp [Hl H]]] | [[Hl H] | H]]]; rewrite H; clear H.
    + left. reflexivity.
    + right. exists gd. split; [reflexivity|].
      rewrite (page_makeMove_accepted _ _ _ _ _ E Hl). reflexivity.
    + right. exists gd. split; [reflexivity|].
      rewrite (page_startNewGame_accepted _ _ _ _ E). reflexivity.
    + right. exists gd. split; [reflexivity|].
      rewrite page_handlePlayAgain_unfold.
      rewrite (page_startNewGame_accepted _ _ _ _ E). reflexivity.
  - left. exact (proj2 (proj2 (proj2 (page_handle_step host net ev w))) k E).
Qed.

Lemma part_handle_board host net ev w :
  Part000.gameState (view (snd (Part000.handle host net ev w)))
  = Part000.gameState (view w)
  \/ exists gd,
      Part000.reply net = Accepted gd
      /\ Part000.gameState (view (snd (Part000.handle host net ev w)))
         = optional_member gd "game_state".
Proof.
  destruct (Part000.reply net) as [gd|k] eqn:E.
  - destruct (part_handle_cases host net ev w)
      as [H | [[p [Hp [Hl H]]] | [[Hl H] | H]]]; rewrite H; clear H.
    + left. reflexivity.
    + right. exists gd. split; [reflexivity|].
      rewrite (part_makeMove_accepted host _ _ _ _ E Hl). reflexivity.
    + right. exists gd. split; [reflexivity|].
      rewrite (part_startNewGame_accepted host _ _ _ E). reflexivity.
    + right. exists gd. split; [reflexivity|].
      rewrite part_handlePlayAgain_unfold.
      rewrite (part_startNewGame_accepted host _ _ _ E). reflexivity.
  - left. exact (proj2 (proj2 (proj2 (part_handle_step host net ev w))) k E).
Qed.

Lemma page_events_board host steps :
  forall w : World Page.View,
    Page.gameState (view (page_events host steps w))
    = Page.gameState (view w)
    \/ exists net gd,
        In net (map snd steps)
        /\ Page.reply host net = Accepted gd
        /\ Page.gameState (view (page_events host steps w))
           = optional_member gd "game_state".
Proof.
  induction steps as [|[ev net] steps IH]; intros w.
  - left. reflexivity.
  - cbn [page_events map snd].
    destruct (IH (snd (Page.handle host net ev w)))
      as [Hsame | [net' [gd [Hin [Hr Hg]]]]].
    + rewrite Hsame.
      destruct (page_handle_board host net ev w) as [H | [gd [Hr Hg]]].
      * left. exact H.
      * right. exists net, gd. split; [left; reflexivity | auto].
    + right. exists net', gd. split; [right; exact Hin | auto].
Qed.

Lemma part_events_board host steps :
  forall w : World Part000.View,
    Part000.gameState (view (part_events host steps w))
    = Part000.gameState (view w)
    \/ exists net gd,
        In net (map snd steps)
        /\ Part000.reply net = Accepted gd
        /\ Part000.gameState (view (part_events host steps w))
           = optional_member gd "game_state".
Proof.
  induction steps as [|[ev net] steps IH]; intros w.
  - left. reflexivity.
  - cbn [part_events map snd].
    destruct (IH (snd (Part000.handle host net ev w)))
      as [Hsame | [net' [gd [Hin [Hr Hg]]]]].
    + rewrite Hsame.
      destruct (part_handle_board host net ev w) as [H | [gd [Hr Hg]]].
      * left. exact H.
      * right. exists net, gd. split; [left; reflexivity | auto].
    + right. exists net', gd. split; [right; exact Hin | auto].
Qed.

(** X21. The [gameState] cell mirrors the agent: at the end of every
    session it is [null], as at the start, or the [game_state] of the
    payload of a reply that was accepted in this session.  The page writes
    no game state of its own making into the cell.  (What [GameBoard] draws
    for a game state without a board is another matter: its nine default
    cells.) *)
Theorem gameState_comes_from_the_agent host first :
  (forall steps,
      let shown := Page.gameState (view (page_session host first steps)) in
      shown = JNull
      \/ exists net gd,
          In net (first :: map snd steps)
          /\ Page.reply host net = Accepted gd
          /\ shown = optional_member gd "game_state")
  /\ (forall steps,
         let shown :=
           Part000.gameState (view (part_session host first steps)) in
         shown = JNull
         \/ exists net gd,
             In net (first :: map snd steps)
             /\ Part000.reply net = Accepted gd
             /\ shown = optional_member gd "game_state").
Proof.
  split; intros steps; cbv zeta.
  - unfold page_session.
    set (w0 := {| view := Page.initial; requests := []; console := [] |}).
    destruct (page_events_board host steps
                (snd (Page.startNewGame host first w0)))
      as [Hsame | [net [gd [Hin [Hr Hg]]]]].
    + rewrite Hsame.
      destruct (Page.reply host first) as [gd|k] eqn:E.
      * right. exists first, gd. split; [left; reflexivity|].
        split; [exact E|].
        rewrite (page_startNewGame_accepted _ _ _ _ E). reflexivity.
      * left. rewrite (page_startNewGame_failed_view _ _ _ _ E). reflexivity.
    + right. exists net, gd. split; [right; exact Hin | auto].
  - unfold part_session.
    set (w0 := {| view := Part000.initial; requests := []; console := [] |}).
    destruct (part_events_board host steps
                (snd (Part000.startNewGame host first w0)))
      as [Hsame | [net [gd [Hin [Hr Hg]]]]].
    + rewrite Hsame.
      destruct (Part000.reply first) as [gd|k] eqn:E.
      * right. exists first, gd. split; [left; reflexivity|].
        split; [exact E|].
        rewrite (part_startNewGame_accepted host _ _ _ E). reflexivity.
      * left. rewrite (part_startNewGame_failed_view host _ _ _ E).
        reflexivity.
    + right. exists net, gd. split; [right; exact Hin | auto].
Qed.
